(** * TalentVector AI: candidate/job matching and feedback-driven weights

    A shallow embedding of [backend/matching.py] (class
    [CandidateJobMatcher]) and [backend/feedback.py] (class
    [FeedbackCollector]).

    Numbers.  A finite Python [float] is the rational ([Q]) it denotes,
    and equality of scores is [Qeq].  The code is embedded twice.  With
    exact arithmetic ([round(x, n)] is rounding to the nearest multiple of
    [10^-n], ties to the even neighbour), for the properties of order,
    range and control flow that rounding does not disturb.  And with the
    interpreter's arithmetic, every operation rounded to binary64 (to
    binary32 where numpy computes in [float32]), for the values a call
    returns and the comparisons made on computed values.

    Effects.  [matching.py] raises exceptions and calls into numpy and
    scikit-learn; it is embedded in a writer/error monad that logs every
    call into the numeric libraries.  [feedback.py] mutates the collector,
    reads and writes an SQLite file and reads the wall clock; it is embedded
    in a state/error monad over a [System] holding the collector, the two
    tables, the clock and a schedule of storage outages. *)

From Stdlib Require Import QArith Qround Qminmax Qabs Qpower Lqa ZArith Lia.
From Stdlib Require Import List String Ascii Bool DecimalString.
From Stdlib Require Import Sorting.Sorted Sorting.Permutation.
Import ListNotations.

Local Open Scope Q_scope.

(** ** Exceptions and results *)

Inductive exn : Type :=
| ValueError (msg : string)
| TypeError (msg : string)
| OperationalError (msg : string)   (* sqlite3.OperationalError *)
| DatabaseError (msg : string).      (* utils.DatabaseError *)

(** [str(e)] *)
Definition str_exn (e : exn) : string :=
  match e with
  | ValueError m | TypeError m | OperationalError m | DatabaseError m => m
  end.

Inductive result (A : Type) : Type :=
| Ok (a : A)
| Raise (e : exn).
Arguments Ok {A} a.
Arguments Raise {A} e.

(** ** Python numerics on rationals *)

Definition Qlt_bool (x y : Q) : bool :=
  match x ?= y with Lt => true | _ => false end.

Definition Qge_bool (x y : Q) : bool := Qle_bool y x.
Definition Qgt_bool (x y : Q) : bool := Qlt_bool y x.

(** Nearest integer, ties to even: what [round] does on the exact value. *)
Definition round_half_even (x : Q) : Z :=
  let f := Qfloor x in
  match ((x - inject_Z f) ?= (1 # 2))%Q with
  | Lt => f
  | Gt => (f + 1)%Z
  | Eq => if Z.even f then f else (f + 1)%Z
  end.

Definition pow10 (ndigits : nat) : Q := inject_Z (10 ^ Z.of_nat ndigits).

(** [round(x, ndigits)] *)
Definition py_round (x : Q) (ndigits : nat) : Q :=
  inject_Z (round_half_even (x * pow10 ndigits)) / pow10 ndigits.

(** [str(n)] for an integer. *)
Definition str_Z (n : Z) : string := NilZero.string_of_int (Z.to_int n).

(** [f"{x:.0%}"]: the percentage with no decimals. *)
Definition format_percent0 (x : Q) : string :=
  (str_Z (round_half_even (x * 100)) ++ "%")%string.

(** [f"{x:.1f}"]: fixed point with one decimal. *)
Definition format_1f (x : Q) : string :=
  let n := round_half_even (x * 10) in
  let a := Z.abs n in
  ((if (n <? 0)%Z then "-" else EmptyString) ++
   str_Z (a / 10) ++ "." ++ str_Z (a mod 10))%string.

(** [". ".join(parts)] *)
Fixpoint join (sep : string) (parts : list string) : string :=
  match parts with
  | [] => EmptyString
  | [p] => p
  | p :: rest => (p ++ sep ++ join sep rest)%string
  end.

(** [dict.get(key, default)] on a key that may be absent. *)
Definition dict_get {A : Type} (entry : option A) (default : A) : A :=
  match entry with Some v => v | None => default end.

(** [list.sort(key=..., reverse=True)] and [ORDER BY ... DESC]: a stable
    sort into descending key order (equal keys keep their input order). *)
Section SortDesc.
Context {A : Type} (key : A -> Q).

Fixpoint insert_desc (x : A) (l : list A) : list A :=
  match l with
  | [] => [x]
  | y :: l' =>
      if Qlt_bool (key x) (key y) then y :: insert_desc x l' else x :: l
  end.

Fixpoint sort_desc (l : list A) : list A :=
  match l with
  | [] => []
  | x :: l' => insert_desc x (sort_desc l')
  end.

(** [a] may come before [b] in descending order. *)
Definition descending (a b : A) : Prop := key b <= key a.

End SortDesc.

(** [l[:k]]: the first [k] elements, or all but the last [-k] when [k] is
    negative. *)
Definition slice_to {A : Type} (l : list A) (k : Z) : list A :=
  if (k <? 0)%Z
  then firstn (Z.to_nat (Z.of_nat (List.length l) + k)) l
  else firstn (Z.to_nat k) l.

(** ** Binary floating point

    A finite floating-point number is the rational it denotes, and an
    operation of the interpreter is the exact operation followed by
    rounding to the nearest number of the format, ties to the one with
    the even significand (IEEE 754 round-to-nearest-even, which CPython
    and numpy use).  [binary64] is a Python [float], [binary32] a
    [numpy.float32].  Infinities and NaN are not represented: a result
    beyond the largest finite number of a format is outside this model. *)

Module Float.

(** [2^e] for an exponent of either sign. *)
Definition pow2 (e : Z) : Q := Qpower 2 e.

(** The binary exponent of a number that is not zero:
    [pow2 (ilog2 x) <= |x| < pow2 (ilog2 x + 1)]. *)
Definition ilog2 (x : Q) : Z :=
  let k := (Z.log2 (Z.abs (Qnum x)) - Z.log2 (Zpos (Qden x)))%Z in
  if Qle_bool (pow2 k) (Qabs x) then k else (k - 1)%Z.

(** The nearest multiple of [pow2 e], ties to the even multiple. *)
Definition round_at (e : Z) (x : Q) : Q :=
  inject_Z (round_half_even (x / pow2 e)) * pow2 e.

(** Rounding to the format with [prec] significant bits whose smallest
    positive number is [pow2 emin]. *)
Definition round_binary (prec emin : Z) (x : Q) : Q :=
  round_at (Z.max (ilog2 x - prec + 1) emin) x.

Definition binary64 : Q -> Q := round_binary 53 (-1074).
Definition binary32 : Q -> Q := round_binary 24 (-149).

(** A decimal literal of the source, such as [0.6]: the float nearest to
    it. *)
Definition lit (q : Q) : Q := binary64 q.

(** Python's [+], [-], [*] and [/] on floats. *)
Definition add (x y : Q) : Q := binary64 (x + y).
Definition sub (x y : Q) : Q := binary64 (x - y).
Definition mul (x y : Q) : Q := binary64 (x * y).
Definition div (x y : Q) : Q := binary64 (x / y).

(** [round(x, ndigits)] on a float: the decimal nearest to the exact value
    of [x], ties to even, then the float nearest to that decimal. *)
Definition round (x : Q) (ndigits : nat) : Q := binary64 (py_round x ndigits).

(** [sum(values)] on floats, as CPython before 3.12 computes it: the
    additions are made from left to right, each one rounded. *)
Definition sum (values : list Q) : Q := fold_left add values 0.

(** numpy's [+] and [/] on a [float32] scalar and a Python integer. *)
Definition add32 (x y : Q) : Q := binary32 (x + y).
Definition div32 (x y : Q) : Q := binary32 (x / y).

End Float.

(** ** backend/matching.py *)

Module Matching.

(** Calls into numpy and scikit-learn, in the order they are made. *)
Inductive numeric_op : Type :=
| np_array (values : list Q)              (* np.array(.., dtype=float32).reshape(1, -1) *)
| sk_cosine_similarity (X Y : list Q).    (* sklearn cosine_similarity(X, Y) *)

(** A computation that logs its library calls and returns or raises. *)
Definition Run (A : Type) : Type := (list numeric_op * result A)%type.

Definition ret {A : Type} (a : A) : Run A := ([], Ok a).
Definition raise {A : Type} (e : exn) : Run A := ([], Raise e).
Definition bind {A B : Type} (m : Run A) (f : A -> Run B) : Run B :=
  match m with
  | (w, Ok a) => let (w', r) := f a in (w ++ w', r)
  | (w, Raise e) => (w, Raise e)
  end.

Notation "x <- m ;; k" := (bind m (fun x => k))
  (at level 61, m at next level, right associativity).

Definition numeric_work {A : Type} (m : Run A) : list numeric_op := fst m.
Definition outcome {A : Type} (m : Run A) : result A := snd m.

(** A profile dictionary: string keys, string values. *)
Definition Profile : Type := list (string * string).

Fixpoint profile_get (p : Profile) (k default : string) : string :=
  match p with
  | [] => default
  | (k', v) :: p' => if String.eqb k k' then v else profile_get p' k default
  end.

(** The dictionary [compute_match] returns. *)
Record MatchResult : Type := {
  similarity_score : Q;
  screening_score : Q;
  final_score : Q;
  recommendation : string;
  explanation : string;
  candidate_id : string;
  hiring_profile_id : string
}.

Record CandidateJobMatcher : Type := {
  similarity_weight : Q;
  screening_weight : Q
}.

(** [CandidateJobMatcher.__init__] *)
Definition init : CandidateJobMatcher :=
  {| similarity_weight := 6 # 10; screening_weight := 4 # 10 |}.

(** [CandidateJobMatcher._get_recommendation] *)
Definition _get_recommendation (final_score : Q) : string :=
  if Qge_bool final_score 8 then
    "STRONG MATCH - Recommend immediate interview/next round"
  else if Qge_bool final_score 7 then
    "GOOD MATCH - Recommend for consideration"
  else if Qge_bool final_score 6 then
    "MODERATE MATCH - Consider if other candidates limited"
  else if Qge_bool final_score 5 then
    "WEAK MATCH - Not recommended at this time"
  else
    "POOR MATCH - Do not recommend".

(** [CandidateJobMatcher._generate_explanation] *)
Definition _generate_explanation (similarity screening_score final_score : Q)
    (candidate_profile hiring_profile : option Profile) : string :=
  let candidate_name :=
    match candidate_profile with
    | Some (_ :: _ as p) => profile_get p "name" "Candidate"
    | _ => "Candidate"%string
    end in
  let role :=
    match hiring_profile with
    | Some (_ :: _ as p) => profile_get p "role_title" "role"
    | _ => "role"%string
    end in
  let part1 :=
    if Qge_bool similarity (9 # 10) then
      ("Strong technical compatibility (" ++ format_percent0 similarity ++ ")")%string
    else if Qge_bool similarity (7 # 10) then
      ("Good technical fit (" ++ format_percent0 similarity ++ ")")%string
    else if Qge_bool similarity (5 # 10) then
      ("Moderate technical overlap (" ++ format_percent0 similarity ++ ")")%string
    else
      ("Limited technical match (" ++ format_percent0 similarity ++ ")")%string in
  let part2 :=
    if Qge_bool screening_score 8 then
      ("Excellent screening performance (" ++ format_1f screening_score ++ "/10)")%string
    else if Qge_bool screening_score 6 then
      ("Good screening results (" ++ format_1f screening_score ++ "/10)")%string
    else if Qge_bool screening_score 4 then
      ("Acceptable responses (" ++ format_1f screening_score ++ "/10)")%string
    else
      ("Poor screening performance (" ++ format_1f screening_score ++ "/10)")%string in
  (join ". " [part1; part2] ++ ".")%string.

(** Python truthiness of a list: [not l] holds of the empty list. *)
Definition is_empty {A : Type} (l : list A) : bool :=
  match l with [] => true | _ => false end.

Section Library.

(** scikit-learn's [cosine_similarity] on two single-row matrices: the
    value of [cosine_similarity(arr1, arr2)[0][0]], or the exception the
    library raises. *)
Variable cosine_similarity : list Q -> list Q -> result Q.

(** [CandidateJobMatcher._compute_cosine_similarity] *)
Definition _compute_cosine_similarity (embedding1 embedding2 : list Q) : Run Q :=
  arr1 <- ([np_array embedding1], Ok embedding1) ;;
  arr2 <- ([np_array embedding2], Ok embedding2) ;;
  similarity <- ([sk_cosine_similarity arr1 arr2], cosine_similarity arr1 arr2) ;;
  let normalized_similarity := (similarity + 1) / 2 in
  ret normalized_similarity.

(** [CandidateJobMatcher.compute_match] *)
Definition compute_match (self : CandidateJobMatcher)
    (hiring_embedding candidate_embedding : list Q) (screening_score : Q)
    (candidate_id hiring_profile_id : string)
    (candidate_profile hiring_profile : option Profile) : Run MatchResult :=
  if is_empty hiring_embedding || is_empty candidate_embedding then
    raise (ValueError "Both embeddings must be provided")
  else if Qlt_bool screening_score 0 || Qgt_bool screening_score 10 then
    raise (ValueError "Screening score must be between 0 and 10")
  else
    similarity_score <-
      _compute_cosine_similarity hiring_embedding candidate_embedding ;;
    let normalized_screening := screening_score / 10 in
    let final_score :=
      (similarity_weight self * similarity_score)
      + (screening_weight self * normalized_screening) in
    let final_score_scaled := final_score * 10 in
    let recommendation := _get_recommendation final_score_scaled in
    let explanation :=
      _generate_explanation similarity_score screening_score
        final_score_scaled candidate_profile hiring_profile in
    ret {| similarity_score := py_round similarity_score 3;
           screening_score := py_round screening_score 2;
           final_score := py_round final_score_scaled 2;
           recommendation := recommendation;
           explanation := explanation;
           candidate_id := candidate_id;
           hiring_profile_id := hiring_profile_id |}.

(** A candidate dictionary as [batch_match_candidates] reads it; [None] is
    an absent key. *)
Record Candidate : Type := {
  cand_embedding : option (list Q);
  cand_screening_score : option Q;
  cand_id : option string;
  cand_hiring_profile_id : option string;
  cand_profile : option Profile
}.

(** An element of the list [batch_match_candidates] returns: a match
    dictionary, or the three-key dictionary built in the [except] branch. *)
Inductive BatchEntry : Type :=
| Matched (m : MatchResult)
| Failed (candidate_id : string) (error : string) (final_score : Q).

(** [lambda x: x.get("final_score", -1)] *)
Definition sort_key (x : BatchEntry) : Q :=
  match x with
  | Matched m => final_score m
  | Failed _ _ s => s
  end.

(** The loop body of [batch_match_candidates]: one [try]/[except]. *)
Definition match_candidate (self : CandidateJobMatcher)
    (hiring_embedding : list Q) (hiring_profile : option Profile)
    (candidate : Candidate) : BatchEntry :=
  match outcome (compute_match self hiring_embedding
                   (dict_get (cand_embedding candidate) [])
                   (dict_get (cand_screening_score candidate) 5)
                   (dict_get (cand_id candidate) EmptyString)
                   (dict_get (cand_hiring_profile_id candidate) EmptyString)
                   (cand_profile candidate)
                   hiring_profile) with
  | Ok r => Matched r
  | Raise e => Failed (dict_get (cand_id candidate) EmptyString) (str_exn e) (-1)
  end.

(** [CandidateJobMatcher.batch_match_candidates] *)
Definition batch_match_candidates (self : CandidateJobMatcher)
    (hiring_embedding : list Q) (candidates : list Candidate)
    (hiring_profile : option Profile) : list BatchEntry :=
  let results := map (match_candidate self hiring_embedding hiring_profile) candidates in
  sort_desc sort_key results.

End Library.

(** [x.get("final_score", default)]: a match dictionary and the dictionary
    of the [except] branch both carry the key. *)
Definition get_final_score (x : BatchEntry) (default : Q) : Q :=
  match x with
  | Matched m => final_score m
  | Failed _ _ s => s
  end.

(** [CandidateJobMatcher.get_top_matches] *)
Definition get_top_matches (self : CandidateJobMatcher)
    (match_results : list BatchEntry) (top_k : Z) : list BatchEntry :=
  slice_to (sort_desc (fun x => get_final_score x 0) match_results) top_k.

(** [CandidateJobMatcher.filter_by_threshold] *)
Definition filter_by_threshold (self : CandidateJobMatcher)
    (match_results : list BatchEntry) (min_score : Q) : list BatchEntry :=
  filter (fun r => Qge_bool (get_final_score r 0) min_score) match_results.

End Matching.

(** ** backend/matching.py with the interpreter's arithmetic

    [compute_match] and the functions it calls once more, with every
    arithmetic step rounded as Python and numpy round it: operations on
    [float]s to binary64, operations on the [float32] value the library
    returns to binary32.  The monad, the records and [_get_recommendation]
    (comparisons with integers only) are those of [Matching].  The
    embedding above, with exact arithmetic, is used for properties of
    order and range; this one for the values returned. *)

Module FloatMatching.

Import Matching.

(** [CandidateJobMatcher.__init__] *)
Definition init : CandidateJobMatcher :=
  {| similarity_weight := Float.lit (6 # 10);
     screening_weight := Float.lit (4 # 10) |}.

(** [f"{x:.0%}"]: the float is multiplied by 100, then printed with no
    decimals. *)
Definition format_percent0 (x : Q) : string :=
  (str_Z (round_half_even (Float.mul x 100)) ++ "%")%string.

(** [CandidateJobMatcher._generate_explanation] *)
Definition _generate_explanation (similarity screening_score final_score : Q)
    (candidate_profile hiring_profile : option Profile) : string :=
  let candidate_name :=
    match candidate_profile with
    | Some (_ :: _ as p) => profile_get p "name" "Candidate"
    | _ => "Candidate"%string
    end in
  let role :=
    match hiring_profile with
    | Some (_ :: _ as p) => profile_get p "role_title" "role"
    | _ => "role"%string
    end in
  let part1 :=
    if Qge_bool similarity (Float.lit (9 # 10)) then
      ("Strong technical compatibility (" ++ format_percent0 similarity ++ ")")%string
    else if Qge_bool similarity (Float.lit (7 # 10)) then
      ("Good technical fit (" ++ format_percent0 similarity ++ ")")%string
    else if Qge_bool similarity (Float.lit (5 # 10)) then
      ("Moderate technical overlap (" ++ format_percent0 similarity ++ ")")%string
    else
      ("Limited technical match (" ++ format_percent0 similarity ++ ")")%string in
  let part2 :=
    if Qge_bool screening_score 8 then
      ("Excellent screening performance (" ++ format_1f screening_score ++ "/10)")%string
    else if Qge_bool screening_score 6 then
      ("Good screening results (" ++ format_1f screening_score ++ "/10)")%string
    else if Qge_bool screening_score 4 then
      ("Acceptable responses (" ++ format_1f screening_score ++ "/10)")%string
    else
      ("Poor screening performance (" ++ format_1f screening_score ++ "/10)")%string in
  (join ". " [part1; part2] ++ ".")%string.

Section Library.

(** scikit-learn's [cosine_similarity] on two single-row [float32]
    matrices: the value of [cosine_similarity(arr1, arr2)[0][0]], a
    [float32], or the exception the library raises. *)
Variable cosine_similarity : list Q -> list Q -> result Q.

(** [np.array(embedding, dtype=np.float32).reshape(1, -1)] *)
Definition float32_row (embedding : list Q) : list Q :=
  map Float.binary32 embedding.

(** [CandidateJobMatcher._compute_cosine_similarity] *)
Definition _compute_cosine_similarity (embedding1 embedding2 : list Q) : Run Q :=
  arr1 <- ([np_array embedding1], Ok (float32_row embedding1)) ;;
  arr2 <- ([np_array embedding2], Ok (float32_row embedding2)) ;;
  similarity <- ([sk_cosine_similarity arr1 arr2], cosine_similarity arr1 arr2) ;;
  let normalized_similarity := Float.div32 (Float.add32 similarity 1) 2 in
  ret normalized_similarity.

(** [CandidateJobMatcher.compute_match] *)
Definition compute_match (self : CandidateJobMatcher)
    (hiring_embedding candidate_embedding : list Q) (screening_score : Q)
    (candidate_id hiring_profile_id : string)
    (candidate_profile hiring_profile : option Profile) : Run MatchResult :=
  if is_empty hiring_embedding || is_empty candidate_embedding then
    raise (ValueError "Both embeddings must be provided")
  else if Qlt_bool screening_score 0 || Qgt_bool screening_score 10 then
    raise (ValueError "Screening score must be between 0 and 10")
  else
    similarity_score <-
      _compute_cosine_similarity hiring_embedding candidate_embedding ;;
    let normalized_screening := Float.div screening_score 10 in
    let final_score :=
      Float.add (Float.mul (similarity_weight self) similarity_score)
        (Float.mul (screening_weight self) normalized_screening) in
    let final_score_scaled := Float.mul final_score 10 in
    let recommendation := _get_recommendation final_score_scaled in
    let explanation :=
      _generate_explanation similarity_score screening_score
        final_score_scaled candidate_profile hiring_profile in
    ret {| similarity_score := Float.round similarity_score 3;
           screening_score := Float.round screening_score 2;
           final_score := Float.round final_score_scaled 2;
           recommendation := recommendation;
           explanation := explanation;
           candidate_id := candidate_id;
           hiring_profile_id := hiring_profile_id |}.

End Library.

End FloatMatching.

(** ** backend/feedback.py *)

Module Feedback.

(** A row of table [feedback]. *)
Record FeedbackRow : Type := {
  row_id : Z;
  row_candidate_id : string;
  row_hiring_manager_id : string;
  row_final_score : Q;
  row_feedback : string;
  row_notes : option string;
  row_created_at : Z              (* CURRENT_TIMESTAMP, whole seconds *)
}.

(** A row of table [weight_history]. *)
Record WeightHistoryRow : Type := {
  wh_id : Z;
  wh_similarity_weight : Q;
  wh_screening_weight : Q;
  wh_confidence : Q;
  wh_trigger_action : string;
  wh_feedback_count : Z;
  wh_created_at : Z
}.

(** The attributes [__init__] sets on the collector. *)
Record FeedbackCollector : Type := {
  similarity_weight : Q;
  screening_weight : Q;
  confidence : Q;
  learning_rate : Q;
  min_feedback_for_adjustment : Z
}.

(** The collector together with what it acts on: the two tables of the
    SQLite file (in insertion order), the wall clock in microseconds, and
    for each coming connection whether it fails ([true]); a schedule that
    has run out means the storage works. *)
Record System : Type := {
  self : FeedbackCollector;
  feedback_table : list FeedbackRow;
  weight_history_table : list WeightHistoryRow;
  clock : Z;
  outages : list bool
}.

(** State and exceptions: a raised exception keeps the mutations made
    before it. *)
Definition M (A : Type) : Type := System -> result A * System.

Definition ret {A : Type} (a : A) : M A := fun s => (Ok a, s).
Definition raise {A : Type} (e : exn) : M A := fun s => (Raise e, s).
Definition bind {A B : Type} (m : M A) (f : A -> M B) : M B :=
  fun s => match m s with
           | (Ok a, s') => f a s'
           | (Raise e, s') => (Raise e, s')
           end.

(** [try: m except Exception as e: handler(e)] *)
Definition try_except {A : Type} (m : M A) (handler : exn -> M A) : M A :=
  fun s => match m s with
           | (Ok a, s') => (Ok a, s')
           | (Raise e, s') => handler e s'
           end.

Notation "x <- m ;; k" := (bind m (fun x => k))
  (at level 61, m at next level, right associativity).
Notation "m ;; k" := (bind m (fun _ => k))
  (at level 61, right associativity).

Definition get_self : M FeedbackCollector := fun s => (Ok (self s), s).

Definition put_self (c : FeedbackCollector) : M unit :=
  fun s => (Ok tt, {| self := c;
                      feedback_table := feedback_table s;
                      weight_history_table := weight_history_table s;
                      clock := clock s;
                      outages := outages s |}).

Definition set_similarity_weight (v : Q) : M unit :=
  c <- get_self ;;
  put_self {| similarity_weight := v;
              screening_weight := screening_weight c;
              confidence := confidence c;
              learning_rate := learning_rate c;
              min_feedback_for_adjustment := min_feedback_for_adjustment c |}.

Definition set_screening_weight (v : Q) : M unit :=
  c <- get_self ;;
  put_self {| similarity_weight := similarity_weight c;
              screening_weight := v;
              confidence := confidence c;
              learning_rate := learning_rate c;
              min_feedback_for_adjustment := min_feedback_for_adjustment c |}.

Definition set_confidence (v : Q) : M unit :=
  c <- get_self ;;
  put_self {| similarity_weight := similarity_weight c;
              screening_weight := screening_weight c;
              confidence := v;
              learning_rate := learning_rate c;
              min_feedback_for_adjustment := min_feedback_for_adjustment c |}.

(** [datetime.now()] *)
Definition datetime_now : M Z := fun s => (Ok (clock s), s).

(** [sqlite3.connect(self.db_path)] and the statements run on the
    connection: one entry of the outage schedule is taken per connection,
    and a failure anywhere in the block counts as the connection failing. *)
Definition connect : M unit :=
  fun s =>
    let s' := {| self := self s;
                 feedback_table := feedback_table s;
                 weight_history_table := weight_history_table s;
                 clock := clock s;
                 outages := tl (outages s) |} in
    match outages s with
    | true :: _ => (Raise (OperationalError "unable to open database file"), s')
    | _ => (Ok tt, s')
    end.

(** SQLite's [CURRENT_TIMESTAMP]: the clock in whole seconds. *)
Definition current_timestamp (s : System) : Z := (clock s / 1000000)%Z.

(** The id an [AUTOINCREMENT] key gives the next row of an append-only table. *)
Definition next_rowid {R : Type} (id : R -> Z) (table : list R) : Z :=
  (1 + fold_right Z.max 0 (map id table))%Z.

(** [INSERT INTO feedback (...) VALUES (?, ?, ?, ?, ?)], commit; returns
    [cursor.lastrowid]. *)
Definition insert_feedback (candidate_id hiring_manager_id : string)
    (final_score : Q) (feedback : string) (notes : option string) : M Z :=
  fun s =>
    let feedback_id := next_rowid row_id (feedback_table s) in
    let row := {| row_id := feedback_id;
                  row_candidate_id := candidate_id;
                  row_hiring_manager_id := hiring_manager_id;
                  row_final_score := final_score;
                  row_feedback := feedback;
                  row_notes := notes;
                  row_created_at := current_timestamp s |} in
    (Ok feedback_id,
     {| self := self s;
        feedback_table := feedback_table s ++ [row];
        weight_history_table := weight_history_table s;
        clock := clock s;
        outages := outages s |}).

(** [INSERT INTO weight_history (...) VALUES (?, ?, ?, ?, ?)], commit. *)
Definition insert_weight_history (similarity_weight screening_weight confidence : Q)
    (trigger_action : string) (feedback_count : Z) : M unit :=
  fun s =>
    let row := {| wh_id := next_rowid wh_id (weight_history_table s);
                  wh_similarity_weight := similarity_weight;
                  wh_screening_weight := screening_weight;
                  wh_confidence := confidence;
                  wh_trigger_action := trigger_action;
                  wh_feedback_count := feedback_count;
                  wh_created_at := current_timestamp s |} in
    (Ok tt,
     {| self := self s;
        feedback_table := feedback_table s;
        weight_history_table := weight_history_table s ++ [row];
        clock := clock s;
        outages := outages s |}).

(** [SELECT COUNT( * ) FROM feedback] *)
Definition select_count_feedback : M Z :=
  fun s => (Ok (Z.of_nat (List.length (feedback_table s))), s).

(** [SELECT ... FROM feedback ORDER BY created_at DESC LIMIT ?]; rows with
    the same [created_at] come out in insertion order. *)
Definition select_recent_feedback (limit : nat) : M (list FeedbackRow) :=
  fun s =>
    (Ok (firstn limit
           (sort_desc (fun r => inject_Z (row_created_at r)) (feedback_table s))),
     s).

(** [SELECT ... FROM feedback ORDER BY created_at DESC] *)
Definition select_all_feedback : M (list FeedbackRow) :=
  fun s =>
    (Ok (sort_desc (fun r => inject_Z (row_created_at r)) (feedback_table s)), s).

(** [SELECT ... FROM weight_history ORDER BY created_at DESC LIMIT ?] *)
Definition select_weight_history (limit : nat) : M (list WeightHistoryRow) :=
  fun s =>
    (Ok (firstn limit
           (sort_desc (fun r => inject_Z (wh_created_at r)) (weight_history_table s))),
     s).

(** The dictionaries [_get_recent_feedback] and [export_feedback_data]
    build from a row. *)
Record FeedbackDict : Type := {
  candidate_id : string;
  hiring_manager_id : string;
  final_score : Q;
  feedback : string;
  notes : option string;
  created_at : Z
}.

Definition feedback_dict (row : FeedbackRow) : FeedbackDict :=
  {| candidate_id := row_candidate_id row;
     hiring_manager_id := row_hiring_manager_id row;
     final_score := row_final_score row;
     feedback := row_feedback row;
     notes := row_notes row;
     created_at := row_created_at row |}.

(** The dictionaries [get_weight_history] builds from a row. *)
Record WeightHistoryDict : Type := {
  hist_similarity_weight : Q;
  hist_screening_weight : Q;
  hist_confidence : Q;
  hist_trigger_action : string;
  hist_feedback_count : Z;
  hist_created_at : Z
}.

Definition weight_history_dict (row : WeightHistoryRow) : WeightHistoryDict :=
  {| hist_similarity_weight := wh_similarity_weight row;
     hist_screening_weight := wh_screening_weight row;
     hist_confidence := wh_confidence row;
     hist_trigger_action := wh_trigger_action row;
     hist_feedback_count := wh_feedback_count row;
     hist_created_at := wh_created_at row |}.

(** [FeedbackCollector._record_weight_adjustment] *)
Definition _record_weight_adjustment (trigger_action : string)
    (feedback_count : Z) : M unit :=
  try_except
    (connect ;;
     c <- get_self ;;
     insert_weight_history (similarity_weight c) (screening_weight c)
       (confidence c) trigger_action feedback_count)
    (fun e => ret tt).

(** [FeedbackCollector._get_feedback_count] *)
Definition _get_feedback_count : M Z :=
  try_except
    (connect ;;
     count <- select_count_feedback ;;
     ret count)
    (fun e => ret 0%Z).

(** [FeedbackCollector._get_recent_feedback] *)
Definition _get_recent_feedback (limit : nat) : M (list FeedbackDict) :=
  try_except
    (connect ;;
     rows <- select_recent_feedback limit ;;
     ret (map feedback_dict rows))
    (fun e => ret []).

(** [sum(values)] *)
Definition py_sum (values : list Q) : Q := fold_left Qplus values 0.

(** [len(l)] as a number. *)
Definition len {A : Type} (l : list A) : Z := Z.of_nat (List.length l).

Definition nonempty {A : Type} (l : list A) : bool :=
  match l with [] => false | _ => true end.

(** The [if]/[elif] chain of [_adjust_weights_based_on_feedback] (patterns
    1 to 4): returns [(delta_similarity, delta_screening, trigger_action)]
    and raises the confidence where the chain does. *)
Definition select_adjustment (good_fits not_fits : list FeedbackDict)
    (avg_good_fit_score avg_not_fit_score : Q) : M (Q * Q * string) :=
  c <- get_self ;;
  if nonempty not_fits && Qgt_bool avg_not_fit_score (65 # 10) then
    ret (- learning_rate c, learning_rate c,
         "Reduce similarity weight (false positives detected)"%string)
  else if nonempty good_fits && Qlt_bool avg_good_fit_score 5 then
    ret (- learning_rate c * (25 # 100), learning_rate c * (5 # 10),
         "Increase screening weight (good low-score candidates)"%string)
  else if nonempty good_fits && Qgt_bool avg_good_fit_score (75 # 10) then
    set_confidence (Qmin (95 # 100) (confidence c + (1 # 10))) ;;
    ret (learning_rate c * (3 # 10), learning_rate c * (2 # 10),
         "Reinforce current weights (strong matches)"%string)
  else if nonempty not_fits && Qlt_bool avg_not_fit_score 5 then
    set_confidence (Qmin (95 # 100) (confidence c + (5 # 100))) ;;
    ret (0, 0, "Low scores consistently rejected (good filtering)"%string)
  else
    ret (0, 0, EmptyString).

(** The block under "Apply weight adjustments". *)
Definition apply_weight_adjustments (delta_similarity delta_screening : Q) : M unit :=
  if negb (Qeq_bool delta_similarity 0) || negb (Qeq_bool delta_screening 0) then
    c <- get_self ;;
    set_similarity_weight
      (Qmax (3 # 10) (Qmin (8 # 10) (similarity_weight c + delta_similarity))) ;;
    set_screening_weight
      (Qmax (2 # 10) (Qmin (7 # 10) (screening_weight c + delta_screening))) ;;
    c <- get_self ;;
    let total := similarity_weight c + screening_weight c in
    if Qgt_bool total 0 then
      set_similarity_weight (similarity_weight c / total) ;;
      set_screening_weight (screening_weight c / total)
    else ret tt
  else ret tt.

(** [FeedbackCollector._adjust_weights_based_on_feedback] *)
Definition _adjust_weights_based_on_feedback : M unit :=
  try_except
    (feedback_data <- _get_recent_feedback 10 ;;
     if negb (nonempty feedback_data) then ret tt
     else
       let good_fits :=
         filter (fun f => String.eqb (feedback f) "Good Fit") feedback_data in
       let not_fits :=
         filter (fun f => String.eqb (feedback f) "Not a Fit") feedback_data in
       let avg_good_fit_score :=
         if nonempty good_fits
         then py_sum (map final_score good_fits) / inject_Z (len good_fits)
         else 5 in
       let avg_not_fit_score :=
         if nonempty not_fits
         then py_sum (map final_score not_fits) / inject_Z (len not_fits)
         else 5 in
       d <- select_adjustment good_fits not_fits
              avg_good_fit_score avg_not_fit_score ;;
       let '(delta_similarity, delta_screening, trigger_action) := d in
       apply_weight_adjustments delta_similarity delta_screening ;;
       _record_weight_adjustment trigger_action (len feedback_data))
    (fun e => ret tt).

(** [FeedbackCollector._try_adjust_weights] *)
Definition _try_adjust_weights : M unit :=
  try_except
    (feedback_count <- _get_feedback_count ;;
     c <- get_self ;;
     if (feedback_count >=? min_feedback_for_adjustment c)%Z
     then _adjust_weights_based_on_feedback
     else ret tt)
    (fun e => ret tt).

(** [FeedbackCollector.record_feedback] *)
Definition record_feedback (candidate_id hiring_manager_id : string)
    (final_score : Q) (feedback : string) (notes : option string) : M string :=
  if negb (existsb (String.eqb feedback) ["Good Fit"; "Not a Fit"]%string) then
    raise (ValueError "Feedback must be 'Good Fit' or 'Not a Fit'")
  else
    try_except
      (connect ;;
       feedback_id <- insert_feedback candidate_id hiring_manager_id
                        final_score feedback notes ;;
       _try_adjust_weights ;;
       ret (str_Z feedback_id))
      (fun e => raise (DatabaseError
                         ("Failed to record feedback: " ++ str_exn e))).

(** The dictionary [get_weights] returns. *)
Record Weights : Type := {
  w_similarity_weight : Q;
  w_screening_weight : Q;
  w_confidence : Q;
  w_total_feedback : Z;
  w_updated_at : Z                (* datetime.now().isoformat() *)
}.

(** [FeedbackCollector.get_weights] *)
Definition get_weights : M Weights :=
  c <- get_self ;;
  total_feedback <- _get_feedback_count ;;
  updated_at <- datetime_now ;;
  ret {| w_similarity_weight := py_round (similarity_weight c) 3;
         w_screening_weight := py_round (screening_weight c) 3;
         w_confidence := py_round (confidence c) 3;
         w_total_feedback := total_feedback;
         w_updated_at := updated_at |}.

(** [FeedbackCollector.get_weight_history] *)
Definition get_weight_history (limit : nat) : M (list WeightHistoryDict) :=
  try_except
    (connect ;;
     rows <- select_weight_history limit ;;
     ret (map weight_history_dict rows))
    (fun e => ret []).

(** [GROUP BY feedback]: the distinct labels, in ascending order. *)
Fixpoint insert_label (k : string) (ks : list string) : list string :=
  match ks with
  | [] => [k]
  | k' :: ks' =>
      match String.compare k k' with
      | Lt => k :: ks
      | Eq => ks
      | Gt => k' :: insert_label k ks'
      end
  end.

Definition group_labels (rows : list FeedbackRow) : list string :=
  fold_right insert_label [] (map row_feedback rows).

Definition rows_labelled (label : string) (rows : list FeedbackRow) : list FeedbackRow :=
  filter (fun r => String.eqb (row_feedback r) label) rows.

(** [SELECT feedback, COUNT( * ) FROM feedback GROUP BY feedback] *)
Definition select_feedback_counts : M (list (string * Z)) :=
  fun s =>
    let rows := feedback_table s in
    (Ok (map (fun k => (k, len (rows_labelled k rows))) (group_labels rows)), s).

(** [SELECT feedback, AVG(final_score), COUNT( * ) FROM feedback GROUP BY feedback] *)
Definition select_score_stats : M (list (string * Q * Z)) :=
  fun s =>
    let rows := feedback_table s in
    (Ok (map (fun k =>
                let g := rows_labelled k rows in
                (k, py_sum (map row_final_score g) / inject_Z (len g), len g))
             (group_labels rows)), s).

(** [dict(pairs).get(key, default)]: of two pairs with one key the later
    one is kept. *)
Fixpoint pairs_get (pairs : list (string * Z)) (key : string) (default : Z) : Z :=
  match pairs with
  | [] => default
  | (k, v) :: rest =>
      pairs_get rest key (if String.eqb k key then v else default)
  end.

Record ScoreStatistic : Type := {
  stat_feedback : string;
  stat_avg_score : Q;
  stat_count : Z
}.

(** The dictionary [get_feedback_analytics] returns: the full report, or
    the two-key dictionary of its [except] branch. *)
Inductive Analytics : Type :=
| Report (total_feedback good_fit_count not_fit_count : Z)
         (good_fit_percentage : Q)
         (score_statistics : list ScoreStatistic)
         (current_weights : Weights)
| Degraded (total_feedback : Z) (error : string).

(** [FeedbackCollector.get_feedback_analytics] *)
Definition get_feedback_analytics : M Analytics :=
  try_except
    (connect ;;
     total <- select_count_feedback ;;
     feedback_counts <- select_feedback_counts ;;
     score_stats <- select_score_stats ;;
     let good_fit_count := pairs_get feedback_counts "Good Fit" 0%Z in
     let not_fit_count := pairs_get feedback_counts "Not a Fit" 0%Z in
     let good_fit_percentage :=
       if (total >? 0)%Z
       then py_round (inject_Z good_fit_count / inject_Z total * 100) 1
       else 0 in
     let score_statistics :=
       map (fun stat : string * Q * Z =>
              let '(label, avg, n) := stat in
              {| stat_feedback := label;
                 stat_avg_score := py_round avg 2;
                 stat_count := n |})
           score_stats in
     current_weights <- get_weights ;;
     ret (Report total good_fit_count not_fit_count good_fit_percentage
            score_statistics current_weights))
    (fun e => ret (Degraded 0 (str_exn e))).

(** [FeedbackCollector.reset_weights] *)
Definition reset_weights : M unit :=
  set_similarity_weight (6 # 10) ;;
  set_screening_weight (4 # 10) ;;
  set_confidence (5 # 10) ;;
  feedback_count <- _get_feedback_count ;;
  _record_weight_adjustment "Manual reset to defaults" feedback_count.

(** [FeedbackCollector.export_feedback_data] *)
Definition export_feedback_data : M (list FeedbackDict) :=
  try_except
    (connect ;;
     rows <- select_all_feedback ;;
     ret (map feedback_dict rows))
    (fun e => ret []).

(** [FeedbackCollector.init_database]: [CREATE TABLE IF NOT EXISTS] keeps
    the tables the file already has. *)
Definition init_database : M unit :=
  try_except
    (connect ;; ret tt)
    (fun e => raise (DatabaseError
                       ("Database initialization failed: " ++ str_exn e))).

(** [FeedbackCollector.__init__]; the data directory is taken to exist. *)
Definition __init__ : M unit :=
  try_except
    (init_database ;;
     put_self {| similarity_weight := 6 # 10;
                 screening_weight := 4 # 10;
                 confidence := 5 # 10;
                 learning_rate := 5 # 100;
                 min_feedback_for_adjustment := 5 |})
    (fun e => raise (DatabaseError
                       ("FeedbackCollector initialization failed: " ++ str_exn e))).

(** The state a call leaves and the value it gives. *)
Definition state_after {A : Type} (m : M A) (s : System) : System := snd (m s).
Definition value_of {A : Type} (m : M A) (s : System) : result A := fst (m s).

(** The operations a caller has on a collector. *)
Inductive call : Type :=
| RecordFeedback (candidate_id hiring_manager_id : string) (final_score : Q)
                 (feedback : string) (notes : option string)
| GetWeights
| GetWeightHistory (limit : nat)
| GetFeedbackAnalytics
| ResetWeights
| ExportFeedbackData.

Definition run_call (c : call) (s : System) : System :=
  match c with
  | RecordFeedback cid hm fs fb n => state_after (record_feedback cid hm fs fb n) s
  | GetWeights => state_after get_weights s
  | GetWeightHistory limit => state_after (get_weight_history limit) s
  | GetFeedbackAnalytics => state_after get_feedback_analytics s
  | ResetWeights => state_after reset_weights s
  | ExportFeedbackData => state_after export_feedback_data s
  end.

(** What happens around the calls: time passes and the storage comes and
    goes. *)
Definition environment (s : System) (clock' : Z) (outages' : list bool) : System :=
  {| self := self s;
     feedback_table := feedback_table s;
     weight_history_table := weight_history_table s;
     clock := clock';
     outages := outages' |}.

(** The systems a collector can be in: constructed by [__init__], then any
    calls, with the clock moving forward between them. *)
Inductive reachable : System -> Prop :=
| reach_init (s0 s : System) :
    __init__ s0 = (Ok tt, s) -> reachable s
| reach_call (c : call) (s : System) :
    reachable s -> reachable (run_call c s)
| reach_env (s : System) (clock' : Z) (outages' : list bool) :
    reachable s -> (clock s <= clock')%Z ->
    reachable (environment s clock' outages').

End Feedback.

(** ** backend/feedback.py with the interpreter's arithmetic

    The adjustment pass and the calls that lead to it once more, with
    every arithmetic step on [float]s rounded to binary64 and the decimal
    literals of the source read as the floats nearest to them.  The state,
    the monad and the storage are those of [Feedback]; the final scores in
    the tables are the floats that were stored. *)

Module FloatFeedback.

Import Feedback.

(** The [if]/[elif] chain of [_adjust_weights_based_on_feedback] (patterns
    1 to 4): returns [(delta_similarity, delta_screening, trigger_action)]
    and raises the confidence where the chain does. *)
Definition select_adjustment (good_fits not_fits : list FeedbackDict)
    (avg_good_fit_score avg_not_fit_score : Q) : M (Q * Q * string) :=
  c <- get_self ;;
  if nonempty not_fits && Qgt_bool avg_not_fit_score (Float.lit (65 # 10)) then
    ret (- learning_rate c, learning_rate c,
         "Reduce similarity weight (false positives detected)"%string)
  else if nonempty good_fits && Qlt_bool avg_good_fit_score 5 then
    ret (Float.mul (- learning_rate c) (Float.lit (25 # 100)),
         Float.mul (learning_rate c) (Float.lit (5 # 10)),
         "Increase screening weight (good low-score candidates)"%string)
  else if nonempty good_fits && Qgt_bool avg_good_fit_score (Float.lit (75 # 10)) then
    set_confidence
      (Qmin (Float.lit (95 # 100)) (Float.add (confidence c) (Float.lit (1 # 10)))) ;;
    ret (Float.mul (learning_rate c) (Float.lit (3 # 10)),
         Float.mul (learning_rate c) (Float.lit (2 # 10)),
         "Reinforce current weights (strong matches)"%string)
  else if nonempty not_fits && Qlt_bool avg_not_fit_score 5 then
    set_confidence
      (Qmin (Float.lit (95 # 100)) (Float.add (confidence c) (Float.lit (5 # 100)))) ;;
    ret (0, 0, "Low scores consistently rejected (good filtering)"%string)
  else
    ret (0, 0, EmptyString).

(** The block under "Apply weight adjustments". *)
Definition apply_weight_adjustments (delta_similarity delta_screening : Q) : M unit :=
  if negb (Qeq_bool delta_similarity 0) || negb (Qeq_bool delta_screening 0) then
    c <- get_self ;;
    set_similarity_weight
      (Qmax (Float.lit (3 # 10))
         (Qmin (Float.lit (8 # 10))
            (Float.add (similarity_weight c) delta_similarity))) ;;
    set_screening_weight
      (Qmax (Float.lit (2 # 10))
         (Qmin (Float.lit (7 # 10))
            (Float.add (screening_weight c) delta_screening))) ;;
    c <- get_self ;;
    let total := Float.add (similarity_weight c) (screening_weight c) in
    if Qgt_bool total 0 then
      set_similarity_weight (Float.div (similarity_weight c) total) ;;
      set_screening_weight (Float.div (screening_weight c) total)
    else ret tt
  else ret tt.

(** [FeedbackCollector._adjust_weights_based_on_feedback] *)
Definition _adjust_weights_based_on_feedback : M unit :=
  try_except
    (feedback_data <- _get_recent_feedback 10 ;;
     if negb (nonempty feedback_data) then ret tt
     else
       let good_fits :=
         filter (fun f => String.eqb (feedback f) "Good Fit") feedback_data in
       let not_fits :=
         filter (fun f => String.eqb (feedback f) "Not a Fit") feedback_data in
       let avg_good_fit_score :=
         if nonempty good_fits
         then Float.div (Float.sum (map final_score good_fits))
                (inject_Z (len good_fits))
         else 5 in
       let avg_not_fit_score :=
         if nonempty not_fits
         then Float.div (Float.sum (map final_score not_fits))
                (inject_Z (len not_fits))
         else 5 in
       d <- select_adjustment good_fits not_fits
              avg_good_fit_score avg_not_fit_score ;;
       let '(delta_similarity, delta_screening, trigger_action) := d in
       apply_weight_adjustments delta_similarity delta_screening ;;
       _record_weight_adjustment trigger_action (len feedback_data))
    (fun e => ret tt).

(** [FeedbackCollector._try_adjust_weights] *)
Definition _try_adjust_weights : M unit :=
  try_except
    (feedback_count <- _get_feedback_count ;;
     c <- get_self ;;
     if (feedback_count >=? min_feedback_for_adjustment c)%Z
     then _adjust_weights_based_on_feedback
     else ret tt)
    (fun e => ret tt).

(** [FeedbackCollector.record_feedback] *)
Definition record_feedback (candidate_id hiring_manager_id : string)
    (final_score : Q) (feedback : string) (notes : option string) : M string :=
  if negb (existsb (String.eqb feedback) ["Good Fit"; "Not a Fit"]%string) then
    raise (ValueError "Feedback must be 'Good Fit' or 'Not a Fit'")
  else
    try_except
      (connect ;;
       feedback_id <- insert_feedback candidate_id hiring_manager_id
                        final_score feedback notes ;;
       _try_adjust_weights ;;
       ret (str_Z feedback_id))
      (fun e => raise (DatabaseError
                         ("Failed to record feedback: " ++ str_exn e))).

(** [FeedbackCollector.reset_weights] *)
Definition reset_weights : M unit :=
  set_similarity_weight (Float.lit (6 # 10)) ;;
  set_screening_weight (Float.lit (4 # 10)) ;;
  set_confidence (Float.lit (5 # 10)) ;;
  feedback_count <- _get_feedback_count ;;
  _record_weight_adjustment "Manual reset to defaults" feedback_count.

(** [FeedbackCollector.__init__]; the data directory is taken to exist. *)
Definition __init__ : M unit :=
  try_except
    (init_database ;;
     put_self {| similarity_weight := Float.lit (6 # 10);
                 screening_weight := Float.lit (4 # 10);
                 confidence := Float.lit (5 # 10);
                 learning_rate := Float.lit (5 # 100);
                 min_feedback_for_adjustment := 5 |})
    (fun e => raise (DatabaseError
                       ("FeedbackCollector initialization failed: " ++ str_exn e))).

(** The systems a collector can be in: constructed by [__init__], then
    any calls, with the clock moving forward and the storage coming and
    going between them.  A call that only reads ([get_weights],
    [get_weight_history], [get_feedback_analytics],
    [export_feedback_data]) changes nothing but the outage schedule, and
    is a step of the environment here. *)
Inductive reachable : System -> Prop :=
| reach_init (s0 s : System) :
    __init__ s0 = (Ok tt, s) -> reachable s
| reach_record (candidate_id hiring_manager_id : string) (final_score : Q)
      (feedback : string) (notes : option string) (s : System) :
    reachable s ->
    reachable (state_after (record_feedback candidate_id hiring_manager_id
                              final_score feedback notes) s)
| reach_reset (s : System) :
    reachable s -> reachable (state_after reset_weights s)
| reach_env (s : System) (clock' : Z) (outages' : list bool) :
    reachable s -> (clock s <= clock')%Z ->
    reachable (environment s clock' outages').

End FloatFeedback.

(** ** backend/main.py: the matching and feedback endpoints

    The module-level [matcher] and [feedback_collector] are the matcher
    passed to the matching endpoints and the collector of the [System] the
    feedback endpoints run in: the endpoints are embedded for a start-up
    that constructed both.  ([main.py] constructs them in a [try] block
    that logs a failure and goes on; an endpoint then fails on the unbound
    name, which is not embedded.)  The matcher computes with the
    interpreter's arithmetic.  An endpoint returns its response or raises
    [HTTPException]. *)

Module Api.

Import Feedback.

Inductive http (A : Type) : Type :=
| Response (body : A)
| HTTPException (status_code : Z) (detail : string).
Arguments Response {A} body.
Arguments HTTPException {A} status_code detail.

(** [MatchingRequest] *)
Record MatchingRequest : Type := {
  req_candidate_profile : Matching.Profile;
  req_hiring_profile : Matching.Profile;
  req_screening_score : Q
}.

(** The dictionary [/api/matching/compute] returns. *)
Record MatchingResponse : Type := {
  status : string;
  similarity_score : Q;
  screening_score : Q;
  final_score : Q;
  explanation : string;
  recommendation : string
}.

(** [[0.1] * 768] *)
Definition placeholder_embedding : list Q := repeat (Float.lit (1 # 10)) 768.

(** An element of the list [/api/matching/batch] returns. *)
Inductive BatchItem : Type :=
| ItemSuccess (status candidate_name : string) (match_ : Matching.MatchResult)
| ItemError (status candidate_name error : string).

Section Library.

Variable cosine_similarity : list Q -> list Q -> result Q.

(** [POST /api/matching/compute] *)
Definition compute_match (matcher : Matching.CandidateJobMatcher)
    (request : MatchingRequest) : http MatchingResponse :=
  match Matching.outcome
          (FloatMatching.compute_match cosine_similarity matcher
             placeholder_embedding placeholder_embedding
             (req_screening_score request) EmptyString EmptyString
             (Some (req_candidate_profile request))
             (Some (req_hiring_profile request))) with
  | Ok result =>
      Response {| status := "success";
                  similarity_score := Matching.similarity_score result;
                  screening_score := Matching.screening_score result;
                  final_score := Matching.final_score result;
                  explanation := Matching.explanation result;
                  recommendation := Matching.recommendation result |}
  | Raise e => HTTPException 400 (str_exn e)
  end.

(** [POST /api/matching/batch] *)
Definition match_batch_candidates (matcher : Matching.CandidateJobMatcher)
    (candidates : list Matching.Profile) (hiring_profile : Matching.Profile)
  : http (list BatchItem) :=
  Response
    (map (fun candidate =>
            match Matching.outcome
                    (FloatMatching.compute_match cosine_similarity matcher
                       placeholder_embedding placeholder_embedding 7
                       EmptyString EmptyString
                       (Some candidate) (Some hiring_profile)) with
            | Ok match_ =>
                ItemSuccess "success"
                  (Matching.profile_get candidate "name" "Unknown") match_
            | Raise e =>
                ItemError "error"
                  (Matching.profile_get candidate "name" "Unknown") (str_exn e)
            end)
         candidates).

End Library.

(** [FeedbackRequest] *)
Record FeedbackRequest : Type := {
  req_candidate_id : string;
  req_hiring_manager_id : string;
  req_final_score : Q;
  req_feedback : string;
  req_notes : option string
}.

(** The dictionaries [/api/feedback/record] and
    [/api/feedback/reset-weights] return. *)
Record WeightsResponse : Type := {
  w_status : string;
  w_message : string;
  w_weights : Weights
}.

(** [POST /api/feedback/record] *)
Definition record_feedback (request : FeedbackRequest) : M (http WeightsResponse) :=
  try_except
    (Feedback.record_feedback (req_candidate_id request)
       (req_hiring_manager_id request) (req_final_score request)
       (req_feedback request) (req_notes request) ;;
     current_weights <- get_weights ;;
     ret (Response {| w_status := "success";
                      w_message := "Feedback recorded";
                      w_weights := current_weights |}))
    (fun e => ret (HTTPException 400 (str_exn e))).

(** The dictionary [/api/feedback/analytics] returns. *)
Inductive AnalyticsResponse : Type :=
| AnalyticsSuccess (status : string) (analytics : Analytics) (weights : Weights)
| AnalyticsError (status message : string).

(** [GET /api/feedback/analytics] *)
Definition get_analytics : M AnalyticsResponse :=
  try_except
    (analytics <- get_feedback_analytics ;;
     weights <- get_weights ;;
     ret (AnalyticsSuccess "success" analytics weights))
    (fun e => ret (AnalyticsError "error" (str_exn e))).

(** [POST /api/feedback/reset-weights] *)
Definition reset_weights : M (http WeightsResponse) :=
  try_except
    (Feedback.reset_weights ;;
     weights <- get_weights ;;
     ret (Response {| w_status := "success";
                      w_message := "Weights reset";
                      w_weights := weights |}))
    (fun e => ret (HTTPException 400 (str_exn e))).

End Api.

(** ** A stand-in for the library routine

    [compute_match] is verified for every behaviour of scikit-learn's
    [cosine_similarity].  To run it on concrete embeddings the routine
    below is used: it rejects an empty row and rows of different widths
    with a [ValueError], as the library's input validation does, and
    otherwise divides each row by its Euclidean norm (a zero norm counts
    as 1) and returns the dot product.  Square roots are taken with
    [Z.sqrt], so the value is exact whenever both norms are rational. *)

Definition dot (X Y : list Q) : Q :=
  fold_left Qplus (map (fun p => fst p * snd p) (combine X Y)) 0.

Definition Qsqrt (x : Q) : Q :=
  inject_Z (Z.sqrt (Qnum x * Zpos (Qden x))) / inject_Z (Zpos (Qden x)).

Definition row_norm (X : list Q) : Q :=
  let n := Qsqrt (dot X X) in
  if Qeq_bool n 0 then 1 else n.

Definition reference_cosine_similarity (X Y : list Q) : result Q :=
  if Matching.is_empty X || Matching.is_empty Y then
    Raise (ValueError
      "Found array with 0 feature(s) (shape=(1, 0)) while a minimum of 1 is required.")
  else if negb (Nat.eqb (List.length X) (List.length Y)) then
    Raise (ValueError
      ("Incompatible dimension for X and Y matrices: X.shape[1] == "
         ++ str_Z (Z.of_nat (List.length X)) ++ " while Y.shape[1] == "
         ++ str_Z (Z.of_nat (List.length Y))))
  else
    Ok (Qred (dot X Y / (row_norm X * row_norm Y))).

(** * Vocabulary of the properties *)

Import Feedback.

(** The computation stops with a [ValueError]. *)
Definition input_error {A : Type} (m : Matching.Run A) : Prop :=
  exists msg, Matching.outcome m = Raise (ValueError msg).

(** The computation stops with a [ValueError] and has called neither numpy
    nor scikit-learn. *)
Definition fails_before_numeric_work {A : Type} (m : Matching.Run A) : Prop :=
  input_error m /\ Matching.numeric_work m = [].

(** The candidate dictionary with key [screening_score] set. *)
Definition with_screening_score (candidate : Matching.Candidate) (v : Q)
  : Matching.Candidate :=
  {| Matching.cand_embedding := Matching.cand_embedding candidate;
     Matching.cand_screening_score := Some v;
     Matching.cand_id := Matching.cand_id candidate;
     Matching.cand_hiring_profile_id := Matching.cand_hiring_profile_id candidate;
     Matching.cand_profile := Matching.cand_profile candidate |}.

Definition is_matched (e : Matching.BatchEntry) : Prop :=
  exists r, e = Matching.Matched r.

(** The dictionary of the [except] branch: an error text and the score -1. *)
Definition is_sentinel (e : Matching.BatchEntry) : Prop :=
  exists cid err, e = Matching.Failed cid err (-1).

(** Three candidates against the job embedding [1; 0]: the first has no
    screening score, the second no embedding. *)
Definition sample_candidates : list Matching.Candidate :=
  [ {| Matching.cand_embedding := Some [4; 3];
       Matching.cand_screening_score := None;
       Matching.cand_id := Some "a"%string;
       Matching.cand_hiring_profile_id := None;
       Matching.cand_profile := None |};
    {| Matching.cand_embedding := None;
       Matching.cand_screening_score := Some 9;
       Matching.cand_id := Some "b"%string;
       Matching.cand_hiring_profile_id := None;
       Matching.cand_profile := None |};
    {| Matching.cand_embedding := Some [1; 0];
       Matching.cand_screening_score := Some 9;
       Matching.cand_id := Some "c"%string;
       Matching.cand_hiring_profile_id := None;
       Matching.cand_profile := None |} ].

(** [m] keeps [P] true of the system, whether it returns or raises. *)
Definition preserves {A : Type} (P : System -> Prop) (m : M A) : Prop :=
  forall s, P s -> P (snd (m s)).

(** A property of the system that looks at the collector only. *)
Definition on_self (I : FeedbackCollector -> Prop) : System -> Prop :=
  fun s => I (self s).

(** A property of the system that looks at the [feedback] table only. *)
Definition on_feedback (I : list FeedbackRow -> Prop) : System -> Prop :=
  fun s => I (feedback_table s).

(** The system once a connection has been attempted. *)
Definition after_connect (s : System) : System :=
  {| self := self s;
     feedback_table := feedback_table s;
     weight_history_table := weight_history_table s;
     clock := clock s;
     outages := tl (outages s) |}.

(** The next connection succeeds. *)
Definition storage_up (s : System) : Prop := hd false (outages s) = false.

(** The next connection fails. *)
Definition storage_down (s : System) : Prop := hd false (outages s) = true.

(** One of the two literals [record_feedback] accepts. *)
Definition accepted (feedback : string) : Prop :=
  feedback = "Good Fit"%string \/ feedback = "Not a Fit"%string.

(** Two calls of [get_weights] with nothing between them but the
    environment: the clock reads [clock'] and the outage schedule is
    [outages'] at the second call. *)
Definition get_weights_twice (s : System) (clock' : Z) (outages' : list bool)
  : result Weights * result Weights :=
  let '(first, s1) := get_weights s in
  let '(second, _) := get_weights (environment s1 clock' outages') in
  (first, second).

Definition weights_invariant (c : FeedbackCollector) : Prop :=
  similarity_weight c + screening_weight c == 1
  /\ 3 # 10 <= similarity_weight c /\ similarity_weight c <= 8 # 10
  /\ 2 # 10 <= screening_weight c /\ screening_weight c <= 7 # 10.

(** [max(lo, min(hi, x))] *)
Definition clamp (lo hi x : Q) : Q := Qmax lo (Qmin hi x).

(** A collector not yet constructed, on an empty storage. *)
Definition unconstructed (clock : Z) (outages : list bool) : System :=
  {| self := {| similarity_weight := 0; screening_weight := 0; confidence := 0;
                learning_rate := 0; min_feedback_for_adjustment := 0 |};
     feedback_table := [];
     weight_history_table := [];
     clock := clock;
     outages := outages |}.

(** [FeedbackCollector()] on an empty, working storage. *)
Definition fresh : System := state_after __init__ (unconstructed 0 []).

(** The same call [n] times in a row. *)
Fixpoint repeat_call (n : nat) (c : call) (s : System) : System :=
  match n with
  | O => s
  | S n' => repeat_call n' c (run_call c s)
  end.

Definition at_defaults (c : FeedbackCollector) : Prop :=
  similarity_weight c = 6 # 10 /\ screening_weight c = 4 # 10
  /\ confidence c = 5 # 10.

(** The four patterns of the pass, in the order they are tested. *)
Inductive rule : Type :=
| FalsePositives            (* high scores rejected *)
| ScreeningUnderweighted    (* low scores accepted *)
| Reinforce                 (* high scores accepted *)
| ConsistentRejection.      (* low scores rejected *)

(** The mean final score of a subset, 5.0 if it is empty. *)
Definition mean_final_score (subset : list FeedbackDict) : Q :=
  if nonempty subset
  then py_sum (map final_score subset) / inject_Z (len subset)
  else 5.

Definition rule_condition (r : rule) (good_fits not_fits : list FeedbackDict) : bool :=
  match r with
  | FalsePositives =>
      nonempty not_fits && Qgt_bool (mean_final_score not_fits) (65 # 10)
  | ScreeningUnderweighted =>
      nonempty good_fits && Qlt_bool (mean_final_score good_fits) 5
  | Reinforce =>
      nonempty good_fits && Qgt_bool (mean_final_score good_fits) (75 # 10)
  | ConsistentRejection =>
      nonempty not_fits && Qlt_bool (mean_final_score not_fits) 5
  end.

(** The first rule, in priority order, whose condition holds, if any. *)
Definition first_rule (good_fits not_fits : list FeedbackDict) : option rule :=
  find (fun r => rule_condition r good_fits not_fits)
    [FalsePositives; ScreeningUnderweighted; Reinforce; ConsistentRejection].

(** What a rule adds to (similarity_weight, screening_weight). *)
Definition rule_deltas (lr : Q) (r : option rule) : Q * Q :=
  match r with
  | Some FalsePositives => (- lr, lr)
  | Some ScreeningUnderweighted => (- lr * (25 # 100), lr * (5 # 10))
  | Some Reinforce => (lr * (3 # 10), lr * (2 # 10))
  | Some ConsistentRejection => (0, 0)
  | None => (0, 0)
  end.

Definition rule_description (r : option rule) : string :=
  match r with
  | Some FalsePositives => "Reduce similarity weight (false positives detected)"
  | Some ScreeningUnderweighted =>
      "Increase screening weight (good low-score candidates)"
  | Some Reinforce => "Reinforce current weights (strong matches)"
  | Some ConsistentRejection =>
      "Low scores consistently rejected (good filtering)"
  | None => EmptyString
  end.

(** Applying one rule, or none: raise the confidence if the rule says so,
    add its deltas, clamp and normalise, and log the pass. *)
Definition apply_rule (r : option rule) (window_size : Z) : M unit :=
  c <- get_self ;;
  match r with
  | Some Reinforce => set_confidence (Qmin (95 # 100) (confidence c + (1 # 10)))
  | Some ConsistentRejection =>
      set_confidence (Qmin (95 # 100) (confidence c + (5 # 100)))
  | _ => ret tt
  end ;;
  apply_weight_adjustments (fst (rule_deltas (learning_rate c) r))
    (snd (rule_deltas (learning_rate c) r)) ;;
  _record_weight_adjustment (rule_description r) window_size.

(** The feedback table in the order of [ORDER BY created_at DESC]. *)
Definition by_recency (s : System) : list FeedbackRow :=
  sort_desc (fun r => inject_Z (row_created_at r)) (feedback_table s).

(** The entries a pass looks at: the 10 most recent. *)
Definition window (s : System) : list FeedbackDict :=
  map feedback_dict (firstn 10 (by_recency s)).

Definition good_fits_of (data : list FeedbackDict) : list FeedbackDict :=
  filter (fun f => String.eqb (feedback f) "Good Fit") data.

Definition not_fits_of (data : list FeedbackDict) : list FeedbackDict :=
  filter (fun f => String.eqb (feedback f) "Not a Fit") data.

(** No call assigns [learning_rate]. *)
Definition rate_is (lr : Q) (c : FeedbackCollector) : Prop := learning_rate c = lr.

(** The score [get_top_matches] and [filter_by_threshold] rank by. *)
Definition ranking_score (x : Matching.BatchEntry) : Q :=
  Matching.get_final_score x 0.

(** [a] is the start of [b]. *)
Definition prefix_of {A : Type} (a b : list A) : Prop :=
  exists rest, b = a ++ rest.

(** The confidence is at least [c0] and at most the cap 0.95. *)
Definition confidence_between (c0 : Q) (c : FeedbackCollector) : Prop :=
  c0 <= confidence c /\ confidence c <= 95 # 100.

(** A property of the system that looks at table [weight_history] only. *)
Definition on_history (I : list WeightHistoryRow -> Prop) : System -> Prop :=
  fun s => I (weight_history_table s).

(** The adjustment threshold of the collector is [n]. *)
Definition threshold_is (n : Z) (c : FeedbackCollector) : Prop :=
  min_feedback_for_adjustment c = n.

(** The row [record_feedback] writes in system [s]. *)
Definition written_row (s : System) (candidate_id hiring_manager_id : string)
    (final_score : Q) (feedback : string) (notes : option string) : FeedbackRow :=
  {| row_id := next_rowid row_id (feedback_table s);
     row_candidate_id := candidate_id;
     row_hiring_manager_id := hiring_manager_id;
     row_final_score := final_score;
     row_feedback := feedback;
     row_notes := notes;
     row_created_at := (clock s / 1000000)%Z |}.

(** The system once [record_feedback] has connected and written [row]. *)
Definition after_insert (s : System) (row : FeedbackRow) : System :=
  {| self := self s;
     feedback_table := feedback_table s ++ [row];
     weight_history_table := weight_history_table s;
     clock := clock s;
     outages := tl (outages s) |}.

(** The history record [reset_weights] writes in system [s]: the count is
    0 when the count query fails. *)
Definition reset_record (s : System) : WeightHistoryRow :=
  {| wh_id := next_rowid wh_id (weight_history_table s);
     wh_similarity_weight := 6 # 10;
     wh_screening_weight := 4 # 10;
     wh_confidence := 5 # 10;
     wh_trigger_action := "Manual reset to defaults";
     wh_feedback_count :=
       if hd false (outages s) then 0%Z else len (feedback_table s);
     wh_created_at := (clock s / 1000000)%Z |}.

(** The order of [ORDER BY created_at DESC] on each table. *)
Definition feedback_recency (r : FeedbackRow) : Q := inject_Z (row_created_at r).

Definition history_recency (r : WeightHistoryRow) : Q := inject_Z (wh_created_at r).

(** Every row of the feedback table carries one of the two accepted
    literals. *)
Definition labels_accepted (s : System) : Prop :=
  Forall (fun r => accepted (row_feedback r)) (feedback_table s).

(** The number of feedback rows with a given label. *)
Definition labelled (label : string) (s : System) : Z :=
  len (rows_labelled label (feedback_table s)).

(** The history record written for collector [c] at the end of [table]. *)
Definition history_record (table : list WeightHistoryRow) (c : FeedbackCollector)
    (trigger_action : string) (feedback_count created_at : Z) : WeightHistoryRow :=
  {| wh_id := next_rowid wh_id table;
     wh_similarity_weight := similarity_weight c;
     wh_screening_weight := screening_weight c;
     wh_confidence := confidence c;
     wh_trigger_action := trigger_action;
     wh_feedback_count := feedback_count;
     wh_created_at := created_at |}.

(** The stand-in as a [float32] routine: its value rounded to single
    precision. *)
Definition float32_cosine_similarity (X Y : list Q) : result Q :=
  match reference_cosine_similarity X Y with
  | Ok v => Ok (Float.binary32 v)
  | Raise e => Raise e
  end.

(** A library that returns the [float32] [1 + 3 * 2^-23], printed
    1.0000003576278687, on every pair of rows. *)
Definition cosine_above_one (X Y : list Q) : result Q :=
  Ok (1 + 3 * Float.pow2 (-23)).

(** The rows of a table stored during second [t], in table order. *)
Definition stored_in_second {R : Type} (created_at : R -> Z) (t : Z)
    (rows : list R) : list R :=
  filter (fun r => (created_at r =? t)%Z) rows.

(** *** The pass in the interpreter's arithmetic *)

Module FloatRules.

(** [FeedbackCollector()] on an empty, working storage. *)
Definition fresh : System :=
  state_after FloatFeedback.__init__ (unconstructed 0 []).

(** The same feedback recorded [n] times in a row. *)
Fixpoint repeat_record (n : nat) (candidate_id hiring_manager_id : string)
    (final_score : Q) (feedback : string) (notes : option string)
    (s : System) : System :=
  match n with
  | O => s
  | S n' =>
      repeat_record n' candidate_id hiring_manager_id final_score feedback notes
        (state_after
           (FloatFeedback.record_feedback candidate_id hiring_manager_id
              final_score feedback notes) s)
  end.

(** The mean final score of a subset, 5.0 if it is empty: the sum from
    left to right, divided by the length. *)
Definition mean_final_score (subset : list FeedbackDict) : Q :=
  if nonempty subset
  then Float.div (Float.sum (map final_score subset)) (inject_Z (len subset))
  else 5.

Definition rule_condition (r : rule) (good_fits not_fits : list FeedbackDict) : bool :=
  match r with
  | FalsePositives =>
      nonempty not_fits
      && Qgt_bool (mean_final_score not_fits) (Float.lit (65 # 10))
  | ScreeningUnderweighted =>
      nonempty good_fits && Qlt_bool (mean_final_score good_fits) 5
  | Reinforce =>
      nonempty good_fits
      && Qgt_bool (mean_final_score good_fits) (Float.lit (75 # 10))
  | ConsistentRejection =>
      nonempty not_fits && Qlt_bool (mean_final_score not_fits) 5
  end.

(** The first rule, in priority order, whose condition holds, if any. *)
Definition first_rule (good_fits not_fits : list FeedbackDict) : option rule :=
  find (fun r => rule_condition r good_fits not_fits)
    [FalsePositives; ScreeningUnderweighted; Reinforce; ConsistentRejection].

(** What a rule adds to (similarity_weight, screening_weight). *)
Definition rule_deltas (lr : Q) (r : option rule) : Q * Q :=
  match r with
  | Some FalsePositives => (- lr, lr)
  | Some ScreeningUnderweighted =>
      (Float.mul (- lr) (Float.lit (25 # 100)), Float.mul lr (Float.lit (5 # 10)))
  | Some Reinforce =>
      (Float.mul lr (Float.lit (3 # 10)), Float.mul lr (Float.lit (2 # 10)))
  | Some ConsistentRejection => (0, 0)
  | None => (0, 0)
  end.

(** Applying one rule, or none: raise the confidence if the rule says so,
    add its deltas, clamp and normalise, and log the pass. *)
Definition apply_rule (r : option rule) (window_size : Z) : M unit :=
  c <- get_self ;;
  match r with
  | Some Reinforce =>
      set_confidence
        (Qmin (Float.lit (95 # 100)) (Float.add (confidence c) (Float.lit (1 # 10))))
  | Some ConsistentRejection =>
      set_confidence
        (Qmin (Float.lit (95 # 100)) (Float.add (confidence c) (Float.lit (5 # 100))))
  | _ => ret tt
  end ;;
  FloatFeedback.apply_weight_adjustments
    (fst (rule_deltas (learning_rate c) r))
    (snd (rule_deltas (learning_rate c) r)) ;;
  _record_weight_adjustment (rule_description r) window_size.

(** Scores whose sums stay within the finite floats. *)
Definition scores_in_range (data : list FeedbackDict) : Prop :=
  Forall (fun f => Qabs (final_score f) <= inject_Z (10 ^ 300)) data.

End FloatRules.

(** * Properties *)

(** ** Comparisons and rounding *)

Lemma Qlt_bool_iff (x y : Q) : Qlt_bool x y = true <-> x < y.
Proof.
  unfold Qlt_bool. rewrite Qlt_alt.
  destruct (x ?= y); split; congruence.
Qed.

Lemma Qlt_bool_false (x y : Q) : Qlt_bool x y = false <-> y <= x.
Proof.
  unfold Qlt_bool. destruct (x ?= y) eqn:E.
  - apply Qeq_alt in E. split; [intros _; lra | reflexivity].
  - apply Qlt_alt in E. split; [discriminate | lra].
  - apply Qgt_alt in E. split; [intros _; lra | reflexivity].
Qed.

Lemma Qge_bool_iff (x y : Q) : Qge_bool x y = true <-> y <= x.
Proof. unfold Qge_bool. apply Qle_bool_iff. Qed.

Lemma Qge_bool_false (x y : Q) : Qge_bool x y = false <-> x < y.
Proof.
  unfold Qge_bool. split; intro H.
  - apply Qnot_le_lt. intro L. apply Qle_bool_iff in L. congruence.
  - destruct (Qle_bool y x) eqn:E; [|reflexivity].
    apply Qle_bool_iff in E. lra.
Qed.

Lemma Qgt_bool_iff (x y : Q) : Qgt_bool x y = true <-> y < x.
Proof. unfold Qgt_bool. apply Qlt_bool_iff. Qed.

Lemma Qgt_bool_false (x y : Q) : Qgt_bool x y = false <-> x <= y.
Proof. unfold Qgt_bool. apply Qlt_bool_false. Qed.

#[global] Instance Qlt_bool_proper : Proper (Qeq ==> Qeq ==> eq) Qlt_bool.
Proof. intros x x' Hx y y' Hy. unfold Qlt_bool. now rewrite Hx, Hy. Qed.

#[global] Instance Qge_bool_proper : Proper (Qeq ==> Qeq ==> eq) Qge_bool.
Proof.
  intros x x' Hx y y' Hy. unfold Qge_bool.
  destruct (Qle_bool y x) eqn:E, (Qle_bool y' x') eqn:E'; try reflexivity.
  - apply Qle_bool_iff in E. rewrite Hx, Hy in E.
    apply Qle_bool_iff in E. congruence.
  - apply Qle_bool_iff in E'. rewrite <- Hx, <- Hy in E'.
    apply Qle_bool_iff in E'. congruence.
Qed.

#[global] Instance round_half_even_proper : Proper (Qeq ==> eq) round_half_even.
Proof.
  intros x y H. unfold round_half_even.
  rewrite (Qfloor_comp _ _ H).
  assert (E : (x - inject_Z (Qfloor y) ?= 1 # 2) = (y - inject_Z (Qfloor y) ?= 1 # 2))
    by now rewrite H.
  now rewrite E.
Qed.

(** The three ways [round_half_even] can come out. *)
Lemma round_half_even_cases (x : Q) :
  let f := Qfloor x in
  inject_Z f <= x /\ x < inject_Z f + 1 /\
  ((round_half_even x = f /\ x - inject_Z f < 1 # 2)
   \/ (round_half_even x = (f + 1)%Z /\ 1 # 2 < x - inject_Z f)
   \/ (x - inject_Z f == 1 # 2
       /\ round_half_even x = if Z.even f then f else (f + 1)%Z)).
Proof.
  intro f. subst f.
  pose proof (Qfloor_le x) as Hlo.
  pose proof (Qlt_floor x) as Hhi.
  rewrite inject_Z_plus in Hhi. change (inject_Z 1) with 1 in Hhi.
  split; [exact Hlo|]. split; [exact Hhi|].
  unfold round_half_even.
  destruct (x - inject_Z (Qfloor x) ?= 1 # 2) eqn:E.
  - apply Qeq_alt in E. right; right. split; [exact E | reflexivity].
  - apply Qlt_alt in E. left. split; [reflexivity | exact E].
  - apply Qgt_alt in E. right; left. split; [reflexivity | exact E].
Qed.

Lemma round_half_even_mono (x y : Q) :
  x <= y -> (round_half_even x <= round_half_even y)%Z.
Proof.
  intro Hxy.
  pose proof (Qfloor_resp_le _ _ Hxy) as Hfg.
  destruct (round_half_even_cases x) as (Hx1 & Hx2 & Hx).
  destruct (round_half_even_cases y) as (Hy1 & Hy2 & Hy).
  destruct (Z.eq_dec (Qfloor x) (Qfloor y)) as [e | ne].
  - rewrite e in *.
    destruct Hx as [[-> Hx] | [[-> Hx] | [Hx ->]]];
      destruct Hy as [[-> Hy] | [[-> Hy] | [Hy ->]]];
      try lia; try lra;
      destruct (Z.even (Qfloor y)); lia.
  - assert (Qfloor x + 1 <= Qfloor y)%Z by lia.
    destruct Hx as [[-> Hx] | [[-> Hx] | [Hx ->]]];
      destruct Hy as [[-> Hy] | [[-> Hy] | [Hy ->]]];
      try lia;
      repeat match goal with |- context [Z.even ?z] => destruct (Z.even z) end;
      lia.
Qed.

Lemma round_half_even_Z (z : Z) : round_half_even (inject_Z z) = z.
Proof.
  destruct (round_half_even_cases (inject_Z z)) as (_ & _ & H).
  rewrite Qfloor_Z in H.
  destruct H as [[-> _] | [[_ H] | [H _]]]; [reflexivity | lra | lra].
Qed.

Lemma pow10_pos (n : nat) : 0 < pow10 n.
Proof.
  unfold pow10. change 0 with (inject_Z 0). rewrite <- Zlt_Qlt.
  apply Z.pow_pos_nonneg; lia.
Qed.

#[global] Instance py_round_proper : Proper (Qeq ==> eq ==> Qeq) py_round.
Proof.
  intros x y H n m <-. unfold py_round.
  assert (E : x * pow10 n == y * pow10 n) by now rewrite H.
  now rewrite (round_half_even_proper _ _ E).
Qed.

Lemma py_round_mono (x y : Q) (n : nat) :
  x <= y -> py_round x n <= py_round y n.
Proof.
  intro H. unfold py_round.
  pose proof (pow10_pos n) as Hp.
  apply Qmult_le_compat_r.
  - rewrite <- Zle_Qle. apply round_half_even_mono.
    apply Qmult_le_compat_r; lra.
  - apply Qlt_le_weak, Qinv_lt_0_compat, Hp.
Qed.

Lemma py_round_0 (n : nat) : py_round 0 n == 0.
Proof.
  unfold py_round.
  assert (E : 0 * pow10 n == inject_Z 0) by (change (inject_Z 0) with 0; ring).
  rewrite (round_half_even_proper _ _ E), round_half_even_Z.
  change (inject_Z 0) with 0. unfold Qdiv. ring.
Qed.

Lemma py_round_nonneg (x : Q) (n : nat) : 0 <= x -> 0 <= py_round x n.
Proof.
  intro H. rewrite <- (py_round_0 n). now apply py_round_mono.
Qed.

(** Closes a comparison between two rational literals. *)
Ltac literal :=
  solve [ reflexivity | discriminate | vm_compute; reflexivity
        | vm_compute; discriminate | vm_compute; congruence ].

(** ** Recommendation tiers *)

#[global] Instance get_recommendation_proper :
  Proper (Qeq ==> eq) Matching._get_recommendation.
Proof.
  intros x y H. unfold Matching._get_recommendation.
  now rewrite !(Qge_bool_proper x y H _ _ (Qeq_refl _)).
Qed.

(** C2.  [_get_recommendation] picks the first tier, in descending order of
    thresholds, that the final score reaches: at least 8 is STRONG MATCH,
    else at least 7 is GOOD MATCH, else at least 6 is MODERATE MATCH, else
    at least 5 is WEAK MATCH, else POOR MATCH; each tier's text is the tier
    name followed by its fixed advice.  The boundaries are exact: 8.0 is
    STRONG MATCH and 7.999 is GOOD MATCH. *)
Theorem get_recommendation_tiers (final_score : Q) :
  (8 <= final_score ->
     Matching._get_recommendation final_score
     = "STRONG MATCH - Recommend immediate interview/next round"%string)
  /\ (7 <= final_score -> final_score < 8 ->
     Matching._get_recommendation final_score
     = "GOOD MATCH - Recommend for consideration"%string)
  /\ (6 <= final_score -> final_score < 7 ->
     Matching._get_recommendation final_score
     = "MODERATE MATCH - Consider if other candidates limited"%string)
  /\ (5 <= final_score -> final_score < 6 ->
     Matching._get_recommendation final_score
     = "WEAK MATCH - Not recommended at this time"%string)
  /\ (final_score < 5 ->
     Matching._get_recommendation final_score
     = "POOR MATCH - Do not recommend"%string)
  /\ String.prefix "STRONG MATCH" (Matching._get_recommendation 8) = true
  /\ String.prefix "GOOD MATCH" (Matching._get_recommendation (7999 # 1000)) = true.
Proof.
  unfold Matching._get_recommendation.
  repeat split; try reflexivity; intros;
    repeat match goal with
      | |- context [Qge_bool final_score ?t] =>
          let E := fresh "E" in
          destruct (Qge_bool final_score t) eqn:E;
          [apply Qge_bool_iff in E | apply Qge_bool_false in E]
      end;
    try reflexivity; lra.
Qed.

Lemma get_recommendation_tiers_witness :
  Matching._get_recommendation 9
  = "STRONG MATCH - Recommend immediate interview/next round"%string
  /\ Matching._get_recommendation (75 # 10)
     = "GOOD MATCH - Recommend for consideration"%string
  /\ Matching._get_recommendation (6 # 1)
     = "MODERATE MATCH - Consider if other candidates limited"%string
  /\ Matching._get_recommendation (599 # 100)
     = "WEAK MATCH - Not recommended at this time"%string
  /\ Matching._get_recommendation (499 # 100)
     = "POOR MATCH - Do not recommend"%string.
Proof.
  split; [| split; [| split; [| split]]].
  - apply (proj1 (get_recommendation_tiers 9)). literal.
  - apply (proj1 (proj2 (get_recommendation_tiers (75 # 10)))); literal.
  - apply (proj1 (proj2 (proj2 (get_recommendation_tiers (6 # 1))))); literal.
  - apply (proj1 (proj2 (proj2 (proj2 (get_recommendation_tiers (599 # 100)))))); literal.
  - apply (proj1 (proj2 (proj2 (proj2 (proj2 (get_recommendation_tiers (499 # 100))))))).
    literal.
Defined.

(** ** The blended score *)

Section MatchingProperties.

Variable cosine_similarity : list Q -> list Q -> result Q.

Lemma is_empty_false {A : Type} (l : list A) :
  l <> [] -> Matching.is_empty l = false.
Proof. destruct l; [congruence | reflexivity]. Qed.

Lemma score_in_range (s : Q) :
  0 <= s -> s <= 10 -> Qlt_bool s 0 || Qgt_bool s 10 = false.
Proof.
  intros H0 H10. apply orb_false_iff. split.
  - now apply Qlt_bool_false.
  - now apply Qgt_bool_false.
Qed.

(** What [compute_match] returns once both guards pass and the library
    gives a cosine. *)
Lemma compute_match_returns (self : Matching.CandidateJobMatcher)
    (h c : list Q) (s : Q) (cid hid : string)
    (cp hp : option Matching.Profile) (cosv : Q) :
  h <> [] -> c <> [] -> 0 <= s -> s <= 10 ->
  cosine_similarity h c = Ok cosv ->
  Matching.compute_match cosine_similarity self h c s cid hid cp hp
  = ([Matching.np_array h; Matching.np_array c; Matching.sk_cosine_similarity h c],
     let similarity := (cosv + 1) / 2 in
     let scaled :=
       (Matching.similarity_weight self * similarity
        + Matching.screening_weight self * (s / 10)) * 10 in
     Ok {| Matching.similarity_score := py_round similarity 3;
           Matching.screening_score := py_round s 2;
           Matching.final_score := py_round scaled 2;
           Matching.recommendation := Matching._get_recommendation scaled;
           Matching.explanation :=
             Matching._generate_explanation similarity s scaled cp hp;
           Matching.candidate_id := cid;
           Matching.hiring_profile_id := hid |}).
Proof.
  intros Hh Hc H0 H10 Hcos.
  unfold Matching.compute_match.
  rewrite (is_empty_false _ Hh), (is_empty_false _ Hc), (score_in_range _ H0 H10).
  cbn [orb]. unfold Matching._compute_cosine_similarity.
  cbn [Matching.bind Matching.ret app]. rewrite Hcos. reflexivity.
Qed.

End MatchingProperties.

(** ** Sorting into descending order *)

Section SortDescProperties.

Context {A : Type} (key : A -> Q).

Lemma insert_desc_perm (x : A) (l : list A) :
  Permutation (x :: l) (insert_desc key x l).
Proof.
  induction l as [| y l IH]; cbn [insert_desc].
  - apply Permutation_refl.
  - destruct (Qlt_bool (key x) (key y)).
    + apply perm_trans with (y :: x :: l); [apply perm_swap|].
      apply perm_skip, IH.
    + apply Permutation_refl.
Qed.

Lemma sort_desc_perm (l : list A) : Permutation l (sort_desc key l).
Proof.
  induction l as [| x l IH]; cbn [sort_desc].
  - apply perm_nil.
  - apply perm_trans with (x :: sort_desc key l).
    + apply perm_skip, IH.
    + apply insert_desc_perm.
Qed.

Lemma insert_desc_sorted (x : A) (l : list A) :
  StronglySorted (descending key) l ->
  StronglySorted (descending key) (insert_desc key x l).
Proof.
  induction 1 as [| y l Hs IH Hy]; cbn [insert_desc].
  - repeat constructor.
  - destruct (Qlt_bool (key x) (key y)) eqn:E.
    + apply Qlt_bool_iff in E.
      constructor; [exact IH|].
      apply (Permutation_Forall (insert_desc_perm x l)).
      constructor; [|exact Hy].
      unfold descending. lra.
    + apply Qlt_bool_false in E.
      constructor; [constructor; assumption|].
      constructor; [exact E|].
      eapply Forall_impl; [|exact Hy].
      unfold descending. intros z Hz. lra.
Qed.

Lemma sort_desc_sorted (l : list A) : StronglySorted (descending key) (sort_desc key l).
Proof.
  induction l as [| x l IH]; cbn [sort_desc].
  - constructor.
  - apply insert_desc_sorted, IH.
Qed.

Lemma sort_desc_length (l : list A) :
  List.length (sort_desc key l) = List.length l.
Proof. symmetry. apply Permutation_length, sort_desc_perm. Qed.

(** In a descending list whose elements are either [P] with a key of at
    least [t] or [R] with a key below [t], every [P] comes before every
    [R]. *)
Lemma descending_split (P R : A -> Prop) (t : Q) (l : list A) :
  StronglySorted (descending key) l ->
  Forall (fun a => (P a /\ t <= key a) \/ (R a /\ key a < t)) l ->
  exists front back, l = front ++ back /\ Forall P front /\ Forall R back.
Proof.
  induction 1 as [| x l Hs IH Hx]; intro Hall.
  - exists [], []. repeat split; constructor.
  - inversion Hall as [| ? ? Hhead Htail]; subst.
    destruct (IH Htail) as (front & back & -> & Hf & Hb).
    destruct Hhead as [[HP _] | [HR Hlow]].
    + exists (x :: front), back. repeat split; [constructor; assumption | assumption].
    + exists [], (x :: front ++ back). split; [reflexivity|].
      split; [constructor|].
      constructor; [exact HR|].
      rewrite Forall_forall in Hx, Htail |- *.
      intros z Hz. specialize (Hx z Hz). unfold descending in Hx.
      destruct (Htail z Hz) as [[_ Hge] | [HRz _]]; [lra | exact HRz].
Qed.

(** The first [n] elements of a descending list have keys no smaller than
    any element left out. *)
Lemma descending_firstn (n : nat) (l : list A) :
  StronglySorted (descending key) l ->
  forall a b, In a (firstn n l) -> In b (skipn n l) -> key b <= key a.
Proof.
  intro Hs. revert n.
  induction Hs as [| x l Hs IH Hx]; intros n a b Ha Hb.
  - rewrite firstn_nil in Ha. destruct Ha.
  - destruct n as [| n]; [destruct Ha|].
    cbn [firstn skipn] in Ha, Hb.
    destruct Ha as [<- | Ha].
    + rewrite Forall_forall in Hx. apply Hx.
      rewrite <- (firstn_skipn n l). apply in_or_app. now right.
    + now apply (IH n).
Qed.

End SortDescProperties.

(** ** Monotonicity of the final score *)

Section MatchingOrder.

Variable cosine_similarity : list Q -> list Q -> result Q.

(** C9.  With the weights fixed (and not negative, as the constructor's 0.6
    and 0.4 are), the final score [compute_match] returns does not decrease
    when the similarity grows and the screening score stays, nor when the
    screening score grows and the similarity stays. *)
Theorem final_score_monotone (self : Matching.CandidateJobMatcher)
    (h1 c1 h2 c2 : list Q) (s1 s2 : Q) (cid1 hid1 cid2 hid2 : string)
    (cp1 hp1 cp2 hp2 : option Matching.Profile) (cos1 cos2 : Q) :
  0 <= Matching.similarity_weight self ->
  0 <= Matching.screening_weight self ->
  h1 <> [] -> c1 <> [] -> h2 <> [] -> c2 <> [] ->
  0 <= s1 -> s1 <= 10 -> 0 <= s2 -> s2 <= 10 ->
  cosine_similarity h1 c1 = Ok cos1 ->
  cosine_similarity h2 c2 = Ok cos2 ->
  exists sim1 sim2 r1 r2,
    Matching.outcome (Matching._compute_cosine_similarity cosine_similarity h1 c1)
    = Ok sim1
    /\ Matching.outcome (Matching._compute_cosine_similarity cosine_similarity h2 c2)
       = Ok sim2
    /\ Matching.outcome
         (Matching.compute_match cosine_similarity self h1 c1 s1 cid1 hid1 cp1 hp1)
       = Ok r1
    /\ Matching.outcome
         (Matching.compute_match cosine_similarity self h2 c2 s2 cid2 hid2 cp2 hp2)
       = Ok r2
    /\ (sim1 <= sim2 -> s1 == s2 ->
        Matching.final_score r1 <= Matching.final_score r2)
    /\ (sim1 == sim2 -> s1 <= s2 ->
        Matching.final_score r1 <= Matching.final_score r2).
Proof.
  intros Hsw Hscw Hh1 Hc1 Hh2 Hc2 L1 U1 L2 U2 E1 E2.
  exists ((cos1 + 1) / 2), ((cos2 + 1) / 2).
  rewrite (compute_match_returns cosine_similarity self h1 c1 s1 cid1 hid1 cp1 hp1
             cos1 Hh1 Hc1 L1 U1 E1).
  rewrite (compute_match_returns cosine_similarity self h2 c2 s2 cid2 hid2 cp2 hp2
             cos2 Hh2 Hc2 L2 U2 E2).
  do 2 eexists.
  unfold Matching._compute_cosine_similarity, Matching.outcome.
  cbn [Matching.bind Matching.ret app snd]. rewrite E1, E2. cbn [snd].
  split; [reflexivity|]. split; [reflexivity|].
  split; [reflexivity|]. split; [reflexivity|].
  cbn [Matching.final_score].
  set (sw := Matching.similarity_weight self) in *.
  set (scw := Matching.screening_weight self) in *.
  split; intros Hsim Hs; apply py_round_mono.
  - rewrite Hs.
    assert (sw * ((cos1 + 1) / 2) <= sw * ((cos2 + 1) / 2))
      by (rewrite !(Qmult_comm sw); apply Qmult_le_compat_r; assumption).
    lra.
  - rewrite Hsim.
    assert (scw * (s1 / 10) <= scw * (s2 / 10))
      by (rewrite !(Qmult_comm scw); apply Qmult_le_compat_r; [|assumption];
          unfold Qdiv; apply Qmult_le_compat_r; [assumption | literal]).
    lra.
Qed.

End MatchingOrder.

Lemma final_score_monotone_witness :
  exists r1 r2,
    Matching.outcome
      (Matching.compute_match reference_cosine_similarity Matching.init
         [1; 0] [3; 4] 8 "a" "h" None None) = Ok r1
    /\ Matching.outcome
         (Matching.compute_match reference_cosine_similarity Matching.init
            [1; 0] [4; 3] 8 "b" "h" None None) = Ok r2
    /\ Matching.final_score r1 <= Matching.final_score r2.
Proof.
  destruct (final_score_monotone reference_cosine_similarity Matching.init
              [1; 0] [3; 4] [1; 0] [4; 3] 8 8 "a" "h" "b" "h"
              None None None None (3 # 5) (4 # 5))
    as (sim1 & sim2 & r1 & r2 & H1 & H2 & Hr1 & Hr2 & Hmono & _);
    try discriminate; try literal.
  exists r1, r2. split; [exact Hr1|]. split; [exact Hr2|].
  apply Hmono; [|literal].
  vm_compute in H1. vm_compute in H2.
  injection H1 as <-. injection H2 as <-. literal.
Defined.

(** ** Input errors of the similarity computation *)

Lemma reference_rejects_widths (X Y : list Q) :
  List.length X <> List.length Y ->
  exists msg, reference_cosine_similarity X Y = Raise (ValueError msg).
Proof.
  intro H. unfold reference_cosine_similarity.
  destruct (Matching.is_empty X || Matching.is_empty Y); [eexists; reflexivity|].
  apply Nat.eqb_neq in H. rewrite H. cbn [negb]. eexists; reflexivity.
Qed.

(** ** Batch matching *)

Section BatchProperties.

Variable cosine_similarity : list Q -> list Q -> result Q.

Lemma compute_match_final_nonneg (self : Matching.CandidateJobMatcher)
    (h c : list Q) (s : Q) (cid hid : string)
    (cp hp : option Matching.Profile) (r : Matching.MatchResult) :
  0 <= Matching.similarity_weight self ->
  0 <= Matching.screening_weight self ->
  (forall v, cosine_similarity h c = Ok v -> -1 <= v) ->
  Matching.outcome
    (Matching.compute_match cosine_similarity self h c s cid hid cp hp) = Ok r ->
  0 <= Matching.final_score r.
Proof.
  intros Hsw Hscw Hcos.
  unfold Matching.compute_match.
  destruct (Matching.is_empty h || Matching.is_empty c); [discriminate|].
  destruct (Qlt_bool s 0 || Qgt_bool s 10) eqn:Hs; [discriminate|].
  apply orb_false_iff in Hs. destruct Hs as [H0 H10].
  apply Qlt_bool_false in H0.
  unfold Matching._compute_cosine_similarity, Matching.outcome.
  cbn [Matching.bind Matching.ret app].
  destruct (cosine_similarity h c) as [v|e] eqn:E; cbn; [|discriminate].
  intros [= <-]. cbn [Matching.final_score].
  specialize (Hcos v eq_refl).
  apply py_round_nonneg.
  assert (0 <= (v + 1) / 2) by (apply Qle_shift_div_l; [literal | lra]).
  assert (0 <= s / 10) by (apply Qle_shift_div_l; [literal | lra]).
  assert (0 <= Matching.similarity_weight self * ((v + 1) / 2))
    by (apply Qmult_le_0_compat; assumption).
  assert (0 <= Matching.screening_weight self * (s / 10))
    by (apply Qmult_le_0_compat; assumption).
  lra.
Qed.

(** C10.  In [batch_match_candidates] the output holds one entry per
    candidate.  A candidate without the key [screening_score] is scored as
    with the screening score 5.0.  A candidate without the key [embedding],
    or with an empty one, does not stop the batch: its entry is the
    sentinel with the error text and [final_score = -1].  After the final
    descending sort every sentinel comes after every successful result
    (weights not negative, library cosines at least -1). *)
Theorem batch_match_candidates_sentinel (self : Matching.CandidateJobMatcher)
    (h : list Q) (candidates : list Matching.Candidate)
    (hp : option Matching.Profile) :
  0 <= Matching.similarity_weight self ->
  0 <= Matching.screening_weight self ->
  (forall cand v, In cand candidates ->
     cosine_similarity h (dict_get (Matching.cand_embedding cand) []) = Ok v ->
     -1 <= v) ->
  let entry := Matching.match_candidate cosine_similarity self h hp in
  let out := Matching.batch_match_candidates cosine_similarity self h candidates hp in
  Permutation (map entry candidates) out
  /\ List.length out = List.length candidates
  /\ (forall cand, In cand candidates ->
        Matching.cand_screening_score cand = None ->
        entry cand = entry (with_screening_score cand 5)
        /\ forall r, entry cand = Matching.Matched r ->
                     Matching.screening_score r == 5)
  /\ (forall cand, In cand candidates ->
        Matching.cand_embedding cand = None
        \/ Matching.cand_embedding cand = Some [] ->
        entry cand
        = Matching.Failed (dict_get (Matching.cand_id cand) EmptyString)
            "Both embeddings must be provided" (-1)
        /\ In (entry cand) out)
  /\ exists matched sentinels,
       out = matched ++ sentinels
       /\ Forall is_matched matched
       /\ Forall is_sentinel sentinels
       /\ StronglySorted (descending Matching.sort_key) out.
Proof.
  intros Hsw Hscw Hcos entry out.
  assert (Hperm : Permutation (map entry candidates) out)
    by apply sort_desc_perm.
  split; [exact Hperm|].
  split.
  { unfold out, Matching.batch_match_candidates.
    now rewrite sort_desc_length, length_map. }
  split.
  { intros cand _ Hnone. split.
    - unfold entry, Matching.match_candidate, with_screening_score.
      cbn [Matching.cand_embedding Matching.cand_screening_score
           Matching.cand_id Matching.cand_hiring_profile_id Matching.cand_profile].
      rewrite Hnone. reflexivity.
    - intros r. unfold entry, Matching.match_candidate. rewrite Hnone.
      cbn [dict_get]. unfold Matching.compute_match.
      destruct (Matching.is_empty h || Matching.is_empty _); [discriminate|].
      destruct (Qlt_bool 5 0 || Qgt_bool 5 10); [discriminate|].
      unfold Matching._compute_cosine_similarity, Matching.outcome.
      cbn [Matching.bind Matching.ret app].
      destruct (cosine_similarity h _); cbn; [|discriminate].
      intros [= <-]. cbn [Matching.screening_score]. literal. }
  split.
  { intros cand Hin Hemb.
    assert (E : entry cand
                = Matching.Failed (dict_get (Matching.cand_id cand) EmptyString)
                    "Both embeddings must be provided" (-1)).
    { unfold entry, Matching.match_candidate, Matching.compute_match.
      destruct Hemb as [-> | ->]; cbn [dict_get Matching.is_empty];
        rewrite orb_true_r; reflexivity. }
    split; [exact E|].
    apply (Permutation_in _ Hperm). apply in_map. exact Hin. }
  assert (Hsorted : StronglySorted (descending Matching.sort_key) out)
    by apply sort_desc_sorted.
  destruct (descending_split Matching.sort_key is_matched is_sentinel 0 out Hsorted)
    as (matched & sentinels & Hout & Hm & Hs).
  { apply (Permutation_Forall Hperm). apply Forall_forall.
    intros e He. apply in_map_iff in He. destruct He as (cand & <- & Hin).
    unfold entry, Matching.match_candidate.
    destruct (Matching.outcome _) as [r | e] eqn:E.
    - left. split; [eexists; reflexivity|]. cbn [Matching.sort_key].
      eapply compute_match_final_nonneg; [exact Hsw | exact Hscw | | exact E].
      intros v Hv. exact (Hcos cand v Hin Hv).
    - right. split; [do 2 eexists; reflexivity | literal]. }
  exists matched, sentinels. repeat split; assumption.
Qed.

End BatchProperties.

Lemma batch_match_candidates_sentinel_witness :
  let out :=
    Matching.batch_match_candidates reference_cosine_similarity Matching.init
      [1; 0] sample_candidates None in
  List.length out = 3%nat
  /\ map Matching.sort_key out = [py_round (96 # 10) 2; py_round (74 # 10) 2; -1]
  /\ exists matched sentinels,
       out = matched ++ sentinels
       /\ Forall is_matched matched /\ Forall is_sentinel sentinels.
Proof.
  intro out.
  destruct (batch_match_candidates_sentinel reference_cosine_similarity
              Matching.init [1; 0] sample_candidates None)
    as (_ & Hlen & _ & _ & (m & s & Ho & Hm & Hs & _)).
  - literal.
  - literal.
  - intros cand v [<- | [<- | [<- | []]]] Hv; vm_compute in Hv;
      try discriminate; injection Hv as <-; literal.
  - split; [exact Hlen|]. split; [vm_compute; reflexivity|].
    exists m, s. repeat split; assumption.
Defined.

(** ** The collector: what a call leaves unchanged *)

Lemma preserves_ret {A : Type} (P : System -> Prop) (a : A) : preserves P (ret a).
Proof. intros s H. exact H. Qed.

Lemma preserves_raise {A : Type} (P : System -> Prop) (e : exn) :
  preserves P (@raise A e).
Proof. intros s H. exact H. Qed.

Lemma preserves_bind {A B : Type} (P : System -> Prop) (m : M A) (f : A -> M B) :
  preserves P m -> (forall a, preserves P (f a)) -> preserves P (bind m f).
Proof.
  intros Hm Hf s H. unfold bind.
  specialize (Hm s H). destruct (m s) as [[a | e] s']; cbn in *.
  - now apply Hf.
  - exact Hm.
Qed.

Lemma preserves_try {A : Type} (P : System -> Prop) (m : M A) (h : exn -> M A) :
  preserves P m -> (forall e, preserves P (h e)) -> preserves P (try_except m h).
Proof.
  intros Hm Hh s H. unfold try_except.
  specialize (Hm s H). destruct (m s) as [[a | e] s']; cbn in *.
  - exact Hm.
  - now apply Hh.
Qed.

Lemma preserves_if {A : Type} (P : System -> Prop) (b : bool) (m1 m2 : M A) :
  preserves P m1 -> preserves P m2 -> preserves P (if b then m1 else m2).
Proof. destruct b; auto. Qed.

(** Breaks a computation into its steps; what is left are the steps that
    can change the property at hand. *)
Ltac frame_step :=
  lazymatch goal with
  | |- preserves _ (ret _) => apply preserves_ret
  | |- preserves _ (raise _) => apply preserves_raise
  | |- preserves _ (try_except _ _) => apply preserves_try; [| intro ]
  | |- preserves _ (bind _ _) => apply preserves_bind; [| intro ]
  | |- preserves _ (if _ then _ else _) => apply preserves_if
  end.

Lemma connect_on_self (I : FeedbackCollector -> Prop) : preserves (on_self I) connect.
Proof. intros s H. unfold connect. destruct (outages s) as [| [] ?]; exact H. Qed.

Lemma connect_on_feedback (I : list FeedbackRow -> Prop) :
  preserves (on_feedback I) connect.
Proof. intros s H. unfold connect. destruct (outages s) as [| [] ?]; exact H. Qed.

(** Settles [preserves] for code that never assigns what the property
    reads. *)
Ltac frame :=
  repeat first
    [ frame_step
    | apply connect_on_self
    | apply connect_on_feedback
    | progress unfold _get_feedback_count, _get_recent_feedback,
        _record_weight_adjustment, get_weight_history, export_feedback_data,
        get_weights, select_adjustment
    | match goal with
      | d : (Q * Q * string)%type |- _ => destruct d as [[? ?] ?]
      end
    | (let H := fresh "H" in intros ? H; exact H) ].

Lemma get_feedback_count_on_self (I : FeedbackCollector -> Prop) :
  preserves (on_self I) _get_feedback_count.
Proof. frame. Qed.

Lemma get_recent_feedback_on_self (I : FeedbackCollector -> Prop) (limit : nat) :
  preserves (on_self I) (_get_recent_feedback limit).
Proof. frame. Qed.

Lemma record_weight_adjustment_on_self (I : FeedbackCollector -> Prop)
    (trigger_action : string) (feedback_count : Z) :
  preserves (on_self I) (_record_weight_adjustment trigger_action feedback_count).
Proof. frame. Qed.

Lemma get_weights_on_self (I : FeedbackCollector -> Prop) :
  preserves (on_self I) get_weights.
Proof. frame. Qed.

(** Nothing after the [INSERT] of [record_feedback] touches the [feedback]
    table. *)
Lemma try_adjust_weights_on_feedback (I : list FeedbackRow -> Prop) :
  preserves (on_feedback I) _try_adjust_weights.
Proof.
  unfold _try_adjust_weights, _adjust_weights_based_on_feedback.
  frame.
  unfold apply_weight_adjustments. frame.
Qed.

(** ** Storage outages *)

Lemma connect_up (s : System) :
  storage_up s -> connect s = (Ok tt, after_connect s).
Proof.
  unfold storage_up, connect, after_connect.
  destruct (outages s) as [| [] ?]; cbn; [reflexivity | discriminate | reflexivity].
Qed.

Lemma connect_down (s : System) :
  storage_down s ->
  connect s = (Raise (OperationalError "unable to open database file"), after_connect s).
Proof.
  unfold storage_down, connect, after_connect.
  destruct (outages s) as [| [] ?]; cbn; [discriminate | reflexivity | discriminate].
Qed.

Lemma get_feedback_count_value (s : System) :
  _get_feedback_count s
  = (Ok (if hd false (outages s) then 0%Z else len (feedback_table s)),
     after_connect s).
Proof.
  unfold _get_feedback_count, try_except, bind, connect, after_connect.
  destruct (outages s) as [| [] ?]; reflexivity.
Qed.

Lemma get_weights_value (s : System) :
  get_weights s
  = (Ok {| w_similarity_weight := py_round (similarity_weight (self s)) 3;
           w_screening_weight := py_round (screening_weight (self s)) 3;
           w_confidence := py_round (confidence (self s)) 3;
           w_total_feedback :=
             if hd false (outages s) then 0%Z else len (feedback_table s);
           w_updated_at := clock s |},
     after_connect s).
Proof.
  unfold get_weights, bind at 1. unfold get_self at 1. cbn beta iota.
  unfold bind at 1. rewrite get_feedback_count_value. reflexivity.
Qed.

(** ** Analytics never raise *)

(** C8.  [get_feedback_analytics] never raises: in every system it returns
    a payload.  When the storage read fails the payload is the degraded one,
    with total feedback 0 and the error text, and the error does not reach
    the caller; when the read succeeds the payload is the full report. *)
Theorem get_feedback_analytics_never_raises (s : System) :
  (exists payload, value_of get_feedback_analytics s = Ok payload)
  /\ (storage_down s ->
      value_of get_feedback_analytics s
      = Ok (Degraded 0 "unable to open database file"))
  /\ (storage_up s ->
      exists good_fit_count not_fit_count good_fit_percentage score_statistics
             current_weights,
        value_of get_feedback_analytics s
        = Ok (Report (len (feedback_table s)) good_fit_count not_fit_count
                good_fit_percentage score_statistics current_weights)).
Proof.
  split; [| split].
  - unfold value_of, get_feedback_analytics, try_except.
    match goal with |- context [bind ?m ?f s] => destruct (bind m f s) as [[p | e] s'] end.
    + exists p. reflexivity.
    + eexists. reflexivity.
  - intro Hdown.
    unfold value_of, get_feedback_analytics, try_except, bind.
    rewrite (connect_down s Hdown). reflexivity.
  - intro Hup.
    unfold value_of, get_feedback_analytics, try_except.
    unfold bind at 1. rewrite (connect_up s Hup).
    unfold bind at 1. unfold select_count_feedback at 1.
    unfold bind at 1. unfold select_feedback_counts at 1.
    unfold bind at 1. unfold select_score_stats at 1.
    unfold bind at 1. rewrite get_weights_value.
    cbn. do 5 eexists. reflexivity.
Qed.

Lemma get_feedback_analytics_never_raises_witness :
  value_of get_feedback_analytics
    {| self := {| similarity_weight := 6 # 10; screening_weight := 4 # 10;
                  confidence := 5 # 10; learning_rate := 5 # 100;
                  min_feedback_for_adjustment := 5 |};
       feedback_table := [];
       weight_history_table := [];
       clock := 0;
       outages := [true; true; true] |}
  = Ok (Degraded 0 "unable to open database file").
Proof.
  apply get_feedback_analytics_never_raises. reflexivity.
Defined.

(** ** Feedback validation *)

Lemma accepted_iff (feedback : string) :
  existsb (String.eqb feedback) ["Good Fit"; "Not a Fit"]%string = true
  <-> accepted feedback.
Proof.
  unfold accepted. cbn [existsb]. rewrite !orb_true_iff, !String.eqb_eq.
  intuition discriminate.
Qed.

Lemma next_rowid_fresh {R : Type} (id : R -> Z) (table : list R) :
  ~ In (next_rowid id table) (map id table).
Proof.
  unfold next_rowid.
  assert (H : forall z, In z (map id table) ->
                        (z <= fold_right Z.max 0 (map id table))%Z).
  { induction (map id table) as [| y l IH]; intros z Hz; [destruct Hz|].
    cbn [fold_right]. destruct Hz as [<- | Hz]; [lia|].
    specialize (IH z Hz). lia. }
  intro Hin. specialize (H _ Hin). lia.
Qed.

Lemma try_adjust_weights_returns (s : System) :
  exists s', _try_adjust_weights s = (Ok tt, s').
Proof.
  unfold _try_adjust_weights, try_except.
  match goal with |- context [bind ?m ?f s] => destruct (bind m f s) as [[[] | e] s'] end;
    eexists; reflexivity.
Qed.

(** C6.  [record_feedback] raises the validation error whenever the
    feedback is neither "Good Fit" nor "Not a Fit", and then leaves the
    system exactly as it was: nothing is written and no adjustment pass
    runs.  For either accepted literal (the storage taking the write) the
    entry is appended to the feedback table under a fresh id, and that id
    is returned; if the storage refuses the connection the call raises
    [DatabaseError] and writes nothing. *)
Theorem record_feedback_validation (s : System)
    (candidate_id hiring_manager_id : string) (final_score : Q)
    (feedback : string) (notes : option string) :
  let call := record_feedback candidate_id hiring_manager_id final_score
                feedback notes in
  (~ accepted feedback ->
     call s = (Raise (ValueError "Feedback must be 'Good Fit' or 'Not a Fit'"), s))
  /\ (accepted feedback -> storage_up s ->
      exists row,
        value_of call s = Ok (str_Z (row_id row))
        /\ feedback_table (state_after call s) = feedback_table s ++ [row]
        /\ ~ In (row_id row) (map row_id (feedback_table s))
        /\ row_candidate_id row = candidate_id
        /\ row_hiring_manager_id row = hiring_manager_id
        /\ row_final_score row = final_score
        /\ row_feedback row = feedback
        /\ row_notes row = notes)
  /\ (accepted feedback -> storage_down s ->
      value_of call s
      = Raise (DatabaseError
                 "Failed to record feedback: unable to open database file")
      /\ feedback_table (state_after call s) = feedback_table s
      /\ self (state_after call s) = self s).
Proof.
  intro call. subst call. split; [| split].
  - intro Hbad. unfold record_feedback.
    destruct (existsb _ _) eqn:E; [|reflexivity].
    apply accepted_iff in E. contradiction.
  - intros Hok Hup. apply accepted_iff in Hok.
    set (row := {| row_id := next_rowid row_id (feedback_table s);
                   row_candidate_id := candidate_id;
                   row_hiring_manager_id := hiring_manager_id;
                   row_final_score := final_score;
                   row_feedback := feedback;
                   row_notes := notes;
                   row_created_at := current_timestamp (after_connect s) |}).
    assert (Hrun : exists s2,
               record_feedback candidate_id hiring_manager_id final_score
                 feedback notes s = (Ok (str_Z (row_id row)), s2)
               /\ feedback_table s2 = feedback_table s ++ [row]).
    { unfold record_feedback. rewrite Hok. cbn [negb].
      unfold try_except. unfold bind at 1. rewrite (connect_up s Hup).
      unfold bind at 1. unfold insert_feedback at 1.
      cbn [self feedback_table weight_history_table clock outages after_connect].
      unfold bind at 1.
      match goal with
      | |- context [_try_adjust_weights ?s1] =>
          pose proof (try_adjust_weights_on_feedback
                        (fun t => t = feedback_table s1) s1 eq_refl) as Hkeep;
          destruct (try_adjust_weights_returns s1) as [s2 Hs2]
      end.
      rewrite Hs2 in Hkeep |- *. cbn [snd] in Hkeep. unfold on_feedback in Hkeep.
      cbn [feedback_table] in Hkeep.
      exists s2. split; [reflexivity | exact Hkeep]. }
    destruct Hrun as (s2 & Hrun & Htable).
    exists row. unfold value_of, state_after. rewrite Hrun. cbn [fst snd].
    split; [reflexivity|].
    split; [exact Htable|].
    split; [apply next_rowid_fresh|].
    repeat split.
  - intros Hok Hdown. apply accepted_iff in Hok.
    unfold value_of, state_after, record_feedback. rewrite Hok. cbn [negb].
    unfold try_except, bind. rewrite (connect_down s Hdown).
    repeat split.
Qed.

Lemma record_feedback_validation_witness :
  let s := {| self := {| similarity_weight := 6 # 10; screening_weight := 4 # 10;
                         confidence := 5 # 10; learning_rate := 5 # 100;
                         min_feedback_for_adjustment := 5 |};
              feedback_table := [];
              weight_history_table := [];
              clock := 0;
              outages := [] |} in
  record_feedback "c1" "m1" 9 "Maybe" None s
  = (Raise (ValueError "Feedback must be 'Good Fit' or 'Not a Fit'"), s)
  /\ exists row,
       value_of (record_feedback "c1" "m1" 9 "Good Fit" None) s
       = Ok (str_Z (row_id row))
       /\ feedback_table (state_after (record_feedback "c1" "m1" 9 "Good Fit" None) s)
          = [row].
Proof.
  intro s. split.
  - apply (record_feedback_validation s "c1" "m1" 9 "Maybe" None).
    intros [H | H]; discriminate.
  - destruct (proj1 (proj2 (record_feedback_validation s "c1" "m1" 9 "Good Fit" None)))
      as (row & Hv & Ht & _).
    + left. reflexivity.
    + reflexivity.
    + exists row. split; [exact Hv | exact Ht].
Defined.

(** ** Reading the weights twice *)

(** C7, as the code has it.  Two calls of [get_weights] with no
    [record_feedback] (or reset) between them return the same
    [similarity_weight], [screening_weight] and [confidence], and the same
    [total_feedback] when both storage reads succeed.  [updated_at] is the
    time of each call: the two snapshots are equal in every field only if
    the clock reads the same at both calls. *)
Theorem get_weights_repeatable (s : System) (clock' : Z) (outages' : list bool) :
  exists first second,
    get_weights_twice s clock' outages' = (Ok first, Ok second)
    /\ w_similarity_weight first = w_similarity_weight second
    /\ w_screening_weight first = w_screening_weight second
    /\ w_confidence first = w_confidence second
    /\ w_updated_at first = clock s
    /\ w_updated_at second = clock'
    /\ (storage_up s -> hd false outages' = false ->
        w_total_feedback first = w_total_feedback second
        /\ (clock' = clock s -> first = second)).
Proof.
  unfold get_weights_twice.
  rewrite (get_weights_value s), (get_weights_value _).
  do 2 eexists. split; [reflexivity|].
  cbn [w_similarity_weight w_screening_weight w_confidence w_updated_at
       w_total_feedback self feedback_table clock outages environment after_connect].
  repeat (split; [reflexivity|]).
  unfold storage_up. intros -> ->. split; [reflexivity|].
  intros ->. reflexivity.
Qed.

Lemma get_weights_repeatable_witness :
  let s := {| self := {| similarity_weight := 6 # 10; screening_weight := 4 # 10;
                         confidence := 5 # 10; learning_rate := 5 # 100;
                         min_feedback_for_adjustment := 5 |};
              feedback_table := [];
              weight_history_table := [];
              clock := 42;
              outages := [] |} in
  exists w, get_weights_twice s 42 [] = (Ok w, Ok w).
Proof.
  intro s.
  destruct (get_weights_repeatable s 42 [])
    as (w1 & w2 & Hrun & _ & _ & _ & _ & _ & Hsame).
  destruct Hsame as [_ Heq]; [reflexivity | reflexivity |].
  exists w1. rewrite Hrun, (Heq eq_refl). reflexivity.
Defined.

(** C7 as stated fails: one microsecond later the second snapshot differs
    from the first in [updated_at]. *)
Lemma get_weights_differ_in_updated_at :
  let s := {| self := {| similarity_weight := 6 # 10; screening_weight := 4 # 10;
                         confidence := 5 # 10; learning_rate := 5 # 100;
                         min_feedback_for_adjustment := 5 |};
              feedback_table := [];
              weight_history_table := [];
              clock := 42;
              outages := [] |} in
  exists first second,
    get_weights_twice s 43 [] = (Ok first, Ok second)
    /\ w_updated_at first = 42%Z
    /\ w_updated_at second = 43%Z
    /\ first <> second.
Proof.
  intro s. do 2 eexists. split; [vm_compute; reflexivity|].
  split; [reflexivity|]. split; [reflexivity|].
  intro H. discriminate H.
Qed.

(** ** The weights stay normalised and within their ranges *)

Lemma clamp_bounds (lo hi x : Q) :
  lo <= hi -> lo <= clamp lo hi x /\ clamp lo hi x <= hi.
Proof.
  intro H. unfold clamp. split.
  - apply Q.le_max_l.
  - apply Q.max_lub; [exact H | apply Q.le_min_l].
Qed.

(** Dividing two clamped weights by their sum gives the invariant. *)
Lemma normalised_weights (a b : Q) :
  3 # 10 <= a -> a <= 8 # 10 -> 2 # 10 <= b -> b <= 7 # 10 ->
  a / (a + b) + b / (a + b) == 1
  /\ 3 # 10 <= a / (a + b) /\ a / (a + b) <= 8 # 10
  /\ 2 # 10 <= b / (a + b) /\ b / (a + b) <= 7 # 10.
Proof.
  intros Ha1 Ha2 Hb1 Hb2.
  assert (Hpos : 0 < a + b) by lra.
  split; [field; lra|].
  split; [apply Qle_shift_div_l; [exact Hpos | lra]|].
  split; [apply Qle_shift_div_r; [exact Hpos | lra]|].
  split; [apply Qle_shift_div_l; [exact Hpos | lra]|].
  apply Qle_shift_div_r; [exact Hpos | lra].
Qed.

(** What the block "Apply weight adjustments" leaves in the collector. *)
Lemma apply_weight_adjustments_value (ds dsc : Q) (s : System) :
  let a := clamp (3 # 10) (8 # 10) (similarity_weight (self s) + ds) in
  let b := clamp (2 # 10) (7 # 10) (screening_weight (self s) + dsc) in
  exists s',
    apply_weight_adjustments ds dsc s = (Ok tt, s')
    /\ feedback_table s' = feedback_table s
    /\ weight_history_table s' = weight_history_table s
    /\ clock s' = clock s /\ outages s' = outages s
    /\ confidence (self s') = confidence (self s)
    /\ learning_rate (self s') = learning_rate (self s)
    /\ min_feedback_for_adjustment (self s') = min_feedback_for_adjustment (self s)
    /\ (Qeq_bool ds 0 && Qeq_bool dsc 0 = true ->
        similarity_weight (self s') = similarity_weight (self s)
        /\ screening_weight (self s') = screening_weight (self s))
    /\ (Qeq_bool ds 0 && Qeq_bool dsc 0 = false ->
        similarity_weight (self s') = a / (a + b)
        /\ screening_weight (self s') = b / (a + b)).
Proof.
  destruct s as [[sw scw conf lr mn] fb wh clk outs].
  cbn [self similarity_weight screening_weight].
  set (a := clamp (3 # 10) (8 # 10) (sw + ds)).
  set (b := clamp (2 # 10) (7 # 10) (scw + dsc)).
  destruct (clamp_bounds (3 # 10) (8 # 10) (sw + ds)) as [Ha1 Ha2]; [literal|].
  destruct (clamp_bounds (2 # 10) (7 # 10) (scw + dsc)) as [Hb1 Hb2]; [literal|].
  fold a in Ha1, Ha2. fold b in Hb1, Hb2.
  assert (Hgt : Qgt_bool (a + b) 0 = true) by (apply Qgt_bool_iff; lra).
  unfold apply_weight_adjustments.
  destruct (Qeq_bool ds 0), (Qeq_bool dsc 0); cbn [negb orb andb].
  1: { eexists. split; [reflexivity|]. repeat split; try reflexivity; discriminate. }
  all: cbn -[Qmax Qmin Qplus Qdiv Qgt_bool];
       fold (clamp (3 # 10) (8 # 10) (sw + ds));
       fold (clamp (2 # 10) (7 # 10) (scw + dsc));
       fold a; fold b; rewrite Hgt;
       cbn -[Qmax Qmin Qplus Qdiv Qgt_bool];
       eexists; split; [reflexivity|];
       cbn -[Qmax Qmin Qplus Qdiv Qgt_bool];
       repeat split; try reflexivity; discriminate.
Qed.

Lemma apply_weight_adjustments_invariant (ds dsc : Q) :
  preserves (on_self weights_invariant) (apply_weight_adjustments ds dsc).
Proof.
  intros s H. unfold on_self in *.
  destruct (apply_weight_adjustments_value ds dsc s)
    as (s' & -> & _ & _ & _ & _ & _ & _ & _ & Hzero & Hnonzero).
  cbn [snd]. unfold weights_invariant.
  destruct (Qeq_bool ds 0 && Qeq_bool dsc 0).
  - destruct (Hzero eq_refl) as [-> ->]. exact H.
  - destruct (Hnonzero eq_refl) as [-> ->].
    destruct (clamp_bounds (3 # 10) (8 # 10) (similarity_weight (self s) + ds))
      as [Ha1 Ha2]; [literal|].
    destruct (clamp_bounds (2 # 10) (7 # 10) (screening_weight (self s) + dsc))
      as [Hb1 Hb2]; [literal|].
    now apply normalised_weights.
Qed.

Lemma set_confidence_invariant (v : Q) :
  preserves (on_self weights_invariant) (set_confidence v).
Proof. intros s H. exact H. Qed.

Lemma select_adjustment_invariant (good_fits not_fits : list FeedbackDict)
    (avg_good_fit_score avg_not_fit_score : Q) :
  preserves (on_self weights_invariant)
    (select_adjustment good_fits not_fits avg_good_fit_score avg_not_fit_score).
Proof.
  unfold select_adjustment.
  repeat first [frame_step | apply set_confidence_invariant | (intros ? H; exact H)].
Qed.

Lemma adjust_weights_invariant :
  preserves (on_self weights_invariant) _adjust_weights_based_on_feedback.
Proof.
  unfold _adjust_weights_based_on_feedback.
  apply preserves_try; [| intro; apply preserves_ret].
  apply preserves_bind; [apply get_recent_feedback_on_self | intro].
  apply preserves_if; [apply preserves_ret|].
  apply preserves_bind; [apply select_adjustment_invariant | intros [[ds dsc] trigger]].
  apply preserves_bind; [apply apply_weight_adjustments_invariant | intro].
  apply record_weight_adjustment_on_self.
Qed.

Lemma try_adjust_weights_invariant :
  preserves (on_self weights_invariant) _try_adjust_weights.
Proof.
  unfold _try_adjust_weights.
  apply preserves_try; [| intro; apply preserves_ret].
  apply preserves_bind; [apply get_feedback_count_on_self | intro].
  apply preserves_bind; [intros s H; exact H | intro].
  apply preserves_if; [apply adjust_weights_invariant | apply preserves_ret].
Qed.

Lemma record_feedback_invariant (candidate_id hiring_manager_id : string)
    (final_score : Q) (feedback : string) (notes : option string) :
  preserves (on_self weights_invariant)
    (record_feedback candidate_id hiring_manager_id final_score feedback notes).
Proof.
  unfold record_feedback.
  apply preserves_if; [apply preserves_raise|].
  apply preserves_try; [| intro; apply preserves_raise].
  apply preserves_bind; [apply connect_on_self | intro].
  apply preserves_bind; [intros s H; exact H | intro].
  apply preserves_bind; [apply try_adjust_weights_invariant | intro].
  apply preserves_ret.
Qed.

Lemma default_weights_invariant (confidence learning_rate : Q) (n : Z) :
  weights_invariant
    {| similarity_weight := 6 # 10; screening_weight := 4 # 10;
       confidence := confidence; learning_rate := learning_rate;
       min_feedback_for_adjustment := n |}.
Proof. unfold weights_invariant. cbn. repeat split; literal. Qed.

Lemma reset_weights_invariant (s : System) :
  weights_invariant (self (state_after reset_weights s)).
Proof.
  unfold state_after, reset_weights.
  unfold bind at 1. unfold set_similarity_weight at 1.
  unfold bind at 1. unfold get_self at 1. unfold put_self at 1.
  unfold bind at 1. unfold set_screening_weight at 1.
  unfold bind at 1. unfold get_self at 1. unfold put_self at 1.
  unfold bind at 1. unfold set_confidence at 1.
  unfold bind at 1. unfold get_self at 1. unfold put_self at 1.
  cbn [self feedback_table weight_history_table clock outages
       similarity_weight screening_weight confidence learning_rate
       min_feedback_for_adjustment fst snd].
  match goal with
  | |- weights_invariant (self (snd (bind _ ?k ?s1))) =>
      apply (preserves_bind (on_self weights_invariant) _get_feedback_count k);
      [apply get_feedback_count_on_self
      | intro; apply record_weight_adjustment_on_self
      | apply default_weights_invariant]
  end.
Qed.

Lemma init_invariant (s0 s : System) :
  __init__ s0 = (Ok tt, s) -> weights_invariant (self s).
Proof.
  unfold __init__, init_database, try_except, bind, connect, put_self, ret, raise.
  destruct (outages s0) as [| [] ?]; cbn; intros [= <-];
    apply default_weights_invariant.
Qed.

Lemma reachable_invariant (s : System) :
  reachable s -> weights_invariant (self s).
Proof.
  induction 1 as [s0 s Hinit | c s Hreach IH | s clock' outages' Hreach IH Hclock].
  - exact (init_invariant s0 s Hinit).
  - destruct c; cbn [run_call].
    + exact (record_feedback_invariant _ _ _ _ _ s IH).
    + exact (get_weights_on_self weights_invariant s IH).
    + assert (F : preserves (on_self weights_invariant) (get_weight_history limit))
        by frame.
      exact (F s IH).
    + assert (F : preserves (on_self weights_invariant) get_feedback_analytics)
        by (unfold get_feedback_analytics; frame).
      exact (F s IH).
    + apply reset_weights_invariant.
    + assert (F : preserves (on_self weights_invariant) export_feedback_data)
        by frame.
      exact (F s IH).
  - exact IH.
Qed.

Lemma fresh_reachable : reachable fresh.
Proof. apply (reach_init (unconstructed 0 [])). reflexivity. Qed.

Lemma repeat_call_reachable (n : nat) (c : call) (s : System) :
  reachable s -> reachable (repeat_call n c s).
Proof.
  revert s. induction n as [| n IH]; intros s H; cbn [repeat_call].
  - exact H.
  - apply IH, reach_call, H.
Qed.

Lemma reset_weights_defaults (s : System) :
  at_defaults (self (state_after reset_weights s)).
Proof.
  unfold state_after, reset_weights.
  unfold bind at 1. unfold set_similarity_weight at 1.
  unfold bind at 1. unfold get_self at 1. unfold put_self at 1.
  unfold bind at 1. unfold set_screening_weight at 1.
  unfold bind at 1. unfold get_self at 1. unfold put_self at 1.
  unfold bind at 1. unfold set_confidence at 1.
  unfold bind at 1. unfold get_self at 1. unfold put_self at 1.
  cbn [self feedback_table weight_history_table clock outages
       similarity_weight screening_weight confidence learning_rate
       min_feedback_for_adjustment fst snd].
  match goal with
  | |- at_defaults (self (snd (bind _ ?k ?s1))) =>
      apply (preserves_bind (on_self at_defaults) _get_feedback_count k);
      [apply get_feedback_count_on_self
      | intro; apply record_weight_adjustment_on_self
      | repeat split]
  end.
Qed.

(** C3.  In every system the collector can reach, and so after every
    adjustment pass and every reset, [similarity_weight + screening_weight]
    is 1 (exactly, hence within 1e-6), [similarity_weight] lies in
    [0.3,0.8] and [screening_weight] in [0.2,0.7]; a reset leaves 0.6, 0.4
    and confidence 0.5.  A delta that is not zero is added, each weight is
    clamped to its range, and both are divided by their sum, so that they
    add up to exactly 1. *)
Theorem weights_stay_normalised (s : System) :
  reachable s ->
  weights_invariant (self s)
  /\ weights_invariant (self (state_after _adjust_weights_based_on_feedback s))
  /\ Qabs (similarity_weight (self (state_after _adjust_weights_based_on_feedback s))
           + screening_weight (self (state_after _adjust_weights_based_on_feedback s))
           - 1) <= 1 # 1000000
  /\ weights_invariant (self (state_after reset_weights s))
  /\ similarity_weight (self (state_after reset_weights s)) = 6 # 10
  /\ screening_weight (self (state_after reset_weights s)) = 4 # 10
  /\ confidence (self (state_after reset_weights s)) = 5 # 10
  /\ forall delta_similarity delta_screening,
       ~ (delta_similarity == 0 /\ delta_screening == 0) ->
       let a := clamp (3 # 10) (8 # 10)
                  (similarity_weight (self s) + delta_similarity) in
       let b := clamp (2 # 10) (7 # 10)
                  (screening_weight (self s) + delta_screening) in
       let s' := state_after
                   (apply_weight_adjustments delta_similarity delta_screening) s in
       similarity_weight (self s') = a / (a + b)
       /\ screening_weight (self s') = b / (a + b)
       /\ similarity_weight (self s') + screening_weight (self s') == 1
       /\ weights_invariant (self s').
Proof.
  intro Hreach.
  pose proof (reachable_invariant s Hreach) as Hinv.
  pose proof (adjust_weights_invariant s Hinv) as Hpass.
  unfold on_self in Hpass. fold (state_after _adjust_weights_based_on_feedback s) in Hpass.
  split; [exact Hinv|]. split; [exact Hpass|].
  split.
  { destruct Hpass as [Hsum _].
    apply Qabs_Qle_condition. rewrite Hsum. split; literal. }
  split; [apply reset_weights_invariant|].
  destruct (reset_weights_defaults s) as (H1 & H2 & H3).
  split; [exact H1|]. split; [exact H2|]. split; [exact H3|].
  intros ds dsc Hnz a b s'.
  destruct (apply_weight_adjustments_value ds dsc s)
    as (s1 & Hrun & _ & _ & _ & _ & _ & _ & _ & _ & Hnonzero).
  assert (E : Qeq_bool ds 0 && Qeq_bool dsc 0 = false).
  { destruct (Qeq_bool ds 0) eqn:E1, (Qeq_bool dsc 0) eqn:E2; try reflexivity.
    exfalso. apply Hnz. split; now apply Qeq_bool_iff. }
  destruct (Hnonzero E) as [Ha Hb].
  assert (Hs' : s' = s1) by (unfold s', state_after; now rewrite Hrun).
  rewrite Hs'. fold a in Ha. fold b in Hb.
  split; [exact Ha|]. split; [exact Hb|].
  pose proof (apply_weight_adjustments_invariant ds dsc s Hinv) as Hinv'.
  unfold on_self in Hinv'. rewrite Hrun in Hinv'. cbn [snd] in Hinv'.
  split; [apply Hinv' | exact Hinv'].
Qed.

Lemma weights_stay_normalised_witness :
  let s := repeat_call 5 (RecordFeedback "c1" "m1" 9 "Not a Fit" None) fresh in
  weights_invariant (self s)
  /\ weights_invariant (self (state_after reset_weights s)).
Proof.
  intro s.
  destruct (weights_stay_normalised s) as (H1 & _ & _ & H2 & _).
  - apply repeat_call_reachable, fresh_reachable.
  - split; [exact H1 | exact H2].
Defined.

(** ** The rules of an adjustment pass *)

Lemma get_recent_feedback_up (s : System) :
  storage_up s ->
  _get_recent_feedback 10 s = (Ok (window s), after_connect s).
Proof.
  intro Hup. unfold _get_recent_feedback, try_except.
  unfold bind at 1. rewrite (connect_up s Hup). reflexivity.
Qed.

(** With a readable, non-empty window the pass is the application of the
    first rule whose condition holds. *)
Lemma adjust_weights_applies_first_rule (s : System) :
  storage_up s -> window s <> [] ->
  state_after _adjust_weights_based_on_feedback s
  = state_after
      (apply_rule (first_rule (good_fits_of (window s)) (not_fits_of (window s)))
         (len (window s)))
      (after_connect s).
Proof.
  intros Hup Hdata.
  unfold state_after, _adjust_weights_based_on_feedback.
  match goal with
  | |- snd (try_except ?m ?h s) = _ =>
      assert (E : snd (try_except m h s) = snd (m s))
        by (unfold try_except; destruct (m s) as [[[] | e] s']; reflexivity);
      rewrite E; clear E
  end.
  unfold bind at 1. rewrite (get_recent_feedback_up s Hup).
  assert (Hne : nonempty (window s) = true)
    by (destruct (window s); [congruence | reflexivity]).
  rewrite Hne. cbn [negb].
  fold (good_fits_of (window s)). fold (not_fits_of (window s)).
  fold (mean_final_score (good_fits_of (window s))).
  fold (mean_final_score (not_fits_of (window s))).
  generalize (good_fits_of (window s)) (not_fits_of (window s))
    (len (window s)) (after_connect s).
  intros good nots n s1.
  unfold apply_rule, first_rule, select_adjustment. cbn [find rule_condition].
  destruct (nonempty nots && Qgt_bool (mean_final_score nots) (65 # 10));
    [reflexivity|].
  destruct (nonempty good && Qlt_bool (mean_final_score good) 5);
    [reflexivity|].
  destruct (nonempty good && Qgt_bool (mean_final_score good) (75 # 10));
    [reflexivity|].
  destruct (nonempty nots && Qlt_bool (mean_final_score nots) 5);
    reflexivity.
Qed.

Lemma in_firstn {A : Type} (n : nat) (l : list A) (x : A) :
  In x (firstn n l) -> In x l.
Proof.
  intro H. rewrite <- (firstn_skipn n l). apply in_or_app. now left.
Qed.

(** * Further properties *)

(** ** Ranked result lists *)

Section SortDescMore.

Context {A : Type} (key : A -> Q).

Lemma sort_desc_of_sorted (l : list A) :
  StronglySorted (descending key) l -> sort_desc key l = l.
Proof.
  induction 1 as [| x l Hs IH Hx]; cbn [sort_desc]; [reflexivity|].
  rewrite IH. destruct l as [| y l']; [reflexivity|].
  cbn [insert_desc].
  inversion Hx as [| ? ? Hy _]; subst. unfold descending in Hy.
  apply Qlt_bool_false in Hy. now rewrite Hy.
Qed.

Lemma sort_desc_ext (key' : A -> Q) (l : list A) :
  (forall x, key x = key' x) -> sort_desc key l = sort_desc key' l.
Proof.
  intro E.
  assert (Hins : forall x s, insert_desc key x s = insert_desc key' x s).
  { intros x s. induction s as [| y s IH]; cbn [insert_desc]; [reflexivity|].
    rewrite IH, !E. reflexivity. }
  induction l as [| x l IH]; cbn [sort_desc]; [reflexivity|].
  now rewrite IH, Hins.
Qed.

Lemma firstn_sorted (n : nat) (l : list A) :
  StronglySorted (descending key) l ->
  StronglySorted (descending key) (firstn n l).
Proof.
  intro Hs. revert n.
  induction Hs as [| x l Hs IH Hx]; intros [| n]; cbn [firstn]; try constructor.
  - apply IH.
  - rewrite Forall_forall in Hx |- *. intros y Hy. apply Hx.
    rewrite <- (firstn_skipn n l). apply in_or_app. now left.
Qed.

Lemma filter_sorted (f : A -> bool) (l : list A) :
  StronglySorted (descending key) l ->
  StronglySorted (descending key) (filter f l).
Proof.
  induction 1 as [| x l Hs IH Hx]; cbn [filter]; [constructor|].
  destruct (f x); [|exact IH].
  constructor; [exact IH|].
  rewrite Forall_forall in Hx |- *. intros y Hy.
  apply filter_In in Hy. apply Hx, Hy.
Qed.

(** Keeping the elements of a descending list whose key reaches a
    threshold keeps a prefix of the list. *)
Lemma filter_threshold_prefix (t : Q) (l : list A) :
  StronglySorted (descending key) l ->
  filter (fun a => Qge_bool (key a) t) l
  = firstn (List.length (filter (fun a => Qge_bool (key a) t) l)) l.
Proof.
  induction 1 as [| x l Hs IH Hx]; cbn [filter]; [reflexivity|].
  destruct (Qge_bool (key x) t) eqn:E.
  - cbn [List.length firstn]. now rewrite <- IH.
  - apply Qge_bool_false in E.
    assert (Hnone : filter (fun a => Qge_bool (key a) t) l = []).
    { clear IH. induction l as [| y l IHl]; [reflexivity|].
      inversion Hx as [| ? ? Hy Hrest]; subst. unfold descending in Hy.
      inversion Hs; subst.
      cbn [filter].
      assert (Ey : Qge_bool (key y) t = false) by (apply Qge_bool_false; lra).
      rewrite Ey. now apply IHl. }
    rewrite Hnone. reflexivity.
Qed.

End SortDescMore.

Lemma slice_to_firstn {A : Type} (l : list A) (k : Z) :
  exists n, slice_to l k = firstn n l
            /\ Z.of_nat (List.length (slice_to l k))
               = Z.max 0 (Z.min (Z.of_nat (List.length l))
                            (if (k <? 0)%Z then Z.of_nat (List.length l) + k else k)).
Proof.
  unfold slice_to. destruct (k <? 0)%Z eqn:E.
  - exists (Z.to_nat (Z.of_nat (List.length l) + k)). split; [reflexivity|].
    rewrite length_firstn. apply Z.ltb_lt in E. lia.
  - exists (Z.to_nat k). split; [reflexivity|].
    rewrite length_firstn. apply Z.ltb_ge in E. lia.
Qed.

(** X1.  [get_top_matches] returns the [top_k] best entries in descending
    order of final score: [min(top_k, n)] of them for a [top_k] that is not
    negative, and all but the [-top_k] lowest for a negative one.  Nothing
    is invented or lost: the entries returned and the entries left out make
    up the input, and no entry left out scores above an entry returned. *)
Theorem get_top_matches_best (self : Matching.CandidateJobMatcher)
    (match_results : list Matching.BatchEntry) (top_k : Z) :
  let top := Matching.get_top_matches self match_results top_k in
  Z.of_nat (List.length top)
  = Z.max 0 (Z.min (Z.of_nat (List.length match_results))
               (if (top_k <? 0)%Z
                then Z.of_nat (List.length match_results) + top_k
                else top_k))
  /\ StronglySorted (descending ranking_score) top
  /\ exists left_out,
       Permutation match_results (top ++ left_out)
       /\ forall a b, In a top -> In b left_out ->
                      ranking_score b <= ranking_score a.
Proof.
  intro top. subst top. unfold Matching.get_top_matches.
  fold ranking_score.
  destruct (slice_to_firstn (sort_desc ranking_score match_results) top_k)
    as (n & -> & Hlen).
  rewrite sort_desc_length in Hlen.
  pose proof (sort_desc_sorted ranking_score match_results) as Hs.
  split.
  { rewrite <- Hlen. unfold slice_to.
    destruct (top_k <? 0)%Z; rewrite !length_firstn, sort_desc_length; lia. }
  split; [apply firstn_sorted, Hs|].
  exists (skipn n (sort_desc ranking_score match_results)). split.
  - rewrite firstn_skipn. apply sort_desc_perm.
  - intros a b. apply descending_firstn, Hs.
Qed.

(** X2.  The list [batch_match_candidates] returns is already ranked:
    [get_top_matches] on it is the plain slice [results[:top_k]], and
    [filter_by_threshold] on it cuts the list after its last entry that
    reaches the threshold. *)
Theorem ranked_batch_is_stable
    (cosine_similarity : list Q -> list Q -> result Q)
    (self : Matching.CandidateJobMatcher) (h : list Q)
    (candidates : list Matching.Candidate) (hp : option Matching.Profile)
    (top_k : Z) (min_score : Q) :
  let results :=
    Matching.batch_match_candidates cosine_similarity self h candidates hp in
  Matching.get_top_matches self results top_k = slice_to results top_k
  /\ prefix_of (Matching.filter_by_threshold self results min_score) results
  /\ Matching.get_top_matches self
       (Matching.filter_by_threshold self results min_score) top_k
     = slice_to (Matching.filter_by_threshold self results min_score) top_k.
Proof.
  intro results.
  assert (Hkey : forall x, Matching.sort_key x = ranking_score x)
    by (intros []; reflexivity).
  assert (Hs : StronglySorted (descending ranking_score) results).
  { unfold results, Matching.batch_match_candidates.
    rewrite (sort_desc_ext Matching.sort_key ranking_score _ Hkey).
    apply sort_desc_sorted. }
  unfold Matching.get_top_matches, Matching.filter_by_threshold.
  fold ranking_score.
  split; [now rewrite (sort_desc_of_sorted ranking_score results Hs)|].
  split.
  - pose proof (filter_threshold_prefix ranking_score min_score results Hs) as E.
    set (kept := filter (fun a => Qge_bool (ranking_score a) min_score) results) in *.
    exists (skipn (List.length kept) results).
    etransitivity; [symmetry; apply (firstn_skipn (List.length kept))|].
    f_equal. symmetry. exact E.
  - rewrite (sort_desc_of_sorted ranking_score); [reflexivity|].
    apply filter_sorted, Hs.
Qed.

Lemma filter_idem {A : Type} (f : A -> bool) (l : list A) :
  filter f (filter f l) = filter f l.
Proof.
  induction l as [| x l IH]; cbn [filter]; [reflexivity|].
  destruct (f x) eqn:E; cbn [filter]; [rewrite E; f_equal|]; exact IH.
Qed.

(** X3.  [filter_by_threshold] keeps exactly the entries whose final score
    is at least [min_score], in their input order; the sentinel of a failed
    candidate (final score -1) never passes a threshold above -1; and
    filtering twice is filtering once. *)
Theorem filter_by_threshold_keeps (self : Matching.CandidateJobMatcher)
    (match_results : list Matching.BatchEntry) (min_score : Q) :
  let kept := Matching.filter_by_threshold self match_results min_score in
  (forall r, In r kept <-> In r match_results /\ min_score <= ranking_score r)
  /\ (forall key : Matching.BatchEntry -> Q,
        StronglySorted (descending key) match_results ->
        StronglySorted (descending key) kept)
  /\ (-1 < min_score -> forall r, In r kept -> ~ is_sentinel r)
  /\ Matching.filter_by_threshold self kept min_score = kept.
Proof.
  intro kept. subst kept. unfold Matching.filter_by_threshold.
  fold ranking_score.
  assert (Hin : forall r,
             In r (filter (fun r => Qge_bool (ranking_score r) min_score)
                     match_results)
             <-> In r match_results /\ min_score <= ranking_score r).
  { intro r. rewrite filter_In, Qge_bool_iff. reflexivity. }
  split; [exact Hin|].
  split; [intros key Hs; now apply filter_sorted|].
  split.
  - intros Hmin r Hr (cid & err & ->).
    apply Hin in Hr. destruct Hr as [_ Hr].
    unfold ranking_score in Hr. cbn in Hr. lra.
  - apply filter_idem.
Qed.

(** ** Rounding a whole number *)

Lemma py_round_Z (z : Z) (n : nat) : py_round (inject_Z z) n == inject_Z z.
Proof.
  pose proof (pow10_pos n) as Hp.
  unfold py_round.
  assert (E : inject_Z z * pow10 n == inject_Z (z * 10 ^ Z.of_nat n))
    by (unfold pow10; now rewrite inject_Z_mult).
  rewrite (round_half_even_proper _ _ E), round_half_even_Z.
  rewrite inject_Z_mult. fold (pow10 n). field. lra.
Qed.

(** ** The ranges of a result and its tier *)

Section MatchingMore.

Variable cosine_similarity : list Q -> list Q -> result Q.

(** X6.  For weights that are not negative and add up to 1, a library
    cosine in [-1,1] and a screening score in [0,10], the dictionary
    [compute_match] returns has [similarity_score] in [0,1] and both
    [screening_score] and [final_score] in [0,10]. *)
Theorem compute_match_ranges (self : Matching.CandidateJobMatcher)
    (h c : list Q) (s : Q) (cid hid : string)
    (cp hp : option Matching.Profile) (cosv : Q) :
  0 <= Matching.similarity_weight self ->
  0 <= Matching.screening_weight self ->
  Matching.similarity_weight self + Matching.screening_weight self == 1 ->
  h <> [] -> c <> [] -> 0 <= s -> s <= 10 ->
  cosine_similarity h c = Ok cosv -> -1 <= cosv -> cosv <= 1 ->
  exists r,
    Matching.outcome
      (Matching.compute_match cosine_similarity self h c s cid hid cp hp) = Ok r
    /\ 0 <= Matching.similarity_score r /\ Matching.similarity_score r <= 1
    /\ 0 <= Matching.screening_score r /\ Matching.screening_score r <= 10
    /\ 0 <= Matching.final_score r /\ Matching.final_score r <= 10.
Proof.
  intros Hsw Hscw Hsum Hh Hc H0 H10 Hcos Hlo Hhi.
  rewrite (compute_match_returns cosine_similarity self h c s cid hid cp hp cosv
             Hh Hc H0 H10 Hcos).
  eexists. split; [reflexivity|].
  cbn [Matching.similarity_score Matching.screening_score Matching.final_score].
  set (sw := Matching.similarity_weight self) in *.
  set (scw := Matching.screening_weight self) in *.
  assert (Hsim0 : 0 <= (cosv + 1) / 2) by (apply Qle_shift_div_l; [literal | lra]).
  assert (Hsim1 : (cosv + 1) / 2 <= 1) by (apply Qle_shift_div_r; [literal | lra]).
  assert (Hs0 : 0 <= s / 10) by (apply Qle_shift_div_l; [literal | lra]).
  assert (Hs1 : s / 10 <= 1) by (apply Qle_shift_div_r; [literal | lra]).
  set (sim := (cosv + 1) / 2) in *. set (ns := s / 10) in *.
  assert (Ha0 : 0 <= sw * sim) by (apply Qmult_le_0_compat; assumption).
  assert (Hb0 : 0 <= scw * ns) by (apply Qmult_le_0_compat; assumption).
  assert (Ha1 : sw * sim <= sw * 1)
    by (rewrite !(Qmult_comm sw); apply Qmult_le_compat_r; assumption).
  assert (Hb1 : scw * ns <= scw * 1)
    by (rewrite !(Qmult_comm scw); apply Qmult_le_compat_r; assumption).
  clearbody sim ns.
  repeat split.
  - now apply py_round_nonneg.
  - apply Qle_trans with (py_round 1 3); [now apply py_round_mono | literal].
  - now apply py_round_nonneg.
  - apply Qle_trans with (py_round 10 2); [now apply py_round_mono | literal].
  - apply py_round_nonneg. lra.
  - apply Qle_trans with (py_round 10 2); [apply py_round_mono; lra | literal].
Qed.

(** X7.  The recommendation is taken from the final score before it is
    rounded, so it can differ from the tier of the reported [final_score]
    only when that is exactly 8, 7, 6 or 5: for every other reported score
    the recommendation is the one [_get_recommendation] gives for it. *)
Theorem recommendation_matches_reported_score
    (self : Matching.CandidateJobMatcher)
    (h c : list Q) (s : Q) (cid hid : string)
    (cp hp : option Matching.Profile) (cosv : Q) :
  h <> [] -> c <> [] -> 0 <= s -> s <= 10 ->
  cosine_similarity h c = Ok cosv ->
  exists r,
    Matching.outcome
      (Matching.compute_match cosine_similarity self h c s cid hid cp hp) = Ok r
    /\ (Matching.final_score r == 8 \/ Matching.final_score r == 7
        \/ Matching.final_score r == 6 \/ Matching.final_score r == 5
        \/ Matching.recommendation r
           = Matching._get_recommendation (Matching.final_score r)).
Proof.
  intros Hh Hc H0 H10 Hcos.
  rewrite (compute_match_returns cosine_similarity self h c s cid hid cp hp cosv
             Hh Hc H0 H10 Hcos).
  eexists. split; [reflexivity|].
  cbn [Matching.final_score Matching.recommendation].
  match goal with |- context [py_round ?u 2] => set (scaled := u) end.
  set (f := py_round scaled 2).
  assert (Hup : forall t : Z, inject_Z t <= scaled -> inject_Z t <= f).
  { intros t Ht. rewrite <- (py_round_Z t 2). now apply py_round_mono. }
  assert (Hdown : forall t : Z, scaled < inject_Z t -> f <= inject_Z t).
  { intros t Ht. rewrite <- (py_round_Z t 2). apply py_round_mono. lra. }
  pose proof (Hup 8%Z) as U8. pose proof (Hdown 8%Z) as D8.
  pose proof (Hup 7%Z) as U7. pose proof (Hdown 7%Z) as D7.
  pose proof (Hup 6%Z) as U6. pose proof (Hdown 6%Z) as D6.
  pose proof (Hup 5%Z) as U5. pose proof (Hdown 5%Z) as D5.
  change (inject_Z 8) with 8 in *. change (inject_Z 7) with 7 in *.
  change (inject_Z 6) with 6 in *. change (inject_Z 5) with 5 in *.
  clear Hup Hdown. clearbody f scaled.
  destruct (Qeq_dec f 8) as [|N8]; [now left|].
  destruct (Qeq_dec f 7) as [|N7]; [right; now left|].
  destruct (Qeq_dec f 6) as [|N6]; [right; right; now left|].
  destruct (Qeq_dec f 5) as [|N5]; [right; right; right; now left|].
  right; right; right; right.
  unfold Matching._get_recommendation.
  destruct (Qge_bool scaled 8) eqn:S8, (Qge_bool f 8) eqn:F8;
    try (apply Qge_bool_iff in S8); try (apply Qge_bool_false in S8);
    try (apply Qge_bool_iff in F8); try (apply Qge_bool_false in F8);
    try reflexivity; try (exfalso; specialize (U8 S8); lra);
    try (exfalso; specialize (D8 S8); lra).
  destruct (Qge_bool scaled 7) eqn:S7, (Qge_bool f 7) eqn:F7;
    try (apply Qge_bool_iff in S7); try (apply Qge_bool_false in S7);
    try (apply Qge_bool_iff in F7); try (apply Qge_bool_false in F7);
    try reflexivity; try (exfalso; specialize (U7 S7); lra);
    try (exfalso; specialize (D7 S7); lra).
  destruct (Qge_bool scaled 6) eqn:S6, (Qge_bool f 6) eqn:F6;
    try (apply Qge_bool_iff in S6); try (apply Qge_bool_false in S6);
    try (apply Qge_bool_iff in F6); try (apply Qge_bool_false in F6);
    try reflexivity; try (exfalso; specialize (U6 S6); lra);
    try (exfalso; specialize (D6 S6); lra).
  destruct (Qge_bool scaled 5) eqn:S5, (Qge_bool f 5) eqn:F5;
    try (apply Qge_bool_iff in S5); try (apply Qge_bool_false in S5);
    try (apply Qge_bool_iff in F5); try (apply Qge_bool_false in F5);
    try reflexivity; try (exfalso; specialize (U5 S5); lra);
    try (exfalso; specialize (D5 S5); lra).
Qed.

End MatchingMore.

Lemma compute_match_ranges_witness :
  exists r,
    Matching.outcome
      (Matching.compute_match reference_cosine_similarity Matching.init
         [1; 0] [4; 3] 8 "c1" "h1" None None) = Ok r
    /\ 0 <= Matching.final_score r /\ Matching.final_score r <= 10.
Proof.
  destruct (compute_match_ranges reference_cosine_similarity Matching.init
              [1; 0] [4; 3] 8 "c1" "h1" None None (4 # 5))
    as (r & Hr & _ & _ & _ & _ & Hlo & Hhi);
    try discriminate; try literal.
  exists r. split; [exact Hr|]. split; [exact Hlo | exact Hhi].
Defined.

(** Identical embeddings and a screening score of 4.99: the score before
    rounding is 7.996, reported as 8.0 with the GOOD MATCH text. *)
Lemma recommendation_matches_reported_score_witness :
  exists r,
    Matching.outcome
      (Matching.compute_match reference_cosine_similarity Matching.init
         [1; 0] [1; 0] (499 # 100) "c1" "h1" None None) = Ok r
    /\ Matching.final_score r == 8
    /\ Matching.recommendation r = "GOOD MATCH - Recommend for consideration"%string.
Proof.
  destruct (recommendation_matches_reported_score reference_cosine_similarity
              Matching.init [1; 0] [1; 0] (499 # 100) "c1" "h1" None None 1)
    as (r & Hr & _); try discriminate; try literal.
  exists r. split; [exact Hr|].
  vm_compute in Hr. injection Hr as <-. split; literal.
Defined.

(** ** The confidence of the collector *)

Lemma select_adjustment_confidence (c0 : Q)
    (good_fits not_fits : list FeedbackDict) (avg_good avg_not : Q) :
  preserves (on_self (confidence_between c0))
    (select_adjustment good_fits not_fits avg_good avg_not).
Proof.
  intros s [Hlo Hhi]. unfold on_self, confidence_between in *.
  unfold select_adjustment, bind, get_self.
  assert (Hcap : forall d, 0 <= d ->
            c0 <= Qmin (95 # 100) (confidence (self s) + d)
            /\ Qmin (95 # 100) (confidence (self s) + d) <= 95 # 100).
  { intros d Hd. split; [apply Q.min_glb; lra | apply Q.le_min_l]. }
  destruct (nonempty not_fits && Qgt_bool avg_not (65 # 10)); [now split|].
  destruct (nonempty good_fits && Qlt_bool avg_good 5); [now split|].
  destruct (nonempty good_fits && Qgt_bool avg_good (75 # 10));
    [apply Hcap; literal|].
  destruct (nonempty not_fits && Qlt_bool avg_not 5);
    [apply Hcap; literal | now split].
Qed.

Lemma apply_weight_adjustments_confidence (c0 ds dsc : Q) :
  preserves (on_self (confidence_between c0)) (apply_weight_adjustments ds dsc).
Proof.
  intros s H. unfold on_self, confidence_between in *.
  destruct (apply_weight_adjustments_value ds dsc s)
    as (s' & -> & _ & _ & _ & _ & Hconf & _).
  cbn [snd]. now rewrite Hconf.
Qed.

Lemma record_feedback_confidence (c0 : Q)
    (cid hm : string) (fs : Q) (fb : string) (nt : option string) :
  preserves (on_self (confidence_between c0)) (record_feedback cid hm fs fb nt).
Proof.
  unfold record_feedback.
  apply preserves_if; [apply preserves_raise|].
  apply preserves_try; [| intro; apply preserves_raise].
  apply preserves_bind; [apply connect_on_self | intro].
  apply preserves_bind; [intros s H; exact H | intro].
  apply preserves_bind; [| intro; apply preserves_ret].
  unfold _try_adjust_weights.
  apply preserves_try; [| intro; apply preserves_ret].
  apply preserves_bind; [apply get_feedback_count_on_self | intro].
  apply preserves_bind; [intros s H; exact H | intro].
  apply preserves_if; [| apply preserves_ret].
  unfold _adjust_weights_based_on_feedback.
  apply preserves_try; [| intro; apply preserves_ret].
  apply preserves_bind; [apply get_recent_feedback_on_self | intro].
  apply preserves_if; [apply preserves_ret|].
  apply preserves_bind;
    [apply select_adjustment_confidence | intros [[ds dsc] trigger]].
  apply preserves_bind; [apply apply_weight_adjustments_confidence | intro].
  apply record_weight_adjustment_on_self.
Qed.

Lemma reachable_confidence (s : System) :
  reachable s -> confidence_between (5 # 10) (self s).
Proof.
  induction 1 as [s0 s Hinit | c s Hreach IH | s clock' outages' Hreach IH Hclock].
  - revert Hinit.
    unfold __init__, init_database, try_except, bind, connect, put_self, ret, raise.
    destruct (outages s0) as [| [] ?]; cbn; intros [= <-];
      split; literal.
  - destruct c as [cid hm fs fb nt | | limit | | |]; cbn [run_call].
    + exact (record_feedback_confidence _ cid hm fs fb nt s IH).
    + exact (get_weights_on_self _ s IH).
    + assert (F : preserves (on_self (confidence_between (5 # 10)))
                    (get_weight_history limit)) by frame.
      exact (F s IH).
    + assert (F : preserves (on_self (confidence_between (5 # 10)))
                    get_feedback_analytics)
        by (unfold get_feedback_analytics; frame).
      exact (F s IH).
    + destruct (reset_weights_defaults s) as (_ & _ & Hc).
      unfold confidence_between. rewrite Hc. split; literal.
    + assert (F : preserves (on_self (confidence_between (5 # 10)))
                    export_feedback_data) by frame.
      exact (F s IH).
  - exact IH.
Qed.

(** X10.  The confidence of a collector always lies between its initial
    value 0.5 and the cap 0.95, and [record_feedback] never lowers it:
    only [reset_weights] brings it back to 0.5. *)
Theorem confidence_bounded_and_rising (s : System)
    (candidate_id hiring_manager_id : string) (final_score : Q)
    (feedback : string) (notes : option string) :
  reachable s ->
  let s' := state_after
              (record_feedback candidate_id hiring_manager_id final_score
                 feedback notes) s in
  5 # 10 <= confidence (self s)
  /\ confidence (self s) <= 95 # 100
  /\ confidence (self s) <= confidence (self s')
  /\ confidence (self s') <= 95 # 100
  /\ confidence (self (state_after reset_weights s)) = 5 # 10.
Proof.
  intros Hreach s'.
  destruct (reachable_confidence s Hreach) as [Hlo Hhi].
  split; [exact Hlo|]. split; [exact Hhi|].
  destruct (record_feedback_confidence (confidence (self s)) candidate_id
              hiring_manager_id final_score feedback notes s) as [Hup Hcap].
  { split; [apply Qle_refl | exact Hhi]. }
  split; [exact Hup|]. split; [exact Hcap|].
  apply reset_weights_defaults.
Qed.

Lemma confidence_bounded_and_rising_witness :
  let s := repeat_call 5 (RecordFeedback "c1" "m1" 9 "Good Fit" None) fresh in
  let s' := state_after (record_feedback "c2" "m1" 9 "Good Fit" None) s in
  confidence (self s) == 6 # 10
  /\ confidence (self s) <= confidence (self s')
  /\ confidence (self s') <= 95 # 100.
Proof.
  intros s s'.
  destruct (confidence_bounded_and_rising s "c2" "m1" 9 "Good Fit" None)
    as (_ & _ & Hup & Hcap & _).
  - apply repeat_call_reachable, fresh_reachable.
  - split; [vm_compute; reflexivity|]. split; [exact Hup | exact Hcap].
Defined.

(** ** The adjustment threshold *)

Lemma call_keeps_threshold (n : Z) (c : call) (s : System) :
  threshold_is n (self s) -> threshold_is n (self (run_call c s)).
Proof.
  assert (Hpass : preserves (on_self (threshold_is n)) _try_adjust_weights).
  { unfold _try_adjust_weights, _adjust_weights_based_on_feedback. frame.
    unfold apply_weight_adjustments. frame. }
  intro H. destruct c as [cid hm fs fb nt | | limit | | |]; cbn [run_call].
  - assert (F : preserves (on_self (threshold_is n)) (record_feedback cid hm fs fb nt)).
    { unfold record_feedback. frame. apply Hpass. }
    exact (F s H).
  - exact (get_weights_on_self (threshold_is n) s H).
  - assert (F : preserves (on_self (threshold_is n)) (get_weight_history limit))
      by frame.
    exact (F s H).
  - assert (F : preserves (on_self (threshold_is n)) get_feedback_analytics)
      by (unfold get_feedback_analytics; frame).
    exact (F s H).
  - assert (F : preserves (on_self (threshold_is n)) reset_weights)
      by (unfold reset_weights; frame).
    exact (F s H).
  - assert (F : preserves (on_self (threshold_is n)) export_feedback_data) by frame.
    exact (F s H).
Qed.

Lemma reachable_threshold (s : System) :
  reachable s -> min_feedback_for_adjustment (self s) = 5%Z.
Proof.
  induction 1 as [s0 s Hinit | c s Hreach IH | s clock' outages' Hreach IH Hclock].
  - revert Hinit.
    unfold __init__, init_database, try_except, bind, connect, put_self, ret, raise.
    destruct (outages s0) as [| [] ?]; cbn; intros [= <-]; reflexivity.
  - exact (call_keeps_threshold _ c s IH).
  - exact IH.
Qed.

(** Below the threshold [_try_adjust_weights] only counts. *)
Lemma try_adjust_below_threshold (s : System) :
  (len (feedback_table s) < min_feedback_for_adjustment (self s))%Z ->
  _try_adjust_weights s = (Ok tt, after_connect s).
Proof.
  intro Hlt. unfold _try_adjust_weights, try_except.
  unfold bind at 1. rewrite get_feedback_count_value.
  unfold bind at 1. unfold get_self at 1. cbn [after_connect self].
  assert (E : ((if hd false (outages s) then 0 else len (feedback_table s))
               >=? min_feedback_for_adjustment (self s))%Z = false).
  { rewrite Z.geb_leb. apply Z.leb_gt.
    unfold len in *. destruct (hd false (outages s)); lia. }
  rewrite E. reflexivity.
Qed.

(** What [record_feedback] does with an accepted literal on a storage that
    takes the write. *)
Lemma record_feedback_writes (s : System) (cid hm : string) (fs : Q)
    (fb : string) (nt : option string) :
  accepted fb -> storage_up s ->
  let row := written_row s cid hm fs fb nt in
  record_feedback cid hm fs fb nt s
  = (Ok (str_Z (row_id row)), snd (_try_adjust_weights (after_insert s row))).
Proof.
  intros Hok Hup row. apply accepted_iff in Hok.
  unfold record_feedback. rewrite Hok. cbn [negb].
  unfold try_except. unfold bind at 1. rewrite (connect_up s Hup).
  unfold bind at 1. unfold insert_feedback at 1.
  cbn [self feedback_table weight_history_table clock outages after_connect].
  unfold bind at 1.
  subst row. unfold after_insert, written_row, current_timestamp.
  cbn [clock after_connect].
  match goal with
  | |- context [_try_adjust_weights ?s1] =>
      destruct (try_adjust_weights_returns s1) as [s2 ->]
  end.
  reflexivity.
Qed.

(** X11.  Below the adjustment threshold feedback is only stored: while
    the table holds fewer than 4 entries before the call, [record_feedback]
    changes neither the collector (weights and confidence) nor the weight
    history, whatever the feedback and whatever the storage does. *)
Theorem record_feedback_below_threshold (s : System)
    (candidate_id hiring_manager_id : string) (final_score : Q)
    (feedback : string) (notes : option string) :
  reachable s ->
  (len (feedback_table s) < 4)%Z ->
  let s' := state_after
              (record_feedback candidate_id hiring_manager_id final_score
                 feedback notes) s in
  self s' = self s
  /\ weight_history_table s' = weight_history_table s.
Proof.
  intros Hreach Hfew s'. subst s'.
  pose proof (reachable_threshold s Hreach) as Hmin.
  unfold state_after.
  destruct (existsb (String.eqb feedback) ["Good Fit"; "Not a Fit"]%string) eqn:Hok.
  - apply accepted_iff in Hok.
    destruct (hd false (outages s)) eqn:Hhd.
    + apply accepted_iff in Hok.
      unfold record_feedback. rewrite Hok. cbn [negb].
      unfold try_except, bind. rewrite (connect_down s Hhd).
      split; reflexivity.
    + rewrite (record_feedback_writes s _ _ _ _ _ Hok Hhd). cbn [snd].
      rewrite try_adjust_below_threshold.
      * split; reflexivity.
      * cbn [after_insert feedback_table self]. rewrite Hmin.
        unfold len in *. rewrite length_app. cbn [List.length]. lia.
  - unfold record_feedback. rewrite Hok. split; reflexivity.
Qed.

Lemma record_feedback_below_threshold_witness :
  let s := repeat_call 3 (RecordFeedback "c1" "m1" 9 "Not a Fit" None) fresh in
  let s' := state_after (record_feedback "c2" "m1" 9 "Not a Fit" None) s in
  self s' = self s /\ weight_history_table s' = [].
Proof.
  intros s s'.
  destruct (record_feedback_below_threshold s "c2" "m1" 9 "Not a Fit" None)
    as [Hself Hhist].
  - apply repeat_call_reachable, fresh_reachable.
  - reflexivity.
  - split; [exact Hself | exact Hhist].
Defined.

(** ** The tables are append-only *)

Lemma connect_on_history (I : list WeightHistoryRow -> Prop) :
  preserves (on_history I) connect.
Proof. intros s H. unfold connect. destruct (outages s) as [| [] ?]; exact H. Qed.

(** Settles [preserves] through every function of the collector, given a
    tactic for the steps that write. *)
Ltac frame_by writes :=
  repeat first
    [ frame_step
    | apply connect_on_self
    | apply connect_on_feedback
    | apply connect_on_history
    | writes
    | progress unfold record_feedback, _try_adjust_weights,
        _adjust_weights_based_on_feedback, apply_weight_adjustments,
        select_adjustment, reset_weights, get_feedback_analytics, get_weights,
        _get_feedback_count, _get_recent_feedback, _record_weight_adjustment,
        get_weight_history, export_feedback_data
    | match goal with
      | d : (Q * Q * string)%type |- _ => destruct d as [[? ?] ?]
      end
    | (let H := fresh "H" in intros ? H; exact H) ].

Lemma insert_feedback_on_feedback (I : list FeedbackRow -> Prop)
    (cid hm : string) (fs : Q) (fb : string) (nt : option string) :
  (forall t row, I t -> row_id row = next_rowid row_id t -> I (t ++ [row])) ->
  preserves (on_feedback I) (insert_feedback cid hm fs fb nt).
Proof. intros Hclosed s H. apply Hclosed; [exact H | reflexivity]. Qed.

Lemma insert_weight_history_on_history (I : list WeightHistoryRow -> Prop)
    (sw scw conf : Q) (trigger : string) (n : Z) :
  (forall t row, I t -> wh_id row = next_rowid wh_id t -> I (t ++ [row])) ->
  preserves (on_history I) (insert_weight_history sw scw conf trigger n).
Proof. intros Hclosed s H. apply Hclosed; [exact H | reflexivity]. Qed.

Lemma call_on_feedback (I : list FeedbackRow -> Prop) (c : call) (s : System) :
  (forall t row, I t -> row_id row = next_rowid row_id t -> I (t ++ [row])) ->
  I (feedback_table s) -> I (feedback_table (run_call c s)).
Proof.
  intros Hclosed H.
  destruct c as [cid hm fs fb nt | | limit | | |]; cbn [run_call].
  - assert (F : preserves (on_feedback I) (record_feedback cid hm fs fb nt))
      by (frame_by ltac:(apply insert_feedback_on_feedback; exact Hclosed)).
    exact (F s H).
  - assert (F : preserves (on_feedback I) get_weights) by (frame_by fail).
    exact (F s H).
  - assert (F : preserves (on_feedback I) (get_weight_history limit))
      by (frame_by fail).
    exact (F s H).
  - assert (F : preserves (on_feedback I) get_feedback_analytics)
      by (frame_by fail).
    exact (F s H).
  - assert (F : preserves (on_feedback I) reset_weights) by (frame_by fail).
    exact (F s H).
  - assert (F : preserves (on_feedback I) export_feedback_data) by (frame_by fail).
    exact (F s H).
Qed.

Lemma call_on_history (I : list WeightHistoryRow -> Prop) (c : call) (s : System) :
  (forall t row, I t -> wh_id row = next_rowid wh_id t -> I (t ++ [row])) ->
  I (weight_history_table s) -> I (weight_history_table (run_call c s)).
Proof.
  intros Hclosed H.
  destruct c as [cid hm fs fb nt | | limit | | |]; cbn [run_call].
  - assert (F : preserves (on_history I) (record_feedback cid hm fs fb nt))
      by (frame_by ltac:(apply insert_weight_history_on_history; exact Hclosed)).
    exact (F s H).
  - assert (F : preserves (on_history I) get_weights) by (frame_by fail).
    exact (F s H).
  - assert (F : preserves (on_history I) (get_weight_history limit))
      by (frame_by fail).
    exact (F s H).
  - assert (F : preserves (on_history I) get_feedback_analytics)
      by (frame_by fail).
    exact (F s H).
  - assert (F : preserves (on_history I) reset_weights)
      by (frame_by ltac:(apply insert_weight_history_on_history; exact Hclosed)).
    exact (F s H).
  - assert (F : preserves (on_history I) export_feedback_data) by (frame_by fail).
    exact (F s H).
Qed.

Lemma prefix_of_app {A : Type} (old t : list A) (x : A) :
  prefix_of old t -> prefix_of old (t ++ [x]).
Proof. intros [rest ->]. exists (rest ++ [x]). now rewrite app_assoc. Qed.

Lemma nodup_fresh_id {R : Type} (id : R -> Z) (t : list R) (row : R) :
  NoDup (map id t) -> id row = next_rowid id t -> NoDup (map id (t ++ [row])).
Proof.
  intros Hnd Hid. rewrite map_app. cbn [map].
  apply NoDup_app; [exact Hnd | repeat constructor; intros [] |].
  intros z Hz [<- | []].
  rewrite Hid in Hz. exact (next_rowid_fresh id t Hz).
Qed.

(** X12.  Both tables are append-only.  Every call leaves the rows a table
    had as the start of the table: no feedback entry and no history record
    is ever changed, reordered or removed.  Row ids stay distinct.  The
    calls that only read ([get_weights], [get_weight_history],
    [get_feedback_analytics], [export_feedback_data]) leave both tables and
    the collector as they were. *)
Theorem tables_append_only (c : call) (s : System) :
  prefix_of (feedback_table s) (feedback_table (run_call c s))
  /\ prefix_of (weight_history_table s) (weight_history_table (run_call c s))
  /\ (NoDup (map row_id (feedback_table s)) ->
      NoDup (map row_id (feedback_table (run_call c s))))
  /\ (NoDup (map wh_id (weight_history_table s)) ->
      NoDup (map wh_id (weight_history_table (run_call c s))))
  /\ (c = GetWeights \/ (exists limit, c = GetWeightHistory limit)
      \/ c = GetFeedbackAnalytics \/ c = ExportFeedbackData ->
      feedback_table (run_call c s) = feedback_table s
      /\ weight_history_table (run_call c s) = weight_history_table s
      /\ self (run_call c s) = self s).
Proof.
  split.
  { apply (call_on_feedback (prefix_of (feedback_table s))).
    - intros t row H _. now apply prefix_of_app.
    - exists []. now rewrite app_nil_r. }
  split.
  { apply (call_on_history (prefix_of (weight_history_table s))).
    - intros t row H _. now apply prefix_of_app.
    - exists []. now rewrite app_nil_r. }
  split.
  { apply (call_on_feedback (fun t => NoDup (map row_id t))).
    intros t row. apply nodup_fresh_id. }
  split.
  { apply (call_on_history (fun t => NoDup (map wh_id t))).
    intros t row. apply nodup_fresh_id. }
  intros Hread.
  destruct Hread as [-> | [[limit ->] | [-> | ->]]]; cbn [run_call].
  - assert (F1 : preserves (on_feedback (eq (feedback_table s))) get_weights)
      by (frame_by fail).
    assert (F2 : preserves (on_history (eq (weight_history_table s))) get_weights)
      by (frame_by fail).
    assert (F3 : preserves (on_self (eq (self s))) get_weights) by (frame_by fail).
    repeat split; symmetry; [apply F1 | apply F2 | apply F3]; reflexivity.
  - assert (F1 : preserves (on_feedback (eq (feedback_table s)))
                   (get_weight_history limit)) by (frame_by fail).
    assert (F2 : preserves (on_history (eq (weight_history_table s)))
                   (get_weight_history limit)) by (frame_by fail).
    assert (F3 : preserves (on_self (eq (self s))) (get_weight_history limit))
      by (frame_by fail).
    repeat split; symmetry; [apply F1 | apply F2 | apply F3]; reflexivity.
  - assert (F1 : preserves (on_feedback (eq (feedback_table s)))
                   get_feedback_analytics) by (frame_by fail).
    assert (F2 : preserves (on_history (eq (weight_history_table s)))
                   get_feedback_analytics) by (frame_by fail).
    assert (F3 : preserves (on_self (eq (self s))) get_feedback_analytics)
      by (frame_by fail).
    repeat split; symmetry; [apply F1 | apply F2 | apply F3]; reflexivity.
  - assert (F1 : preserves (on_feedback (eq (feedback_table s)))
                   export_feedback_data) by (frame_by fail).
    assert (F2 : preserves (on_history (eq (weight_history_table s)))
                   export_feedback_data) by (frame_by fail).
    assert (F3 : preserves (on_self (eq (self s))) export_feedback_data)
      by (frame_by fail).
    repeat split; symmetry; [apply F1 | apply F2 | apply F3]; reflexivity.
Qed.

(** ** Resetting the weights *)

(** X13.  [reset_weights] never raises and never touches the feedback
    table.  If the storage takes the write it appends exactly one history
    record: weights 0.6 and 0.4, confidence 0.5, the text "Manual reset to
    defaults" and the number of feedback entries (0 if the count query
    failed).  If the storage refuses the write the weights are reset all
    the same and no record is written. *)
Theorem reset_weights_logged (s : System) :
  let s' := state_after reset_weights s in
  value_of reset_weights s = Ok tt
  /\ feedback_table s' = feedback_table s
  /\ (storage_up (after_connect s) ->
      weight_history_table s' = weight_history_table s ++ [reset_record s])
  /\ (storage_down (after_connect s) ->
      weight_history_table s' = weight_history_table s
      /\ similarity_weight (self s') = 6 # 10
      /\ screening_weight (self s') = 4 # 10
      /\ confidence (self s') = 5 # 10).
Proof.
  destruct s as [c fb wh clk outs].
  unfold storage_up, storage_down, after_connect, reset_record, value_of,
    state_after.
  cbn [outages feedback_table weight_history_table clock].
  destruct outs as [| b1 [| b2 outs]]; try destruct b1; try destruct b2;
    cbn [hd tl]; (split; [reflexivity|]); (split; [reflexivity|]);
    split; intro H; try discriminate H; try reflexivity;
    repeat split; reflexivity.
Qed.

Lemma reset_weights_logged_witness :
  let s := repeat_call 5 (RecordFeedback "c1" "m1" 9 "Not a Fit" None) fresh in
  map wh_trigger_action (weight_history_table (state_after reset_weights s))
  = ["Reduce similarity weight (false positives detected)";
     "Manual reset to defaults"]%string
  /\ map wh_feedback_count (weight_history_table (state_after reset_weights s))
     = [5; 5]%Z.
Proof.
  intro s.
  destruct (reset_weights_logged s) as (_ & _ & Hup & _).
  rewrite Hup; [|reflexivity].
  split; vm_compute; reflexivity.
Defined.

(** ** Reading the tables back *)

Lemma record_feedback_table (s : System) (cid hm : string) (fs : Q)
    (fb : string) (nt : option string) :
  accepted fb -> storage_up s ->
  feedback_table (state_after (record_feedback cid hm fs fb nt) s)
  = feedback_table s ++ [written_row s cid hm fs fb nt].
Proof.
  intros Hok Hup. unfold state_after.
  rewrite (record_feedback_writes s cid hm fs fb nt Hok Hup). cbn [snd].
  exact (try_adjust_weights_on_feedback
           (fun t => t = feedback_table s ++ [written_row s cid hm fs fb nt])
           (after_insert s (written_row s cid hm fs fb nt)) eq_refl).
Qed.

Lemma export_feedback_data_value (s : System) :
  export_feedback_data s
  = (Ok (if hd false (outages s) then []
         else map feedback_dict (sort_desc feedback_recency (feedback_table s))),
     after_connect s).
Proof.
  unfold export_feedback_data, try_except, bind, connect, after_connect.
  destruct (outages s) as [| [] ?]; reflexivity.
Qed.

Lemma get_weight_history_value (limit : nat) (s : System) :
  get_weight_history limit s
  = (Ok (if hd false (outages s) then []
         else map weight_history_dict
                (firstn limit (sort_desc history_recency (weight_history_table s)))),
     after_connect s).
Proof.
  unfold get_weight_history, try_except, bind, connect, after_connect.
  destruct (outages s) as [| [] ?]; reflexivity.
Qed.

(** ** Labels and analytics *)

Lemma other_calls_keep_feedback (c : call) (s : System) :
  (forall cid hm fs fb nt, c <> RecordFeedback cid hm fs fb nt) ->
  feedback_table (run_call c s) = feedback_table s.
Proof.
  intro Hc. symmetry.
  destruct c as [cid hm fs fb nt | | limit | | |]; cbn [run_call].
  - exfalso. exact (Hc cid hm fs fb nt eq_refl).
  - assert (F : preserves (on_feedback (eq (feedback_table s))) get_weights)
      by (frame_by fail).
    now apply F.
  - assert (F : preserves (on_feedback (eq (feedback_table s)))
                  (get_weight_history limit)) by (frame_by fail).
    now apply F.
  - assert (F : preserves (on_feedback (eq (feedback_table s)))
                  get_feedback_analytics) by (frame_by fail).
    now apply F.
  - assert (F : preserves (on_feedback (eq (feedback_table s))) reset_weights)
      by (frame_by fail).
    now apply F.
  - assert (F : preserves (on_feedback (eq (feedback_table s)))
                  export_feedback_data) by (frame_by fail).
    now apply F.
Qed.

Lemma record_feedback_table_cases (s : System) (cid hm : string) (fs : Q)
    (fb : string) (nt : option string) :
  feedback_table (state_after (record_feedback cid hm fs fb nt) s)
  = if existsb (String.eqb fb) ["Good Fit"; "Not a Fit"]%string
       && negb (hd false (outages s))
    then feedback_table s ++ [written_row s cid hm fs fb nt]
    else feedback_table s.
Proof.
  destruct (existsb (String.eqb fb) ["Good Fit"; "Not a Fit"]%string) eqn:Hok.
  - destruct (hd false (outages s)) eqn:Hhd; cbn [negb andb].
    + unfold state_after, record_feedback. rewrite Hok. cbn [negb].
      unfold try_except, bind. now rewrite (connect_down s Hhd).
    + apply record_feedback_table; [now apply accepted_iff | exact Hhd].
  - unfold state_after, record_feedback. now rewrite Hok.
Qed.

(** X16.  [record_feedback] writes accepted literals only: if every row of
    the feedback table carries "Good Fit" or "Not a Fit", so does every
    row after any call.  A call of [record_feedback] adds at most one row,
    and adds it exactly when the literal is accepted and the storage takes
    the write. *)
Theorem labels_stay_accepted (c : call) (s : System) :
  labels_accepted s ->
  labels_accepted (run_call c s)
  /\ forall cid hm fs fb nt,
       c = RecordFeedback cid hm fs fb nt ->
       (accepted fb /\ storage_up s ->
        feedback_table (run_call c s)
        = feedback_table s ++ [written_row s cid hm fs fb nt])
       /\ (~ (accepted fb /\ storage_up s) ->
           feedback_table (run_call c s) = feedback_table s).
Proof.
  intro H. unfold labels_accepted in *. split.
  - destruct c as [cid hm fs fb nt | | limit | | |];
      try (rewrite other_calls_keep_feedback; [exact H | discriminate]).
    cbn [run_call]. rewrite record_feedback_table_cases.
    destruct (existsb (String.eqb fb) ["Good Fit"; "Not a Fit"]%string) eqn:Hok;
      cbn [andb]; [|exact H].
    destruct (negb (hd false (outages s))); [|exact H].
    apply Forall_app. split; [exact H|].
    constructor; [|constructor]. now apply accepted_iff.
  - intros cid hm fs fb nt ->. cbn [run_call].
    rewrite record_feedback_table_cases. unfold storage_up. split.
    + intros [Hok Hup]. apply accepted_iff in Hok. now rewrite Hok, Hup.
    + intro Hnot.
      destruct (existsb (String.eqb fb) ["Good Fit"; "Not a Fit"]%string) eqn:Hok;
        cbn [andb]; [|reflexivity].
      destruct (hd false (outages s)) eqn:Hhd; cbn [negb]; [reflexivity|].
      exfalso. apply Hnot. split; [now apply accepted_iff | reflexivity].
Qed.

Lemma labels_stay_accepted_witness :
  labels_accepted
    (run_call (RecordFeedback "c1" "m1" 9 "Maybe" None)
       (run_call (RecordFeedback "c1" "m1" 9 "Good Fit" None) fresh))
  /\ List.length
       (feedback_table
          (run_call (RecordFeedback "c1" "m1" 9 "Maybe" None)
             (run_call (RecordFeedback "c1" "m1" 9 "Good Fit" None) fresh)))
     = 1%nat.
Proof.
  split; [|reflexivity].
  apply labels_stay_accepted, labels_stay_accepted. constructor.
Defined.

Lemma insert_label_In (k x : string) (ks : list string) :
  In x (insert_label k ks) <-> x = k \/ In x ks.
Proof.
  induction ks as [| k' ks IH]; cbn [insert_label].
  - cbn. intuition.
  - destruct (String.compare k k') eqn:E.
    + apply String.compare_eq_iff in E. subst k'. cbn. intuition.
    + cbn. intuition.
    + cbn [In]. rewrite IH. intuition.
Qed.

Lemma group_labels_In (rows : list FeedbackRow) (label : string) :
  In label (group_labels rows)
  <-> exists r, In r rows /\ row_feedback r = label.
Proof.
  unfold group_labels.
  induction rows as [| r rows IH]; cbn [map fold_right].
  - split; [intros [] | intros (r & [] & _)].
  - rewrite insert_label_In, IH. split.
    + intros [-> | (r' & Hin & E)];
        [exists r; split; [now left | reflexivity]
        | exists r'; split; [now right | exact E]].
    + intros (r' & [<- | Hin] & E); [left; now symmetry | right; eauto].
Qed.

Lemma pairs_get_map (f : string -> Z) (ks : list string) (key : string) (d : Z) :
  pairs_get (map (fun k => (k, f k)) ks) key d
  = if existsb (String.eqb key) ks then f key else d.
Proof.
  revert d. induction ks as [| k ks IH]; intro d; cbn [map pairs_get existsb];
    [reflexivity|].
  rewrite IH, (String.eqb_sym key k).
  destruct (String.eqb k key) eqn:E; cbn [orb].
  - apply String.eqb_eq in E. subst k. now destruct (existsb _ ks).
  - reflexivity.
Qed.

Lemma count_of_label (rows : list FeedbackRow) (label : string) :
  pairs_get
    (map (fun k => (k, len (rows_labelled k rows))) (group_labels rows)) label 0%Z
  = len (rows_labelled label rows).
Proof.
  rewrite (pairs_get_map (fun k => len (rows_labelled k rows))).
  destruct (existsb (String.eqb label) (group_labels rows)) eqn:E; [reflexivity|].
  assert (Hnone : rows_labelled label rows = []).
  { unfold rows_labelled.
    destruct (filter _ rows) as [| r l] eqn:F; [reflexivity|]. exfalso.
    assert (Hr : In r (filter (fun r => String.eqb (row_feedback r) label) rows))
      by (rewrite F; now left).
    apply filter_In in Hr. destruct Hr as [Hin Hl]. apply String.eqb_eq in Hl.
    assert (Hk : In label (group_labels rows))
      by (apply group_labels_In; eauto).
    assert (Ex : existsb (String.eqb label) (group_labels rows) = true)
      by (apply existsb_exists; exists label; split;
          [exact Hk | apply String.eqb_refl]).
    congruence. }
  now rewrite Hnone.
Qed.

Lemma two_labels_count (rows : list FeedbackRow) :
  (len (rows_labelled "Good Fit" rows) + len (rows_labelled "Not a Fit" rows)
   <= len rows)%Z
  /\ (Forall (fun r => accepted (row_feedback r)) rows ->
      (len (rows_labelled "Good Fit" rows) + len (rows_labelled "Not a Fit" rows)
       = len rows)%Z).
Proof.
  unfold len, rows_labelled.
  induction rows as [| r rows [IHle IHeq]]; cbn [filter List.length].
  - split; [lia | intros _; lia].
  - destruct (String.eqb (row_feedback r) "Good Fit") eqn:G,
             (String.eqb (row_feedback r) "Not a Fit") eqn:N;
      cbn [List.length].
    + apply String.eqb_eq in G, N. rewrite G in N. discriminate.
    + split; [lia|]. intro H. inversion H; subst. specialize (IHeq H3). lia.
    + split; [lia|]. intro H. inversion H; subst. specialize (IHeq H3). lia.
    + split; [lia|]. intro H. inversion H as [| ? ? [Ha | Ha] _]; subst;
        apply String.eqb_eq in Ha; congruence.
Qed.

(** X17.  On a readable storage the analytics report counts the table as
    it is: [total_feedback] is the number of rows, [good_fit_count] and
    [not_fit_count] are the numbers of rows with each literal, their sum is
    at most the total and equal to it when every row carries an accepted
    literal, [good_fit_percentage] lies in [0,100] (0 on an empty table),
    and [score_statistics] has one entry per label present, with that
    label's row count. *)
Theorem analytics_counts (s : System) :
  storage_up s ->
  exists good_fit_count not_fit_count good_fit_percentage score_statistics
         current_weights,
    value_of get_feedback_analytics s
    = Ok (Report (len (feedback_table s)) good_fit_count not_fit_count
            good_fit_percentage score_statistics current_weights)
    /\ good_fit_count = labelled "Good Fit" s
    /\ not_fit_count = labelled "Not a Fit" s
    /\ (good_fit_count + not_fit_count <= len (feedback_table s))%Z
    /\ (labels_accepted s ->
        (good_fit_count + not_fit_count = len (feedback_table s))%Z)
    /\ 0 <= good_fit_percentage /\ good_fit_percentage <= 100
    /\ (feedback_table s = [] -> good_fit_percentage = 0)
    /\ map stat_feedback score_statistics = group_labels (feedback_table s)
    /\ Forall (fun st => stat_count st = labelled (stat_feedback st) s
                         /\ (1 <= stat_count st)%Z)
         score_statistics.
Proof.
  intro Hup.
  unfold value_of, get_feedback_analytics, try_except.
  unfold bind at 1. rewrite (connect_up s Hup).
  unfold bind at 1. unfold select_count_feedback at 1.
  unfold bind at 1. unfold select_feedback_counts at 1.
  unfold bind at 1. unfold select_score_stats at 1.
  unfold bind at 1. rewrite get_weights_value.
  cbn [fst snd ret after_connect feedback_table].
  fold (len (feedback_table s)).
  rewrite !count_of_label.
  destruct (two_labels_count (feedback_table s)) as [Hle Heq].
  do 5 eexists. split; [reflexivity|].
  split; [reflexivity|]. split; [reflexivity|].
  split; [exact Hle|]. split; [exact Heq|].
  set (good := len (rows_labelled "Good Fit" (feedback_table s))) in *.
  set (total := len (feedback_table s)) in *.
  assert (Hgood0 : (0 <= good)%Z) by (unfold good, len; lia).
  assert (Hgood : (good <= total)%Z)
    by (assert (0 <= len (rows_labelled "Not a Fit" (feedback_table s)))%Z
          by (unfold len; lia); lia).
  split; [| split; [| split; [| split]]].
  - destruct (total >? 0)%Z eqn:E; [|apply Qle_refl].
    apply py_round_nonneg.
    assert (Ht : 0 < inject_Z total)
      by (change 0 with (inject_Z 0); rewrite <- Zlt_Qlt; lia).
    assert (0 <= inject_Z good / inject_Z total).
    { apply Qle_shift_div_l; [exact Ht|]. ring_simplify.
      change 0 with (inject_Z 0). now rewrite <- Zle_Qle. }
    set (fraction := inject_Z good / inject_Z total) in *. clearbody fraction.
    lra.
  - destruct (total >? 0)%Z eqn:E; [|literal].
    assert (Ht : 0 < inject_Z total)
      by (change 0 with (inject_Z 0); rewrite <- Zlt_Qlt; lia).
    assert (Hf : inject_Z good / inject_Z total <= 1).
    { apply Qle_shift_div_r; [exact Ht|]. ring_simplify. now rewrite <- Zle_Qle. }
    apply Qle_trans with (py_round 100 1); [apply py_round_mono | literal].
    apply Qle_trans with (1 * 100); [|literal].
    apply Qmult_le_compat_r; [exact Hf | literal].
  - intro Hempty. unfold total. now rewrite Hempty.
  - rewrite !map_map. cbn [stat_feedback]. apply map_id.
  - apply Forall_forall. intros st Hst.
    apply in_map_iff in Hst. destruct Hst as ([[label avg] n] & <- & Hst).
    apply in_map_iff in Hst. destruct Hst as (k & [= <- <- <-] & Hk).
    cbn [stat_count stat_feedback]. split; [reflexivity|].
    apply group_labels_In in Hk. destruct Hk as (r & Hin & Hl).
    assert (Hr : In r (rows_labelled k (feedback_table s))).
    { unfold rows_labelled. apply filter_In. split; [exact Hin|].
      now apply String.eqb_eq. }
    unfold len. destruct (rows_labelled k (feedback_table s)); [destruct Hr|].
    cbn [List.length]. lia.
Qed.

Lemma analytics_counts_witness :
  let s := repeat_call 3 (RecordFeedback "c1" "m1" 9 "Good Fit" None)
             (run_call (RecordFeedback "c2" "m1" 4 "Not a Fit" None) fresh) in
  exists percentage statistics weights,
    value_of get_feedback_analytics s
    = Ok (Report 4 3 1 percentage statistics weights)
    /\ percentage == 75.
Proof.
  intro s.
  destruct (analytics_counts s)
    as (g & n & p & st & w & Hv & -> & -> & _); [reflexivity|].
  exists p, st, w. split; [exact Hv|].
  vm_compute in Hv. injection Hv as <- _ _. literal.
Defined.

(** ** The record a pass leaves in the history *)

Lemma record_weight_adjustment_value (trigger_action : string) (n : Z) (s : System) :
  _record_weight_adjustment trigger_action n s
  = (Ok tt,
     if hd false (outages s) then after_connect s
     else {| self := self s;
             feedback_table := feedback_table s;
             weight_history_table :=
               weight_history_table s
               ++ [history_record (weight_history_table s) (self s)
                     trigger_action n (clock s / 1000000)];
             clock := clock s;
             outages := tl (outages s) |}).
Proof.
  unfold _record_weight_adjustment, try_except, bind, connect, after_connect.
  destruct (outages s) as [| [] ?]; reflexivity.
Qed.

Lemma get_recent_feedback_down (limit : nat) (s : System) :
  storage_down s -> _get_recent_feedback limit s = (Ok [], after_connect s).
Proof.
  intro Hdown. unfold _get_recent_feedback, try_except.
  unfold bind at 1. rewrite (connect_down s Hdown). reflexivity.
Qed.

(** The history after a pass that has data. *)
Lemma pass_history (s : System) :
  storage_up s -> window s <> [] ->
  let s' := state_after _adjust_weights_based_on_feedback s in
  let r := first_rule (good_fits_of (window s)) (not_fits_of (window s)) in
  (storage_up (after_connect s) ->
   weight_history_table s'
   = weight_history_table s
     ++ [history_record (weight_history_table s) (self s')
           (rule_description r) (len (window s)) (clock s / 1000000)])
  /\ (storage_down (after_connect s) ->
      weight_history_table s' = weight_history_table s).
Proof.
  intros Hup Hdata s' r. subst s'.
  rewrite (adjust_weights_applies_first_rule s Hup Hdata). fold r.
  set (n := len (window s)). set (s0 := after_connect s).
  set (ds := fst (rule_deltas (learning_rate (self s0)) r)).
  set (dsc := snd (rule_deltas (learning_rate (self s0)) r)).
  assert (H1 : exists s1,
             state_after (apply_rule r n) s0
             = state_after
                 (apply_weight_adjustments ds dsc ;;
                  _record_weight_adjustment (rule_description r) n) s1
             /\ weight_history_table s1 = weight_history_table s0
             /\ clock s1 = clock s0 /\ outages s1 = outages s0).
  { unfold state_after, apply_rule, ds, dsc.
    destruct r as [[] |]; eexists; repeat split. }
  destruct H1 as (s1 & E1 & Hwh & Hclk & Houts).
  destruct (apply_weight_adjustments_value ds dsc s1)
    as (s2 & Hrun & _ & Hwh2 & Hclk2 & Houts2 & _).
  rewrite E1. unfold state_after, bind. rewrite Hrun.
  rewrite record_weight_adjustment_value.
  rewrite Houts2, Houts. unfold storage_up, storage_down.
  destruct (hd false (outages s0));
    cbn [snd weight_history_table self after_connect];
    rewrite ?Hwh2, ?Hwh, ?Hclk2, ?Hclk;
    (split; intro H); try discriminate H; reflexivity.
Qed.

(** ** The feedback endpoints *)

(** A call whose handler returns always returns. *)
Lemma reset_weights_returns (s : System) :
  exists s1, reset_weights s = (Ok tt, s1).
Proof.
  unfold reset_weights.
  unfold bind at 1. unfold set_similarity_weight at 1.
  unfold bind at 1. unfold get_self at 1. unfold put_self at 1.
  unfold bind at 1. unfold set_screening_weight at 1.
  unfold bind at 1. unfold get_self at 1. unfold put_self at 1.
  unfold bind at 1. unfold set_confidence at 1.
  unfold bind at 1. unfold get_self at 1. unfold put_self at 1.
  cbn [self feedback_table weight_history_table clock outages
       similarity_weight screening_weight confidence learning_rate
       min_feedback_for_adjustment fst snd].
  unfold bind at 1. rewrite get_feedback_count_value.
  rewrite record_weight_adjustment_value. eexists. reflexivity.
Qed.

Lemma get_feedback_analytics_returns (s : System) :
  exists payload s1,
    get_feedback_analytics s = (Ok payload, s1)
    /\ self s1 = self s
    /\ feedback_table s1 = feedback_table s
    /\ weight_history_table s1 = weight_history_table s
    /\ (storage_down s -> payload = Degraded 0 "unable to open database file")
    /\ (storage_up s ->
        exists good_fit_count not_fit_count good_fit_percentage
               score_statistics current_weights,
          payload = Report (len (feedback_table s)) good_fit_count
                      not_fit_count good_fit_percentage score_statistics
                      current_weights).
Proof.
  destruct (hd false (outages s)) eqn:E.
  - exists (Degraded 0 "unable to open database file"), (after_connect s).
    split.
    { unfold get_feedback_analytics, try_except, bind.
      rewrite (connect_down s E). reflexivity. }
    repeat split; try reflexivity.
    intro Hup. unfold storage_up in Hup. congruence.
  - assert (Hrun : exists g n p st w,
               get_feedback_analytics s
               = (Ok (Report (len (feedback_table s)) g n p st w),
                  after_connect (after_connect s))).
    { unfold get_feedback_analytics, try_except.
      unfold bind at 1. rewrite (connect_up s E).
      unfold bind at 1. unfold select_count_feedback at 1.
      unfold bind at 1. unfold select_feedback_counts at 1.
      unfold bind at 1. unfold select_score_stats at 1.
      unfold bind at 1. rewrite get_weights_value.
      cbn. do 5 eexists. reflexivity. }
    destruct Hrun as (g & n & p & st & w & Hrun).
    exists (Report (len (feedback_table s)) g n p st w),
      (after_connect (after_connect s)).
    split; [exact Hrun|]. repeat split; try reflexivity.
    + intro Hdown. unfold storage_down in Hdown. congruence.
    + intros _. exists g, n, p, st, w. reflexivity.
Qed.

(** X20.  [POST /api/feedback/record] answers a feedback that is neither
    "Good Fit" nor "Not a Fit" with [HTTPException] 400 carrying the
    validation text, and then nothing has changed.  An unreachable storage
    is answered with status 400 as well, with the storage error text, and
    nothing is written.  Otherwise the answer is "success", the row is in
    the table, and [current_weights] are the collector's weights after the
    adjustment pass, rounded to 3 places; its [total_feedback] counts the
    new row, or is 0 if the count query failed. *)
Theorem api_record_feedback_answers (request : Api.FeedbackRequest) (s : System) :
  let fb := Api.req_feedback request in
  let s' := state_after (Api.record_feedback request) s in
  (~ accepted fb ->
   Api.record_feedback request s
   = (Ok (Api.HTTPException 400 "Feedback must be 'Good Fit' or 'Not a Fit'"), s))
  /\ (accepted fb -> storage_down s ->
      value_of (Api.record_feedback request) s
      = Ok (Api.HTTPException 400
              "Failed to record feedback: unable to open database file")
      /\ feedback_table s' = feedback_table s
      /\ weight_history_table s' = weight_history_table s
      /\ self s' = self s)
  /\ (accepted fb -> storage_up s ->
      exists weights,
        value_of (Api.record_feedback request) s
        = Ok (Api.Response {| Api.w_status := "success";
                              Api.w_message := "Feedback recorded";
                              Api.w_weights := weights |})
        /\ feedback_table s'
           = feedback_table s
             ++ [written_row s (Api.req_candidate_id request)
                   (Api.req_hiring_manager_id request)
                   (Api.req_final_score request) fb (Api.req_notes request)]
        /\ w_similarity_weight weights = py_round (similarity_weight (self s')) 3
        /\ w_screening_weight weights = py_round (screening_weight (self s')) 3
        /\ w_confidence weights = py_round (confidence (self s')) 3
        /\ (w_total_feedback weights = (len (feedback_table s) + 1)%Z
            \/ w_total_feedback weights = 0%Z)).
Proof.
  intros fb s'. subst s'.
  destruct request as [cid hm fs fb0 nt]. cbn [Api.req_feedback] in fb.
  subst fb. unfold Api.record_feedback, value_of, state_after.
  cbn [Api.req_candidate_id Api.req_hiring_manager_id Api.req_final_score
       Api.req_feedback Api.req_notes].
  split; [| split].
  - intro Hbad. unfold try_except, bind, record_feedback.
    destruct (existsb _ _) eqn:E; [|reflexivity].
    apply accepted_iff in E. contradiction.
  - intros Hok Hdown. apply accepted_iff in Hok.
    unfold try_except, bind, record_feedback. rewrite Hok. cbn [negb].
    unfold try_except, bind. rewrite (connect_down s Hdown).
    repeat split.
  - intros Hok Hup.
    pose proof (record_feedback_table s cid hm fs fb0 nt Hok Hup) as Htable.
    unfold state_after in Htable.
    unfold try_except, bind.
    rewrite (record_feedback_writes s cid hm fs fb0 nt Hok Hup) in Htable |- *.
    cbn [snd] in Htable.
    set (s1 := snd (_try_adjust_weights
                      (after_insert s (written_row s cid hm fs fb0 nt)))) in *.
    rewrite (get_weights_value s1). cbn [fst snd].
    eexists. split; [reflexivity|].
    cbn [after_connect feedback_table self w_similarity_weight
         w_screening_weight w_confidence w_total_feedback].
    split; [exact Htable|]. do 3 (split; [reflexivity|]).
    rewrite Htable. destruct (hd false (outages s1)); [right; reflexivity|].
    left. unfold len. rewrite length_app. cbn [List.length]. lia.
Qed.

Lemma api_record_feedback_answers_witness :
  let request := {| Api.req_candidate_id := "c1";
                    Api.req_hiring_manager_id := "m1";
                    Api.req_final_score := 9;
                    Api.req_feedback := "Maybe";
                    Api.req_notes := None |} in
  Api.record_feedback request fresh
  = (Ok (Api.HTTPException 400 "Feedback must be 'Good Fit' or 'Not a Fit'"),
     fresh).
Proof.
  intro request.
  destruct (api_record_feedback_answers request fresh) as (Hbad & _).
  apply Hbad. intros [H | H]; discriminate H.
Defined.

(** X21.  Once start-up has constructed the collector,
    [GET /api/feedback/analytics] answers with status "success" whatever
    the storage does.  When the storage cannot be read, the failure is
    inside the answer, as the analytics payload with [total_feedback] 0
    and the error text, while [weights] still carries the collector's
    weights, rounded to 3 places.  The call changes neither the collector
    nor the tables. *)
Theorem api_get_analytics_answers (s : System) :
  let s' := state_after Api.get_analytics s in
  exists analytics weights,
    value_of Api.get_analytics s
    = Ok (Api.AnalyticsSuccess "success" analytics weights)
    /\ (storage_down s ->
        analytics = Degraded 0 "unable to open database file")
    /\ (storage_up s ->
        exists good_fit_count not_fit_count good_fit_percentage
               score_statistics current_weights,
          analytics = Report (len (feedback_table s)) good_fit_count
                        not_fit_count good_fit_percentage score_statistics
                        current_weights)
    /\ w_similarity_weight weights = py_round (similarity_weight (self s)) 3
    /\ w_screening_weight weights = py_round (screening_weight (self s)) 3
    /\ w_confidence weights = py_round (confidence (self s)) 3
    /\ self s' = self s
    /\ feedback_table s' = feedback_table s
    /\ weight_history_table s' = weight_history_table s.
Proof.
  intro s'. subst s'.
  destruct (get_feedback_analytics_returns s)
    as (payload & s1 & Hrun & Hself & Hfb & Hwh & Hdown & Hup).
  unfold value_of, state_after, Api.get_analytics, try_except, bind.
  rewrite Hrun, (get_weights_value s1). cbn [fst snd].
  do 2 eexists. split; [reflexivity|].
  cbn [after_connect feedback_table weight_history_table self
       w_similarity_weight w_screening_weight w_confidence].
  rewrite Hself. repeat split; assumption.
Qed.

(** X22.  Once start-up has constructed the collector,
    [POST /api/feedback/reset-weights] answers "success" whatever the
    storage does, and the weights it reports are 0.6, 0.4 and confidence
    0.5; the feedback table is left alone. *)
Theorem api_reset_weights_answers (s : System) :
  let s' := state_after Api.reset_weights s in
  exists weights,
    value_of Api.reset_weights s
    = Ok (Api.Response {| Api.w_status := "success";
                          Api.w_message := "Weights reset";
                          Api.w_weights := weights |})
    /\ w_similarity_weight weights == 6 # 10
    /\ w_screening_weight weights == 4 # 10
    /\ w_confidence weights == 5 # 10
    /\ at_defaults (self s')
    /\ feedback_table s' = feedback_table s.
Proof.
  intro s'. subst s'.
  destruct (reset_weights_returns s) as [s1 Hrun].
  pose proof (reset_weights_defaults s) as (Hsw & Hscw & Hconf).
  assert (Hfb : feedback_table (state_after reset_weights s) = feedback_table s).
  { assert (F : preserves (on_feedback (fun t => t = feedback_table s))
                  reset_weights) by (frame_by fail).
    exact (F s eq_refl). }
  unfold state_after in Hsw, Hscw, Hconf, Hfb. rewrite Hrun in *.
  cbn [snd] in Hsw, Hscw, Hconf, Hfb.
  unfold value_of, state_after, Api.reset_weights, try_except, bind.
  rewrite Hrun, (get_weights_value s1). cbn [fst snd].
  eexists. split; [reflexivity|].
  cbn [after_connect feedback_table self w_similarity_weight
       w_screening_weight w_confidence].
  rewrite Hsw, Hscw, Hconf.
  repeat split; try assumption; literal.
Qed.

(** ** Constructing a collector on an existing storage *)

(** X24.  The weights live in memory only.  Constructing a collector on a
    storage that already holds feedback and history keeps both tables as
    they are, writes no history record, and starts from the defaults 0.6,
    0.4 and confidence 0.5 whatever the history says: [get_weights] then
    reports the defaults together with the stored feedback count.  If the
    storage cannot be opened the constructor raises [DatabaseError] with
    both prefixes in its text. *)
Theorem init_forgets_learned_weights (s0 : System) :
  let s := state_after __init__ s0 in
  (storage_up s0 ->
   value_of __init__ s0 = Ok tt
   /\ at_defaults (self s)
   /\ learning_rate (self s) = 5 # 100
   /\ min_feedback_for_adjustment (self s) = 5%Z
   /\ feedback_table s = feedback_table s0
   /\ weight_history_table s = weight_history_table s0
   /\ (storage_up s ->
       exists weights,
         value_of get_weights s = Ok weights
         /\ w_similarity_weight weights == 6 # 10
         /\ w_screening_weight weights == 4 # 10
         /\ w_confidence weights == 5 # 10
         /\ w_total_feedback weights = len (feedback_table s0)))
  /\ (storage_down s0 ->
      value_of __init__ s0
      = Raise (DatabaseError
                 "FeedbackCollector initialization failed: Database initialization failed: unable to open database file")
      /\ self s = self s0
      /\ feedback_table s = feedback_table s0
      /\ weight_history_table s = weight_history_table s0).
Proof.
  intro s. subst s. split.
  - intro Hup.
    assert (Hrun : __init__ s0
                   = (Ok tt,
                      {| self := {| similarity_weight := 6 # 10;
                                    screening_weight := 4 # 10;
                                    confidence := 5 # 10;
                                    learning_rate := 5 # 100;
                                    min_feedback_for_adjustment := 5 |};
                         feedback_table := feedback_table s0;
                         weight_history_table := weight_history_table s0;
                         clock := clock s0;
                         outages := tl (outages s0) |})).
    { unfold __init__, init_database, try_except, bind.
      rewrite (connect_up s0 Hup). reflexivity. }
    unfold value_of, state_after. rewrite Hrun. cbn [fst snd].
    split; [reflexivity|]. split; [repeat split|].
    do 4 (split; [reflexivity|]).
    intro Hup'. rewrite get_weights_value. cbn [fst].
    eexists. split; [reflexivity|].
    cbn [w_similarity_weight w_screening_weight w_confidence w_total_feedback
         self similarity_weight screening_weight confidence feedback_table].
    unfold storage_up in Hup'. rewrite Hup'.
    repeat split; literal.
  - intro Hdown. unfold value_of, state_after.
    unfold __init__, init_database, try_except, bind.
    rewrite (connect_down s0 Hdown). repeat split.
Qed.

(** Five rejections at 9.0 fire the first rule once; after a restart the
    collector is back at 0.6 while the latest history record holds 0.55. *)
Lemma init_forgets_learned_weights_witness :
  let s0 := repeat_call 5 (RecordFeedback "c1" "m1" 9 "Not a Fit" None) fresh in
  let s := state_after __init__ s0 in
  similarity_weight (self s0) == 55 # 100
  /\ similarity_weight (self s) = 6 # 10
  /\ map wh_similarity_weight (weight_history_table s)
     = map wh_similarity_weight (weight_history_table s0)
  /\ weight_history_table s <> [].
Proof.
  intros s0 s.
  destruct (init_forgets_learned_weights s0) as [Hup _].
  destruct Hup as (_ & (Hsw & _ & _) & _ & _ & _ & Hwh & _); [reflexivity|].
  split; [vm_compute; reflexivity|]. split; [exact Hsw|].
  split; [f_equal; exact Hwh|]. vm_compute. discriminate.
Defined.

(** ** Feedback at or above the threshold *)

(** At or above the threshold, on a readable storage,
    [_try_adjust_weights] runs the pass. *)
Lemma try_adjust_at_threshold (s : System) :
  storage_up s ->
  (min_feedback_for_adjustment (self s) <= len (feedback_table s))%Z ->
  snd (_try_adjust_weights s)
  = state_after _adjust_weights_based_on_feedback (after_connect s).
Proof.
  intros Hup Hmany. unfold _try_adjust_weights, try_except.
  unfold bind at 1. rewrite get_feedback_count_value.
  unfold bind at 1. unfold get_self at 1. cbn [after_connect self].
  unfold storage_up in Hup. rewrite Hup.
  assert (E : (len (feedback_table s) >=? min_feedback_for_adjustment (self s))%Z
              = true) by (rewrite Z.geb_leb; now apply Z.leb_le).
  rewrite E. unfold state_after.
  match goal with
  | |- context [_adjust_weights_based_on_feedback ?s1] =>
      destruct (_adjust_weights_based_on_feedback s1) as [[[] | e] s2]
  end; reflexivity.
Qed.

Lemma window_length (s : System) :
  len (window s) = Z.min 10 (len (feedback_table s)).
Proof.
  unfold window, by_recency, len.
  rewrite length_map, length_firstn, sort_desc_length. lia.
Qed.

(** X25.  From the fifth feedback on, every [record_feedback] that the
    storage serves runs a pass and logs it: exactly one history record is
    appended, holding the weights and the confidence the collector has
    after the call.  Its [feedback_count] is the size of the window the
    pass looked at, at most 10, not the number of rows in the feedback
    table. *)
Theorem record_feedback_logs_window (s : System)
    (candidate_id hiring_manager_id : string) (final_score : Q)
    (feedback : string) (notes : option string) :
  reachable s -> accepted feedback -> outages s = [] ->
  (4 <= len (feedback_table s))%Z ->
  let s' := state_after
              (record_feedback candidate_id hiring_manager_id final_score
                 feedback notes) s in
  exists record,
    weight_history_table s' = weight_history_table s ++ [record]
    /\ wh_feedback_count record = Z.min 10 (len (feedback_table s) + 1)
    /\ wh_similarity_weight record = similarity_weight (self s')
    /\ wh_screening_weight record = screening_weight (self s')
    /\ wh_confidence record = confidence (self s')
    /\ ~ In (wh_id record) (map wh_id (weight_history_table s)).
Proof.
  intros Hreach Hok Houts Hmany s'. subst s'.
  assert (Hup : storage_up s) by (unfold storage_up; now rewrite Houts).
  pose proof (reachable_threshold s Hreach) as Hmin.
  unfold state_after.
  rewrite (record_feedback_writes s _ _ _ _ _ Hok Hup). cbn [snd].
  set (row := written_row s candidate_id hiring_manager_id final_score
                feedback notes).
  set (s1 := after_insert s row).
  assert (Hlen : len (feedback_table s1) = (len (feedback_table s) + 1)%Z).
  { unfold s1, len. cbn [after_insert feedback_table].
    rewrite length_app. cbn [List.length]. lia. }
  assert (Houts1 : outages s1 = []) by (unfold s1; cbn; now rewrite Houts).
  rewrite try_adjust_at_threshold;
    [| unfold storage_up; now rewrite Houts1
     | rewrite Hlen; unfold s1; cbn [after_insert self]; rewrite Hmin; lia].
  set (s2 := after_connect s1).
  assert (Hw : len (window s2) = Z.min 10 (len (feedback_table s) + 1)).
  { rewrite window_length. unfold s2. cbn [after_connect feedback_table].
    now rewrite Hlen. }
  assert (Hdata : window s2 <> []).
  { intro E. rewrite E in Hw. cbn in Hw. lia. }
  assert (Hup2 : storage_up s2)
    by (unfold storage_up, s2; cbn [after_connect outages]; now rewrite Houts1).
  destruct (pass_history s2 Hup2 Hdata) as [Hlog _].
  rewrite Hlog;
    [| unfold storage_up, s2; cbn [after_connect outages]; now rewrite Houts1].
  eexists. split; [reflexivity|].
  cbn [history_record wh_feedback_count wh_similarity_weight
       wh_screening_weight wh_confidence wh_id].
  split; [exact Hw|]. do 3 (split; [reflexivity|]).
  apply next_rowid_fresh.
Qed.

(** The twelfth feedback: the table holds 12 rows, the record says 10. *)
Lemma record_feedback_logs_window_witness :
  let s := repeat_call 11 (RecordFeedback "c1" "m1" 9 "Not a Fit" None) fresh in
  let s' := state_after (record_feedback "c2" "m1" 9 "Not a Fit" None) s in
  exists record,
    weight_history_table s' = weight_history_table s ++ [record]
    /\ wh_feedback_count record = 10%Z
    /\ len (feedback_table s') = 12%Z.
Proof.
  intros s s'.
  destruct (record_feedback_logs_window s "c2" "m1" 9 "Not a Fit" None)
    as (record & Hlog & Hcount & _).
  - apply repeat_call_reachable, fresh_reachable.
  - right. reflexivity.
  - reflexivity.
  - vm_compute. discriminate.
  - exists record. split; [exact Hlog|]. split; [exact Hcount|].
    vm_compute. reflexivity.
Defined.

(** ** Rounding to a binary format *)

Lemma round_half_even_opp (x : Q) :
  round_half_even (- x) = (- round_half_even x)%Z.
Proof.
  destruct (round_half_even_cases x) as (Hx1 & Hx2 & Hx).
  destruct (round_half_even_cases (- x)) as (Hy1 & Hy2 & Hy).
  set (f := Qfloor x) in *. set (g := Qfloor (- x)) in *.
  assert (Hfg : (g = - f \/ g = - f - 1)%Z).
  { assert (inject_Z g < inject_Z (- f + 1)).
    { rewrite inject_Z_plus, inject_Z_opp. change (inject_Z 1) with 1. lra. }
    assert (inject_Z (- f - 2) < inject_Z g).
    { unfold Z.sub. rewrite inject_Z_plus, inject_Z_opp.
      change (inject_Z (- (2))) with (-2). lra. }
    rewrite <- Zlt_Qlt in *. lia. }
  destruct Hfg as [E | E]; rewrite E in *; clear E;
    rewrite ?inject_Z_plus, ?inject_Z_opp in *;
    unfold Z.sub in *; rewrite ?inject_Z_plus, ?inject_Z_opp in *;
    change (inject_Z (- (1))) with (-1) in *; change (inject_Z 1) with 1 in *.
  - (* x is the integer f *)
    assert (Hx0 : x == inject_Z f) by lra.
    destruct Hx as [[-> _] | [[_ H] | [H _]]]; try lra.
    destruct Hy as [[-> _] | [[_ H] | [H _]]]; try lra. reflexivity.
  - destruct Hx as [[-> Hx] | [[-> Hx] | [Hx ->]]];
      destruct Hy as [[-> Hy] | [[-> Hy] | [Hy ->]]]; try lra; try lia.
    assert (Ev : Z.even (- f + Z.opp 1) = negb (Z.even f)).
    { replace (- f + Z.opp 1)%Z with (- (f + 1))%Z by lia.
      rewrite Z.even_opp, Z.even_add. now destruct (Z.even f). }
    rewrite Ev. destruct (Z.even f); cbn [negb]; lia.
Qed.

Lemma pow2_pos (e : Z) : 0 < Float.pow2 e.
Proof. apply Qpower_0_lt. reflexivity. Qed.

Lemma pow2_add (a b : Z) : Float.pow2 (a + b) == Float.pow2 a * Float.pow2 b.
Proof. apply Qpower_plus. discriminate. Qed.

Lemma pow2_le (a b : Z) : (a <= b)%Z -> Float.pow2 a <= Float.pow2 b.
Proof. intro H. apply Qpower_le_compat_l; [exact H | discriminate]. Qed.

Lemma pow2_lt_inv (a b : Z) : Float.pow2 a < Float.pow2 b -> (a < b)%Z.
Proof. intro H. apply (Qpower_lt_compat_l_inv 2); [exact H | reflexivity]. Qed.

Lemma pow2_Z (n : Z) : (0 <= n)%Z -> inject_Z (2 ^ n) == Float.pow2 n.
Proof. intro H. apply (Zpower_Qpower 2 n H). Qed.

(** The exponent [ilog2] finds is the binary exponent. *)
Lemma ilog2_spec (x : Q) :
  ~ x == 0 ->
  Float.pow2 (Float.ilog2 x) <= Qabs x
  /\ Qabs x < Float.pow2 (Float.ilog2 x + 1).
Proof.
  intro Hx. destruct x as [n d]. unfold Float.ilog2. cbn [Qnum Qden].
  set (ln := Z.log2 (Z.abs n)). set (ld := Z.log2 (Z.pos d)).
  assert (Hn : (0 < Z.abs n)%Z).
  { assert (n <> 0%Z) by (intro E; apply Hx; subst n; reflexivity). lia. }
  destruct (Z.log2_spec (Z.abs n) Hn) as [Hn1 Hn2]. fold ln in Hn1, Hn2.
  destruct (Z.log2_spec (Z.pos d) eq_refl) as [Hd1 Hd2]. fold ld in Hd1, Hd2.
  assert (Hln : (0 <= ln)%Z) by apply Z.log2_nonneg.
  assert (Hld : (0 <= ld)%Z) by apply Z.log2_nonneg.
  assert (Qn1 : Float.pow2 ln <= inject_Z (Z.abs n))
    by (rewrite <- pow2_Z by exact Hln; now rewrite <- Zle_Qle).
  assert (Qn2 : inject_Z (Z.abs n) < Float.pow2 (ln + 1))
    by (rewrite <- pow2_Z by lia; rewrite <- Zlt_Qlt;
        now rewrite <- Z.add_1_r in Hn2).
  assert (Qd1 : Float.pow2 ld <= inject_Z (Z.pos d))
    by (rewrite <- pow2_Z by exact Hld; now rewrite <- Zle_Qle).
  assert (Qd2 : inject_Z (Z.pos d) < Float.pow2 (ld + 1))
    by (rewrite <- pow2_Z by lia; rewrite <- Zlt_Qlt;
        now rewrite <- Z.add_1_r in Hd2).
  assert (Habs : Qabs (n # d) == inject_Z (Z.abs n) / inject_Z (Z.pos d)).
  { unfold Qabs. cbn [Qnum Qden]. rewrite (Qmake_Qdiv (Z.abs n) d). reflexivity. }
  assert (Hd : 0 < inject_Z (Z.pos d)) by (rewrite <- (Zlt_Qlt 0); lia).
  pose proof (pow2_pos (ln - ld)) as Hk.
  pose proof (pow2_pos (ln - ld - 1)) as Hk1.
  pose proof (pow2_pos ld) as Hpd.
  destruct (Qle_bool (Float.pow2 (ln - ld)) (Qabs (n # d))) eqn:E.
  - apply Qle_bool_iff in E. split; [exact E|].
    rewrite Habs. apply Qlt_shift_div_r; [exact Hd|].
    apply Qlt_le_trans with (Float.pow2 (ln + 1)); [exact Qn2|].
    replace (ln + 1)%Z with ((ln - ld + 1) + ld)%Z by lia.
    rewrite pow2_add. apply Qmult_le_l; [apply pow2_pos | exact Qd1].
  - assert (E' : Qabs (n # d) < Float.pow2 (ln - ld)).
    { apply Qnot_le_lt. intro H. apply Qle_bool_iff in H. congruence. }
    split.
    + rewrite Habs. apply Qle_shift_div_l; [exact Hd|].
      apply Qle_trans with (Float.pow2 ln); [|exact Qn1].
      replace ln with ((ln - ld - 1) + (ld + 1))%Z at 2 by lia.
      rewrite pow2_add. apply Qmult_le_l; [apply pow2_pos | lra].
    + replace (ln - ld - 1 + 1)%Z with (ln - ld)%Z by lia. exact E'.
Qed.

Lemma ilog2_mono (x y : Q) :
  0 < x -> x <= y -> (Float.ilog2 x <= Float.ilog2 y)%Z.
Proof.
  intros Hx Hxy.
  destruct (ilog2_spec x) as [Hx1 _]; [lra|].
  destruct (ilog2_spec y) as [_ Hy2]; [lra|].
  rewrite Qabs_pos in Hx1 by lra. rewrite Qabs_pos in Hy2 by lra.
  assert (H : Float.pow2 (Float.ilog2 x) < Float.pow2 (Float.ilog2 y + 1)) by lra.
  apply pow2_lt_inv in H. lia.
Qed.

Lemma ilog2_opp (x : Q) : Float.ilog2 (- x) = Float.ilog2 x.
Proof.
  unfold Float.ilog2. destruct x as [n d].
  assert (E : Qabs (- (n # d)) = Qabs (n # d))
    by (unfold Qabs, Qopp; cbn [Qnum Qden]; now rewrite Z.abs_opp).
  rewrite E. cbn [Qopp Qnum Qden]. now rewrite Z.abs_opp.
Qed.

Lemma round_at_mono (e : Z) (x y : Q) :
  x <= y -> Float.round_at e x <= Float.round_at e y.
Proof.
  intro H. unfold Float.round_at. pose proof (pow2_pos e) as He.
  apply Qmult_le_compat_r; [|lra].
  rewrite <- Zle_Qle. apply round_half_even_mono.
  apply Qmult_le_compat_r; [exact H|]. apply Qlt_le_weak, Qinv_lt_0_compat, He.
Qed.

(** A multiple of a power of two at or above the last place is kept. *)
Lemma round_at_fix (e e' m : Z) :
  (e <= e')%Z ->
  Float.round_at e (inject_Z m * Float.pow2 e') == inject_Z m * Float.pow2 e'.
Proof.
  intro H. unfold Float.round_at. pose proof (pow2_pos e) as He.
  assert (E : inject_Z m * Float.pow2 e' / Float.pow2 e
              == inject_Z (m * 2 ^ (e' - e))).
  { rewrite inject_Z_mult, pow2_Z by lia.
    replace e' with ((e' - e) + e)%Z at 1 by lia. rewrite pow2_add.
    field. lra. }
  assert (R : round_half_even (inject_Z m * Float.pow2 e' / Float.pow2 e)
              = (m * 2 ^ (e' - e))%Z).
  { rewrite <- (round_half_even_Z (m * 2 ^ (e' - e))).
    apply Z.le_antisymm; apply round_half_even_mono; rewrite E; apply Qle_refl. }
  rewrite R, <- E. field. lra.
Qed.

Lemma round_at_opp (e : Z) (x : Q) :
  Float.round_at e (- x) == - Float.round_at e x.
Proof.
  unfold Float.round_at.
  assert (E : round_half_even (- x / Float.pow2 e)
              = (- round_half_even (x / Float.pow2 e))%Z).
  { rewrite <- round_half_even_opp.
    apply Z.le_antisymm; apply round_half_even_mono;
      unfold Qdiv; rewrite <- ?Qmult_opp_distr_l_hack; ring_simplify; apply Qle_refl. }
  rewrite E, inject_Z_opp. ring.
Qed.

Section RoundBinary.

Variables prec emin : Z.
Hypothesis prec_pos : (0 < prec)%Z.

Lemma round_binary_opp (x : Q) :
  Float.round_binary prec emin (- x) == - Float.round_binary prec emin x.
Proof. unfold Float.round_binary. rewrite ilog2_opp. apply round_at_opp. Qed.

Lemma round_binary_mono_pos (x y : Q) :
  0 < x -> x <= y ->
  Float.round_binary prec emin x <= Float.round_binary prec emin y.
Proof.
  intros Hx Hxy. unfold Float.round_binary.
  pose proof (ilog2_mono x y Hx Hxy) as Hlog.
  set (ex := Z.max (Float.ilog2 x - prec + 1) emin).
  set (ey := Z.max (Float.ilog2 y - prec + 1) emin).
  destruct (Z.eq_dec ex ey) as [E | N].
  - rewrite E. now apply round_at_mono.
  - assert (Hlt : (ex < ey)%Z) by (unfold ex, ey in *; lia).
    assert (Hey : ey = (Float.ilog2 y - prec + 1)%Z) by (unfold ex, ey in *; lia).
    assert (Hxl : (Float.ilog2 x < Float.ilog2 y)%Z) by (unfold ex, ey in *; lia).
    destruct (ilog2_spec x) as [_ Hx2]; [lra|].
    destruct (ilog2_spec y) as [Hy1 _]; [lra|].
    rewrite Qabs_pos in Hx2 by lra. rewrite Qabs_pos in Hy1 by lra.
    set (b := inject_Z 1 * Float.pow2 (Float.ilog2 y)).
    assert (Hb : b == Float.pow2 (Float.ilog2 y))
      by (unfold b; change (inject_Z 1) with 1; ring).
    assert (Hxb : x <= b).
    { rewrite Hb. apply Qle_trans with (Float.pow2 (Float.ilog2 x + 1)); [lra|].
      apply pow2_le. lia. }
    assert (Hby : b <= y) by (rewrite Hb; exact Hy1).
    assert (Fx : Float.round_at ex b == b)
      by (unfold b; apply round_at_fix; lia).
    assert (Fy : Float.round_at ey b == b)
      by (unfold b; apply round_at_fix; lia).
    apply Qle_trans with b.
    + rewrite <- Fx. now apply round_at_mono.
    + rewrite <- Fy at 1. now apply round_at_mono.
Qed.

Lemma round_binary_nonneg (x : Q) :
  0 <= x -> 0 <= Float.round_binary prec emin x.
Proof.
  intro H. unfold Float.round_binary.
  set (e := Z.max (Float.ilog2 x - prec + 1) emin).
  assert (F : Float.round_at e (inject_Z 0 * Float.pow2 e) == 0).
  { rewrite round_at_fix by lia. change (inject_Z 0) with 0. ring. }
  rewrite <- F. apply round_at_mono.
  change (inject_Z 0) with 0. rewrite Qmult_0_l. exact H.
Qed.

(** Rounding to nearest is monotone. *)
Lemma round_binary_mono (x y : Q) :
  x <= y -> Float.round_binary prec emin x <= Float.round_binary prec emin y.
Proof.
  intro Hxy.
  destruct (Qlt_le_dec 0 x) as [Hx | Hx].
  - now apply round_binary_mono_pos.
  - destruct (Qlt_le_dec y 0) as [Hy | Hy].
    + assert (H : Float.round_binary prec emin (- y)
                  <= Float.round_binary prec emin (- x))
        by (apply round_binary_mono_pos; lra).
      rewrite !round_binary_opp in H. lra.
    + apply Qle_trans with 0.
      * assert (H : 0 <= Float.round_binary prec emin (- x))
          by (apply round_binary_nonneg; lra).
        rewrite round_binary_opp in H. lra.
      * now apply round_binary_nonneg.
Qed.

End RoundBinary.

Lemma binary64_mono (x y : Q) : x <= y -> Float.binary64 x <= Float.binary64 y.
Proof. apply round_binary_mono. reflexivity. Qed.

Lemma binary32_mono (x y : Q) : x <= y -> Float.binary32 x <= Float.binary32 y.
Proof. apply round_binary_mono. reflexivity. Qed.

#[global] Instance binary64_proper : Proper (Qeq ==> Qeq) Float.binary64.
Proof. intros x y H. apply Qle_antisym; apply binary64_mono; lra. Qed.

#[global] Instance binary32_proper : Proper (Qeq ==> Qeq) Float.binary32.
Proof. intros x y H. apply Qle_antisym; apply binary32_mono; lra. Qed.

(** ** The match as the interpreter computes it *)

Section FloatMatchingProperties.

Variable cosine_similarity : list Q -> list Q -> result Q.

(** What [compute_match] returns once both guards pass and the library
    gives a cosine. *)
Lemma float_compute_match_returns (self : Matching.CandidateJobMatcher)
    (h c : list Q) (s : Q) (cid hid : string)
    (cp hp : option Matching.Profile) (cosv : Q) :
  h <> [] -> c <> [] -> 0 <= s -> s <= 10 ->
  cosine_similarity (FloatMatching.float32_row h) (FloatMatching.float32_row c)
  = Ok cosv ->
  FloatMatching.compute_match cosine_similarity self h c s cid hid cp hp
  = ([Matching.np_array h; Matching.np_array c;
      Matching.sk_cosine_similarity (FloatMatching.float32_row h)
        (FloatMatching.float32_row c)],
     let similarity := Float.div32 (Float.add32 cosv 1) 2 in
     let scaled :=
       Float.mul
         (Float.add (Float.mul (Matching.similarity_weight self) similarity)
            (Float.mul (Matching.screening_weight self) (Float.div s 10)))
         10 in
     Ok {| Matching.similarity_score := Float.round similarity 3;
           Matching.screening_score := Float.round s 2;
           Matching.final_score := Float.round scaled 2;
           Matching.recommendation := Matching._get_recommendation scaled;
           Matching.explanation :=
             FloatMatching._generate_explanation similarity s scaled cp hp;
           Matching.candidate_id := cid;
           Matching.hiring_profile_id := hid |}).
Proof.
  intros Hh Hc H0 H10 Hcos.
  unfold FloatMatching.compute_match.
  rewrite (is_empty_false _ Hh), (is_empty_false _ Hc), (score_in_range _ H0 H10).
  cbn [orb]. unfold FloatMatching._compute_cosine_similarity.
  cbn [Matching.bind Matching.ret app]. rewrite Hcos. reflexivity.
Qed.

(** C1.  With a screening score in [0,10], whatever the similarity and the
    weights, [compute_match] returns as final score
    (similarity_weight * similarity + screening_weight * (screening_score / 10)) * 10
    rounded to 2 decimals, and the similarity rounded to 3 decimals, every
    operation being the interpreter's: the similarity is (cos + 1) / 2 in
    single precision, the rest is double precision.  With the weights 0.6
    and 0.4, the similarity that single precision has for 0.9 and the
    screening score 8, the final score is 8.6, the similarity is reported
    as 0.9 and the recommendation is the STRONG MATCH tier. *)
Theorem compute_match_final_score (self : Matching.CandidateJobMatcher)
    (h c : list Q) (s : Q) (cid hid : string)
    (cp hp : option Matching.Profile) (cosv : Q) :
  h <> [] -> c <> [] -> 0 <= s -> s <= 10 ->
  cosine_similarity (FloatMatching.float32_row h) (FloatMatching.float32_row c)
  = Ok cosv ->
  let similarity := Float.div32 (Float.add32 cosv 1) 2 in
  exists r,
    Matching.outcome
      (FloatMatching.compute_match cosine_similarity self h c s cid hid cp hp)
    = Ok r
    /\ Matching.final_score r
       = Float.round
           (Float.mul
              (Float.add
                 (Float.mul (Matching.similarity_weight self) similarity)
                 (Float.mul (Matching.screening_weight self) (Float.div s 10)))
              10)
           2
    /\ Matching.similarity_score r = Float.round similarity 3
    /\ (self = FloatMatching.init ->
        similarity == Float.binary32 (9 # 10) -> s == 8 ->
        Matching.final_score r == Float.lit (86 # 10)
        /\ Matching.similarity_score r == Float.lit (9 # 10)
        /\ Matching.recommendation r
           = "STRONG MATCH - Recommend immediate interview/next round"%string).
Proof.
  intros Hh Hc H0 H10 Hcos similarity.
  rewrite (float_compute_match_returns self h c s cid hid cp hp cosv
             Hh Hc H0 H10 Hcos).
  cbn zeta. fold similarity.
  eexists. split; [reflexivity|].
  cbn [Matching.final_score Matching.similarity_score Matching.recommendation].
  split; [reflexivity|]. split; [reflexivity|].
  intros -> Hsim Hs.
  cbn [FloatMatching.init Matching.similarity_weight Matching.screening_weight].
  clearbody similarity.
  assert (E : Float.mul
                (Float.add (Float.mul (Float.lit (6 # 10)) similarity)
                   (Float.mul (Float.lit (4 # 10)) (Float.div s 10)))
                10
              == Float.mul
                   (Float.add
                      (Float.mul (Float.lit (6 # 10)) (Float.binary32 (9 # 10)))
                      (Float.mul (Float.lit (4 # 10)) (Float.div 8 10)))
                   10).
  { unfold Float.mul, Float.add, Float.div. now rewrite Hsim, Hs. }
  split; [| split].
  - unfold Float.round. rewrite E. vm_compute. reflexivity.
  - unfold Float.round. rewrite Hsim. vm_compute. reflexivity.
  - rewrite E. vm_compute. reflexivity.
Qed.

End FloatMatchingProperties.

Lemma compute_match_final_score_witness :
  exists r,
    Matching.outcome
      (FloatMatching.compute_match float32_cosine_similarity FloatMatching.init
         [1; 0] [4; 3] 8 "c1" "h1" None None) = Ok r
    /\ Matching.final_score r == Float.lit (86 # 10)
    /\ Matching.similarity_score r == Float.lit (9 # 10)
    /\ Matching.recommendation r
       = "STRONG MATCH - Recommend immediate interview/next round"%string.
Proof.
  destruct (compute_match_final_score float32_cosine_similarity
              FloatMatching.init [1; 0] [4; 3] 8 "c1" "h1" None None
              (Float.binary32 (4 # 5)))
    as (r & Hr & _ & _ & Hscenario);
    try discriminate; try (vm_compute; reflexivity).
  exists r. split; [exact Hr|].
  apply Hscenario; [reflexivity | vm_compute; reflexivity | reflexivity].
Defined.

(** The formula is evaluated as the interpreter evaluates it.  For two
    equal rows (similarity 1.0) and the screening score 0.1875 the sum
    0.6 + 0.4 * 0.01875 is the double below 0.6075, its tenfold the double
    below 6.075, and the final score 6.07; in exact arithmetic the
    tenfold would be the tie 6.075, rounded to the even 6.08. *)
Lemma compute_match_rounds_the_computed_double :
  exists r,
    Matching.outcome
      (FloatMatching.compute_match float32_cosine_similarity FloatMatching.init
         [1; 0] [1; 0] (3 # 16) "c1" "h1" None None) = Ok r
    /\ Matching.similarity_score r == 1
    /\ Matching.final_score r == Float.lit (607 # 100)
    /\ py_round (((6 # 10) * 1 + (4 # 10) * ((3 # 16) / 10)) * 10) 2 == 608 # 100.
Proof.
  eexists. split; [vm_compute; reflexivity|].
  repeat split; vm_compute; reflexivity.
Qed.

(** ** Input errors of the similarity computation *)

Lemma float32_rejects_widths (X Y : list Q) :
  List.length X <> List.length Y ->
  exists msg, float32_cosine_similarity X Y = Raise (ValueError msg).
Proof.
  intro H. unfold float32_cosine_similarity.
  destruct (reference_rejects_widths X Y H) as [msg ->]. now exists msg.
Qed.

Lemma float32_row_length (X : list Q) :
  List.length (FloatMatching.float32_row X) = List.length X.
Proof. apply length_map. Qed.

(** The similarity computed from a cosine in [-1,1] lies in [0,1]. *)
Lemma normalized_similarity_range (cosv : Q) :
  -1 <= cosv -> cosv <= 1 ->
  0 <= Float.div32 (Float.add32 cosv 1) 2
  /\ Float.div32 (Float.add32 cosv 1) 2 <= 1.
Proof.
  intros Hlo Hhi. unfold Float.div32, Float.add32.
  assert (E0 : Float.binary32 0 == 0) by (vm_compute; reflexivity).
  assert (E1 : Float.binary32 1 == 1) by (vm_compute; reflexivity).
  assert (E2 : Float.binary32 2 == 2) by (vm_compute; reflexivity).
  assert (A0 : 0 <= Float.binary32 (cosv + 1))
    by (rewrite <- E0; apply binary32_mono; lra).
  assert (A2 : Float.binary32 (cosv + 1) <= 2)
    by (rewrite <- E2; apply binary32_mono; lra).
  split.
  - rewrite <- E0 at 1. apply binary32_mono.
    apply Qle_shift_div_l; [reflexivity | lra].
  - rewrite <- E1 at 2. apply binary32_mono.
    apply Qle_shift_div_r; [reflexivity | lra].
Qed.

(** C5, as the code has it.  [compute_match] fails with an input error
    whenever an embedding is empty or the two embeddings differ in length.
    For an empty embedding the error comes from [compute_match]'s own guard,
    before any numeric work.  For embeddings of different lengths the code
    has no check of its own: with a screening score in range both
    embeddings are converted to [float32] arrays and handed to the
    library's [cosine_similarity], and the error is the one the library
    raises.  For non-empty embeddings of equal length the result is the
    library's: if it raises, so does the computation; if it returns a
    cosine, the similarity is (cos + 1) / 2 in single precision, which
    lies in [0,1] when the cosine lies in [-1,1]. *)
Theorem similarity_input_errors
    (cosine_similarity : list Q -> list Q -> result Q)
    (self : Matching.CandidateJobMatcher)
    (h c : list Q) (s : Q) (cid hid : string)
    (cp hp : option Matching.Profile) :
  (forall X Y, List.length X <> List.length Y ->
     exists msg, cosine_similarity X Y = Raise (ValueError msg)) ->
  let run := FloatMatching.compute_match cosine_similarity self h c s cid hid cp hp in
  let arr1 := FloatMatching.float32_row h in
  let arr2 := FloatMatching.float32_row c in
  (h = [] \/ c = [] ->
     Matching.outcome run = Raise (ValueError "Both embeddings must be provided")
     /\ fails_before_numeric_work run)
  /\ (h <> [] -> c <> [] -> List.length h <> List.length c ->
      input_error run
      /\ (0 <= s -> s <= 10 ->
          (exists msg, cosine_similarity arr1 arr2 = Raise (ValueError msg)
                       /\ Matching.outcome run = Raise (ValueError msg))
          /\ Matching.numeric_work run
             = [Matching.np_array h; Matching.np_array c;
                Matching.sk_cosine_similarity arr1 arr2]))
  /\ (h <> [] -> c <> [] -> List.length h = List.length c ->
      (forall e, cosine_similarity arr1 arr2 = Raise e ->
         Matching.outcome
           (FloatMatching._compute_cosine_similarity cosine_similarity h c)
         = Raise e
         /\ (0 <= s -> s <= 10 -> Matching.outcome run = Raise e))
      /\ (forall cosv, cosine_similarity arr1 arr2 = Ok cosv ->
            Matching.outcome
              (FloatMatching._compute_cosine_similarity cosine_similarity h c)
            = Ok (Float.div32 (Float.add32 cosv 1) 2)
            /\ (-1 <= cosv -> cosv <= 1 ->
                0 <= Float.div32 (Float.add32 cosv 1) 2
                /\ Float.div32 (Float.add32 cosv 1) 2 <= 1))).
Proof.
  intros Hlib run arr1 arr2. subst run arr1 arr2.
  split; [| split].
  - intros Hempty.
    assert (E : Matching.is_empty h || Matching.is_empty c = true)
      by (destruct Hempty as [-> | ->];
          [reflexivity | destruct h; reflexivity]).
    unfold FloatMatching.compute_match. rewrite E.
    split; [reflexivity|].
    split; [eexists; reflexivity | reflexivity].
  - intros Hh Hc Hlen.
    destruct (Hlib (FloatMatching.float32_row h) (FloatMatching.float32_row c))
      as [msg Hmsg]; [now rewrite !float32_row_length|].
    unfold FloatMatching.compute_match.
    rewrite (is_empty_false _ Hh), (is_empty_false _ Hc). cbn [orb].
    split.
    + destruct (Qlt_bool s 0 || Qgt_bool s 10).
      * eexists; reflexivity.
      * unfold FloatMatching._compute_cosine_similarity, input_error,
          Matching.outcome.
        cbn [Matching.bind Matching.ret app]. rewrite Hmsg. cbn.
        eexists; reflexivity.
    + intros H0 H10. rewrite (score_in_range _ H0 H10).
      unfold FloatMatching._compute_cosine_similarity, Matching.outcome,
        Matching.numeric_work.
      cbn [Matching.bind Matching.ret app]. rewrite Hmsg. cbn.
      split; [exists msg; split; reflexivity | reflexivity].
  - intros Hh Hc Hlen. split.
    + intros e He. split.
      * unfold FloatMatching._compute_cosine_similarity, Matching.outcome.
        cbn [Matching.bind Matching.ret app]. rewrite He. reflexivity.
      * intros H0 H10. unfold FloatMatching.compute_match.
        rewrite (is_empty_false _ Hh), (is_empty_false _ Hc),
          (score_in_range _ H0 H10).
        cbn [orb]. unfold FloatMatching._compute_cosine_similarity,
          Matching.outcome.
        cbn [Matching.bind Matching.ret app]. rewrite He. reflexivity.
    + intros cosv Hcos.
      unfold FloatMatching._compute_cosine_similarity, Matching.outcome.
      cbn [Matching.bind Matching.ret app]. rewrite Hcos. cbn.
      split; [reflexivity|]. apply normalized_similarity_range.
Qed.

Lemma similarity_input_errors_witness :
  fails_before_numeric_work
    (FloatMatching.compute_match float32_cosine_similarity FloatMatching.init
       [] [1; 2] 5 "c1" "h1" None None)
  /\ input_error
       (FloatMatching.compute_match float32_cosine_similarity FloatMatching.init
          [1] [1; 2] 5 "c1" "h1" None None)
  /\ Matching.outcome
       (FloatMatching._compute_cosine_similarity float32_cosine_similarity
          [1; 0] [4; 3])
     = Ok (Float.div32 (Float.add32 (Float.binary32 (4 # 5)) 1) 2).
Proof.
  split; [| split].
  - apply (similarity_input_errors float32_cosine_similarity FloatMatching.init
             [] [1; 2] 5 "c1" "h1" None None float32_rejects_widths).
    left. reflexivity.
  - apply (similarity_input_errors float32_cosine_similarity FloatMatching.init
             [1] [1; 2] 5 "c1" "h1" None None float32_rejects_widths);
      simpl; discriminate.
  - apply (similarity_input_errors float32_cosine_similarity FloatMatching.init
             [1; 0] [4; 3] 5 "c1" "h1" None None float32_rejects_widths);
      try discriminate; vm_compute; reflexivity.
Defined.

(** C5 as stated fails twice.  For embeddings of lengths 1 and 2 the error
    does not precede the numeric work: both arrays have been built and the
    library called when it is raised.  And the similarity is in [0,1] only
    as far as the library's cosine is in [-1,1]: single precision can
    leave the library with a cosine above 1 for two equal rows, and on the
    value 1.0000003576278687 for the two placeholder rows of the
    endpoints the similarity is above 1. *)
Lemma length_mismatch_reaches_library :
  (List.length [1] <> List.length [1; 2]
   /\ Matching.numeric_work
        (FloatMatching.compute_match float32_cosine_similarity FloatMatching.init
           [1] [1; 2] 5 "c1" "h1" None None)
      = [Matching.np_array [1]; Matching.np_array [1; 2];
         Matching.sk_cosine_similarity (FloatMatching.float32_row [1])
           (FloatMatching.float32_row [1; 2])]
   /\ ~ fails_before_numeric_work
          (FloatMatching.compute_match float32_cosine_similarity
             FloatMatching.init [1] [1; 2] 5 "c1" "h1" None None))
  /\ (exists similarity,
        Matching.outcome
          (FloatMatching._compute_cosine_similarity cosine_above_one
             Api.placeholder_embedding Api.placeholder_embedding)
        = Ok similarity
        /\ 1 < similarity).
Proof.
  split.
  - split; [simpl; discriminate|].
    split; [vm_compute; reflexivity|].
    intros [_ H]. vm_compute in H. discriminate.
  - eexists. split; [reflexivity|]. vm_compute. reflexivity.
Qed.
(** ** The matching endpoints *)

Lemma placeholder_nonempty : Api.placeholder_embedding <> [].
Proof. unfold Api.placeholder_embedding. change 768%nat with (S 767). discriminate. Qed.

Section Endpoints.

Variable cosine_similarity : list Q -> list Q -> result Q.

(** [compute_match] builds its result from the embeddings and the score
    alone: the profiles it is given do not reach the result. *)
Lemma compute_match_ignores_profiles (self : Matching.CandidateJobMatcher)
    (h c : list Q) (s : Q) (cid hid : string)
    (cp hp cp' hp' : option Matching.Profile) :
  FloatMatching.compute_match cosine_similarity self h c s cid hid cp hp
  = FloatMatching.compute_match cosine_similarity self h c s cid hid cp' hp'.
Proof. reflexivity. Qed.

(** X8.  With the matcher constructed at start-up,
    [POST /api/matching/compute] compares two copies of the placeholder
    embedding, so its answer depends on the screening score alone: two
    requests with the same score get the same response whatever their
    profiles.  A score outside [0,10] is answered with [HTTPException] 400
    and the range error.  For a score in [0,10] the answer is what the
    library makes of the two placeholder rows: if it raises, status 400
    with its text; if it returns a cosine, "success" with the scores
    [compute_match] computes from it. *)
Theorem api_compute_match_score_only (request : Api.MatchingRequest) :
  let s := Api.req_screening_score request in
  let row := FloatMatching.float32_row Api.placeholder_embedding in
  (s < 0 \/ 10 < s ->
   Api.compute_match cosine_similarity FloatMatching.init request
   = Api.HTTPException 400 "Screening score must be between 0 and 10")
  /\ (forall request',
        Api.req_screening_score request' = s ->
        Api.compute_match cosine_similarity FloatMatching.init request'
        = Api.compute_match cosine_similarity FloatMatching.init request)
  /\ (0 <= s -> s <= 10 ->
      (forall e, cosine_similarity row row = Raise e ->
         Api.compute_match cosine_similarity FloatMatching.init request
         = Api.HTTPException 400 (str_exn e))
      /\ (forall cosv, cosine_similarity row row = Ok cosv ->
            let similarity := Float.div32 (Float.add32 cosv 1) 2 in
            exists body,
              Api.compute_match cosine_similarity FloatMatching.init request
              = Api.Response body
              /\ Api.status body = "success"%string
              /\ Api.similarity_score body = Float.round similarity 3
              /\ Api.screening_score body = Float.round s 2
              /\ Api.final_score body
                 = Float.round
                     (Float.mul
                        (Float.add (Float.mul (Float.lit (6 # 10)) similarity)
                           (Float.mul (Float.lit (4 # 10)) (Float.div s 10)))
                        10)
                     2)).
Proof.
  intros s row. subst row. unfold Api.compute_match. fold s.
  split; [| split].
  - intros Hout. unfold FloatMatching.compute_match.
    rewrite (is_empty_false _ placeholder_nonempty). cbn [orb].
    assert (E : Qlt_bool s 0 || Qgt_bool s 10 = true).
    { apply orb_true_iff. destruct Hout as [H | H];
        [left; now apply Qlt_bool_iff | right; now apply Qgt_bool_iff]. }
    rewrite E. reflexivity.
  - intros request' Hs. rewrite Hs.
    rewrite (compute_match_ignores_profiles FloatMatching.init
               Api.placeholder_embedding Api.placeholder_embedding s
               EmptyString EmptyString
               (Some (Api.req_candidate_profile request'))
               (Some (Api.req_hiring_profile request'))
               (Some (Api.req_candidate_profile request))
               (Some (Api.req_hiring_profile request))).
    reflexivity.
  - intros H0 H10. split.
    + intros e He. unfold FloatMatching.compute_match.
      rewrite (is_empty_false _ placeholder_nonempty), (score_in_range _ H0 H10).
      cbn [orb]. unfold FloatMatching._compute_cosine_similarity, Matching.outcome.
      cbn [Matching.bind Matching.ret app]. rewrite He. reflexivity.
    + intros cosv Hcos.
      rewrite (float_compute_match_returns cosine_similarity FloatMatching.init
                 Api.placeholder_embedding Api.placeholder_embedding s
                 EmptyString EmptyString _ _ cosv
                 placeholder_nonempty placeholder_nonempty H0 H10 Hcos).
      cbn [Matching.outcome snd]. eexists. split; [reflexivity|].
      cbn [Api.status Api.similarity_score Api.screening_score Api.final_score
           Matching.similarity_score Matching.screening_score Matching.final_score
           Matching.similarity_weight Matching.screening_weight FloatMatching.init].
      repeat split.
Qed.

(** X9.  With the matcher constructed at start-up,
    [POST /api/matching/batch] gives every candidate the same result,
    whatever the candidate's profile and the hiring profile: one item per
    candidate, in order, with the candidate's name (or "Unknown") and
    either the one match [compute_match] returns for the placeholder
    embeddings and the fixed screening score 7.0 or, if the library
    raises, the one error text. *)
Theorem api_batch_scores_all_alike (candidates : list Matching.Profile)
    (hiring_profile : Matching.Profile) :
  let common :=
    Matching.outcome
      (FloatMatching.compute_match cosine_similarity FloatMatching.init
         Api.placeholder_embedding Api.placeholder_embedding 7
         EmptyString EmptyString None None) in
  Api.match_batch_candidates cosine_similarity FloatMatching.init candidates
    hiring_profile
  = Api.Response
      (map (fun candidate =>
              match common with
              | Ok match_ =>
                  Api.ItemSuccess "success"
                    (Matching.profile_get candidate "name" "Unknown") match_
              | Raise e =>
                  Api.ItemError "error"
                    (Matching.profile_get candidate "name" "Unknown") (str_exn e)
              end)
         candidates)
  /\ (forall match_, common = Ok match_ ->
        Matching.screening_score match_ == 7
        /\ Matching.candidate_id match_ = EmptyString).
Proof.
  intro common. split.
  - unfold Api.match_batch_candidates. f_equal.
  - intros m Hm. subst common.
    assert (H0 : 0 <= 7) by (vm_compute; discriminate).
    assert (H10 : 7 <= 10) by (vm_compute; discriminate).
    destruct (cosine_similarity
                (FloatMatching.float32_row Api.placeholder_embedding)
                (FloatMatching.float32_row Api.placeholder_embedding))
      as [cosv | e] eqn:Hcos.
    + rewrite (float_compute_match_returns cosine_similarity FloatMatching.init
                 Api.placeholder_embedding Api.placeholder_embedding 7
                 EmptyString EmptyString None None cosv
                 placeholder_nonempty placeholder_nonempty H0 H10 Hcos) in Hm.
      cbn [Matching.outcome snd] in Hm. cbv zeta in Hm. injection Hm as <-.
      cbn [Matching.screening_score Matching.candidate_id].
      split; [vm_compute; reflexivity | reflexivity].
    + exfalso. unfold FloatMatching.compute_match in Hm.
      rewrite (is_empty_false _ placeholder_nonempty), (score_in_range _ H0 H10)
        in Hm.
      cbn [orb] in Hm.
      unfold FloatMatching._compute_cosine_similarity, Matching.outcome in Hm.
      cbn [Matching.bind Matching.ret app] in Hm. rewrite Hcos in Hm.
      discriminate.
Qed.

End Endpoints.

(** ** Rows of the same second *)

Section SortDescStable.

Context {A : Type} (key : A -> Q) (p : A -> bool).

Hypothesis p_of_key :
  forall a b, key a < key b -> p a = true -> p b = true -> False.

Lemma insert_desc_filter (x : A) (l : list A) :
  filter p (insert_desc key x l) = filter p (x :: l).
Proof.
  induction l as [| y l IH]; [reflexivity|].
  cbn [insert_desc]. destruct (Qlt_bool (key x) (key y)) eqn:E; [|reflexivity].
  apply Qlt_bool_iff in E. cbn [filter] in *. rewrite IH.
  destruct (p x) eqn:Px, (p y) eqn:Py; try reflexivity.
  exfalso. exact (p_of_key x y E Px Py).
Qed.

(** The sort is stable: the elements a predicate on the key selects keep
    their order. *)
Lemma sort_desc_filter (l : list A) :
  filter p (sort_desc key l) = filter p l.
Proof.
  induction l as [| x l IH]; [reflexivity|].
  cbn [sort_desc]. rewrite insert_desc_filter. cbn [filter]. now rewrite IH.
Qed.

End SortDescStable.

Lemma by_recency_stable (s : System) (t : Z) :
  stored_in_second row_created_at t (by_recency s)
  = stored_in_second row_created_at t (feedback_table s).
Proof.
  unfold stored_in_second, by_recency. apply sort_desc_filter.
  intros a b Hlt Ha Hb. apply Z.eqb_eq in Ha, Hb.
  rewrite <- Zlt_Qlt in Hlt. lia.
Qed.

(** ** The pass in the interpreter's arithmetic *)

Lemma float_lit_bounds :
  1 # 4 <= Float.lit (3 # 10) /\ Float.lit (3 # 10) <= Float.lit (8 # 10)
  /\ 1 # 8 <= Float.lit (2 # 10) /\ Float.lit (2 # 10) <= Float.lit (7 # 10).
Proof. repeat split; vm_compute; discriminate. Qed.

Lemma float_apply_weight_adjustments_value (ds dsc : Q) (s : System) :
  let a := clamp (Float.lit (3 # 10)) (Float.lit (8 # 10))
             (Float.add (similarity_weight (self s)) ds) in
  let b := clamp (Float.lit (2 # 10)) (Float.lit (7 # 10))
             (Float.add (screening_weight (self s)) dsc) in
  exists s',
    FloatFeedback.apply_weight_adjustments ds dsc s = (Ok tt, s')
    /\ feedback_table s' = feedback_table s
    /\ weight_history_table s' = weight_history_table s
    /\ clock s' = clock s /\ outages s' = outages s
    /\ confidence (self s') = confidence (self s)
    /\ learning_rate (self s') = learning_rate (self s)
    /\ min_feedback_for_adjustment (self s') = min_feedback_for_adjustment (self s)
    /\ (Qeq_bool ds 0 && Qeq_bool dsc 0 = true ->
        similarity_weight (self s') = similarity_weight (self s)
        /\ screening_weight (self s') = screening_weight (self s))
    /\ (Qeq_bool ds 0 && Qeq_bool dsc 0 = false ->
        similarity_weight (self s') = Float.div a (Float.add a b)
        /\ screening_weight (self s') = Float.div b (Float.add a b)).
Proof.
  destruct s as [[sw scw conf lr mn] fb wh clk outs].
  cbn [self similarity_weight screening_weight].
  set (a := clamp (Float.lit (3 # 10)) (Float.lit (8 # 10)) (Float.add sw ds)).
  set (b := clamp (Float.lit (2 # 10)) (Float.lit (7 # 10)) (Float.add scw dsc)).
  destruct float_lit_bounds as (L3 & L38 & L2 & L27).
  destruct (clamp_bounds (Float.lit (3 # 10)) (Float.lit (8 # 10)) (Float.add sw ds))
    as [Ha1 _]; [exact L38|].
  destruct (clamp_bounds (Float.lit (2 # 10)) (Float.lit (7 # 10)) (Float.add scw dsc))
    as [Hb1 _]; [exact L27|].
  fold a in Ha1. fold b in Hb1.
  assert (Hgt : Qgt_bool (Float.add a b) 0 = true).
  { apply Qgt_bool_iff. unfold Float.add.
    apply Qlt_le_trans with (Float.binary64 (1 # 4)); [vm_compute; reflexivity|].
    apply binary64_mono. lra. }
  unfold FloatFeedback.apply_weight_adjustments.
  destruct (Qeq_bool ds 0), (Qeq_bool dsc 0); cbn [negb orb andb].
  1: { eexists. split; [reflexivity|]. repeat split; try reflexivity; discriminate. }
  all: cbn -[Qmax Qmin Float.add Float.div Float.lit Qgt_bool];
       fold (clamp (Float.lit (3 # 10)) (Float.lit (8 # 10)) (Float.add sw ds));
       fold (clamp (Float.lit (2 # 10)) (Float.lit (7 # 10)) (Float.add scw dsc));
       fold a; fold b; rewrite Hgt;
       cbn -[Qmax Qmin Float.add Float.div Float.lit Qgt_bool];
       eexists; split; [reflexivity|];
       cbn -[Qmax Qmin Float.add Float.div Float.lit Qgt_bool];
       repeat split; try reflexivity; discriminate.
Qed.

(** With a readable, non-empty window the pass is the application of the
    first rule whose condition holds. *)
Lemma float_adjust_weights_applies_first_rule (s : System) :
  storage_up s -> window s <> [] ->
  state_after FloatFeedback._adjust_weights_based_on_feedback s
  = state_after
      (FloatRules.apply_rule
         (FloatRules.first_rule (good_fits_of (window s)) (not_fits_of (window s)))
         (len (window s)))
      (after_connect s).
Proof.
  intros Hup Hdata.
  unfold state_after, FloatFeedback._adjust_weights_based_on_feedback.
  match goal with
  | |- snd (try_except ?m ?h s) = _ =>
      assert (E : snd (try_except m h s) = snd (m s))
        by (unfold try_except; destruct (m s) as [[[] | e] s']; reflexivity);
      rewrite E; clear E
  end.
  unfold bind at 1. rewrite (get_recent_feedback_up s Hup).
  assert (Hne : nonempty (window s) = true)
    by (destruct (window s); [congruence | reflexivity]).
  rewrite Hne. cbn [negb].
  fold (good_fits_of (window s)). fold (not_fits_of (window s)).
  fold (FloatRules.mean_final_score (good_fits_of (window s))).
  fold (FloatRules.mean_final_score (not_fits_of (window s))).
  generalize (good_fits_of (window s)) (not_fits_of (window s))
    (len (window s)) (after_connect s).
  intros good nots n s1.
  unfold FloatRules.apply_rule, FloatRules.first_rule,
    FloatFeedback.select_adjustment.
  cbn [find FloatRules.rule_condition].
  destruct (nonempty nots
            && Qgt_bool (FloatRules.mean_final_score nots) (Float.lit (65 # 10)));
    [reflexivity|].
  destruct (nonempty good && Qlt_bool (FloatRules.mean_final_score good) 5);
    [reflexivity|].
  destruct (nonempty good
            && Qgt_bool (FloatRules.mean_final_score good) (Float.lit (75 # 10)));
    [reflexivity|].
  destruct (nonempty nots && Qlt_bool (FloatRules.mean_final_score nots) 5);
    reflexivity.
Qed.

Lemma float_pass_keeps_rate (lr : Q) :
  preserves (on_self (rate_is lr)) FloatFeedback._try_adjust_weights.
Proof.
  unfold FloatFeedback._try_adjust_weights,
    FloatFeedback._adjust_weights_based_on_feedback. frame.
  unfold FloatFeedback.select_adjustment. frame.
  unfold FloatFeedback.apply_weight_adjustments. frame.
Qed.

Lemma float_reachable_rate (s : System) :
  FloatFeedback.reachable s -> learning_rate (self s) = Float.lit (5 # 100).
Proof.
  induction 1 as [s0 s Hinit | cid hm fs fb nt s Hreach IH | s Hreach IH
                 | s clock' outages' Hreach IH Hclock].
  - revert Hinit.
    unfold FloatFeedback.__init__, init_database, try_except, bind, connect,
      put_self, ret, raise.
    destruct (outages s0) as [| [] ?]; cbn -[Float.lit]; intros [= <-]; reflexivity.
  - assert (F : preserves (on_self (rate_is (Float.lit (5 # 100))))
                  (FloatFeedback.record_feedback cid hm fs fb nt)).
    { unfold FloatFeedback.record_feedback. frame. apply float_pass_keeps_rate. }
    exact (F s IH).
  - assert (F : preserves (on_self (rate_is (Float.lit (5 # 100))))
                  FloatFeedback.reset_weights)
      by (unfold FloatFeedback.reset_weights; frame).
    exact (F s IH).
  - exact IH.
Qed.

(** The weights a rule leaves. *)
Lemma float_apply_rule_weights (r : option rule) (n : Z) (s : System) :
  let ds := fst (FloatRules.rule_deltas (learning_rate (self s)) r) in
  let dsc := snd (FloatRules.rule_deltas (learning_rate (self s)) r) in
  let a := clamp (Float.lit (3 # 10)) (Float.lit (8 # 10))
             (Float.add (similarity_weight (self s)) ds) in
  let b := clamp (Float.lit (2 # 10)) (Float.lit (7 # 10))
             (Float.add (screening_weight (self s)) dsc) in
  let s' := state_after (FloatRules.apply_rule r n) s in
  (Qeq_bool ds 0 && Qeq_bool dsc 0 = true ->
   similarity_weight (self s') = similarity_weight (self s)
   /\ screening_weight (self s') = screening_weight (self s))
  /\ (Qeq_bool ds 0 && Qeq_bool dsc 0 = false ->
      similarity_weight (self s') = Float.div a (Float.add a b)
      /\ screening_weight (self s') = Float.div b (Float.add a b)).
Proof.
  intros ds dsc a b s'.
  assert (Hstep : exists s1,
             s' = state_after
                    (FloatFeedback.apply_weight_adjustments ds dsc ;;
                     _record_weight_adjustment (rule_description r) n) s1
             /\ similarity_weight (self s1) = similarity_weight (self s)
             /\ screening_weight (self s1) = screening_weight (self s)).
  { unfold s', state_after, FloatRules.apply_rule, ds, dsc.
    destruct r as [[] |]; eexists; (split; [reflexivity | split; reflexivity]). }
  destruct Hstep as (s1 & -> & Hsw & Hscw).
  destruct (float_apply_weight_adjustments_value ds dsc s1)
    as (s2 & Hrun & _ & _ & _ & _ & _ & _ & _ & Hzero & Hnonzero).
  unfold state_after, bind. rewrite Hrun.
  pose proof (record_weight_adjustment_on_self (fun c => c = self s2)
                (rule_description r) n s2 eq_refl) as Hkeep.
  unfold on_self in Hkeep. rewrite Hkeep.
  rewrite Hsw, Hscw in Hzero, Hnonzero.
  split; [exact Hzero | exact Hnonzero].
Qed.

Lemma float_first_rule_priority (good nots : list FeedbackDict) :
  (forall r, FloatRules.first_rule good nots = Some r ->
             FloatRules.rule_condition r good nots = true)
  /\ (FloatRules.first_rule good nots = None ->
      forall r, FloatRules.rule_condition r good nots = false)
  /\ (FloatRules.rule_condition FalsePositives good nots = true ->
      FloatRules.first_rule good nots = Some FalsePositives).
Proof.
  unfold FloatRules.first_rule. split; [| split].
  - intros r H. apply find_some in H. apply H.
  - intros H r.
    apply (find_none _ _ H). destruct r; cbn; tauto.
  - intro H. cbn [find]. now rewrite H.
Qed.

(** C4, as the code has it.  With the storage readable, the pass takes the
    first 10 feedback entries in descending order of [created_at], a
    timestamp in whole seconds, entries of the same second in the order
    they were stored; splits them into the Good Fit and the Not a Fit
    subset; takes each subset's mean final score in double precision (5.0
    if empty; scores up to 1e300, so that no sum overflows); and applies
    at most one of the four rules: the first in priority order whose
    condition holds, and none if no condition holds.  Rule 1: if the
    not-fit subset is non-empty and its mean exceeds 6.5, 0.05 is taken
    from [similarity_weight] and added to [screening_weight], then each is
    clamped to its range and both are divided by their sum.  Recording 5
    "Not a Fit" entries with final score 9.0 on a new collector fires rule
    1 and leaves [similarity_weight] below 0.6, [screening_weight] above
    0.4, and their sum 1. *)
Theorem adjustment_pass_rules (s : System) :
  FloatFeedback.reachable s -> storage_up s -> window s <> [] ->
  FloatRules.scores_in_range (window s) ->
  let data := window s in
  let good_fits := good_fits_of data in
  let not_fits := not_fits_of data in
  let rule := FloatRules.first_rule good_fits not_fits in
  let s' := state_after FloatFeedback._adjust_weights_based_on_feedback s in
  (List.length data <= 10)%nat
  /\ data = map feedback_dict (firstn 10 (by_recency s))
  /\ Permutation (feedback_table s) (by_recency s)
  /\ StronglySorted (descending feedback_recency) (by_recency s)
  /\ (forall t, stored_in_second row_created_at t (by_recency s)
                = stored_in_second row_created_at t (feedback_table s))
  /\ (forall f, In f data ->
        (In f good_fits <-> feedback f = "Good Fit"%string)
        /\ (In f not_fits <-> feedback f = "Not a Fit"%string)
        /\ ~ (In f good_fits /\ In f not_fits))
  /\ s' = state_after (FloatRules.apply_rule rule (len data)) (after_connect s)
  /\ (forall r, rule = Some r ->
        FloatRules.rule_condition r good_fits not_fits = true)
  /\ (rule = None ->
      (forall r, FloatRules.rule_condition r good_fits not_fits = false)
      /\ similarity_weight (self s') = similarity_weight (self s)
      /\ screening_weight (self s') = screening_weight (self s))
  /\ (not_fits <> [] -> 65 # 10 < FloatRules.mean_final_score not_fits ->
      let a := clamp (Float.lit (3 # 10)) (Float.lit (8 # 10))
                 (Float.add (similarity_weight (self s)) (- Float.lit (5 # 100))) in
      let b := clamp (Float.lit (2 # 10)) (Float.lit (7 # 10))
                 (Float.add (screening_weight (self s)) (Float.lit (5 # 100))) in
      rule = Some FalsePositives
      /\ similarity_weight (self s') = Float.div a (Float.add a b)
      /\ screening_weight (self s') = Float.div b (Float.add a b))
  /\ (forall candidate_id hiring_manager_id notes,
        let recorded :=
          FloatRules.repeat_record 5 candidate_id hiring_manager_id 9
            "Not a Fit" notes FloatRules.fresh in
        similarity_weight (self recorded) < Float.lit (6 # 10)
        /\ Float.lit (4 # 10) < screening_weight (self recorded)
        /\ Float.add (similarity_weight (self recorded))
             (screening_weight (self recorded)) == 1
        /\ map wh_trigger_action (weight_history_table recorded)
           = [rule_description (Some FalsePositives)]).
Proof.
  intros Hreach Hup Hdata _ data good_fits not_fits rule s'.
  pose proof (float_adjust_weights_applies_first_rule s Hup Hdata) as Hpass.
  fold s' data good_fits not_fits rule in Hpass.
  pose proof (float_reachable_rate s Hreach) as Hrate.
  pose proof (float_apply_rule_weights rule (len data) (after_connect s))
    as Hweights.
  cbv zeta in Hweights. rewrite <- Hpass in Hweights.
  cbn [after_connect self] in Hweights. rewrite Hrate in Hweights.
  destruct (float_first_rule_priority good_fits not_fits) as (Hsome & Hnone & Hfirst).
  fold rule in Hsome, Hnone, Hfirst.
  split.
  { unfold data, window. rewrite length_map. apply firstn_le_length. }
  split; [reflexivity|].
  split; [apply sort_desc_perm|].
  split; [apply sort_desc_sorted|].
  split; [exact (by_recency_stable s)|].
  split.
  { intros f Hf. unfold good_fits, not_fits, good_fits_of, not_fits_of.
    rewrite !filter_In, !String.eqb_eq.
    split; [tauto|]. split; [tauto|].
    intros [[_ H1] [_ H2]]. rewrite H1 in H2. discriminate. }
  split; [exact Hpass|].
  split; [exact Hsome|].
  split.
  { intro Hn. split; [exact (Hnone Hn)|].
    rewrite Hn in Hweights. apply Hweights. reflexivity. }
  split.
  { intros Hne Hmean a b.
    assert (Hcond : FloatRules.rule_condition FalsePositives good_fits not_fits
                    = true).
    { cbn [FloatRules.rule_condition]. apply andb_true_iff. split.
      - destruct not_fits; [congruence | reflexivity].
      - apply Qgt_bool_iff.
        assert (E : Float.lit (65 # 10) == 65 # 10) by (vm_compute; reflexivity).
        rewrite E. exact Hmean. }
    specialize (Hfirst Hcond). rewrite Hfirst in Hweights.
    cbn [FloatRules.rule_deltas fst snd] in Hweights.
    destruct Hweights as [_ Hnz].
    split; [exact Hfirst|]. apply Hnz. vm_compute. reflexivity. }
  intros cid hm notes recorded. subst recorded.
  vm_compute. repeat split; reflexivity.
Qed.

Lemma float_fresh_reachable : FloatFeedback.reachable FloatRules.fresh.
Proof.
  apply (FloatFeedback.reach_init (unconstructed 0 [])). reflexivity.
Qed.

Lemma float_repeat_record_reachable (n : nat) (cid hm : string) (fs : Q)
    (fb : string) (nt : option string) (s : System) :
  FloatFeedback.reachable s ->
  FloatFeedback.reachable (FloatRules.repeat_record n cid hm fs fb nt s).
Proof.
  revert s. induction n as [| n IH]; intros s H; cbn [FloatRules.repeat_record].
  - exact H.
  - apply IH, FloatFeedback.reach_record, H.
Qed.

(** Four rejections at 9.0 are stored; the pass on them takes 0.05 from
    the similarity weight: 0.6 - 0.05 is the float 0.5499999999999999. *)
Lemma adjustment_pass_rules_witness :
  let s := FloatRules.repeat_record 4 "c1" "m1" 9 "Not a Fit" None
             FloatRules.fresh in
  let s' := state_after FloatFeedback._adjust_weights_based_on_feedback s in
  FloatRules.first_rule (good_fits_of (window s)) (not_fits_of (window s))
  = Some FalsePositives
  /\ similarity_weight (self s')
     == Float.sub (Float.lit (6 # 10)) (Float.lit (5 # 100))
  /\ similarity_weight (self s') < Float.lit (55 # 100)
  /\ screening_weight (self s') == Float.lit (45 # 100).
Proof.
  intros s s'.
  destruct (adjustment_pass_rules s)
    as (_ & _ & _ & _ & _ & _ & _ & _ & _ & Hrule1 & _).
  - apply float_repeat_record_reachable, float_fresh_reachable.
  - reflexivity.
  - vm_compute. discriminate.
  - repeat constructor; vm_compute; discriminate.
  - destruct Hrule1 as (Hfirst & Hsw & Hscw).
    + vm_compute. discriminate.
    + vm_compute. reflexivity.
    + split; [exact Hfirst|]. fold s' in Hsw, Hscw. rewrite Hsw, Hscw.
      repeat split; vm_compute; reflexivity.
Defined.

(** The rules compare the means the interpreter computes.  The scores
    6.81, 5.24, 7.83, 5.92 and 6.7 have the mean 6.5, which is not above
    6.5; their sum in double precision, divided by 5, is
    6.500000000000002, and the pass applies rule 1. *)
Lemma pass_compares_the_computed_mean :
  let record fs s :=
    state_after
      (FloatFeedback.record_feedback "c1" "m1" (Float.lit fs) "Not a Fit" None) s in
  let s := record (67 # 10) (record (592 # 100) (record (783 # 100)
             (record (524 # 100) (record (681 # 100) FloatRules.fresh)))) in
  ((681 # 100) + (524 # 100) + (783 # 100) + (592 # 100) + (67 # 10)) / 5
  == 65 # 10
  /\ FloatRules.mean_final_score (not_fits_of (window s))
     == Float.lit (6500000000000002 # 1000000000000000)
  /\ 65 # 10 < FloatRules.mean_final_score (not_fits_of (window s))
  /\ map wh_trigger_action (weight_history_table s)
     = [rule_description (Some FalsePositives)]
  /\ similarity_weight (self s)
     == Float.sub (Float.lit (6 # 10)) (Float.lit (5 # 100))
  /\ screening_weight (self s) == Float.lit (45 # 100).
Proof.
  intros record s. repeat split; vm_compute; reflexivity.
Qed.

(** C4 as stated fails in three ways.  Five "Good Fit" entries with final
    score 6.0 trigger a pass that applies none of the four rules: the
    history gets a row with an empty description and the weights stay.
    The twelfth of twelve "Not a Fit" entries with final score 9.0 fires
    rule 1 with the weights already at 0.3 and 0.7: [similarity_weight]
    does not decrease.  And the entries the pass looks at are not always
    the most recent ones: of twelve entries stored within one second the
    pass takes the first ten, so that two "Good Fit" entries at 2.0
    recorded last are not seen. *)
Lemma adjustment_pass_may_apply_no_rule :
  (let quiet := FloatRules.repeat_record 5 "c1" "m1" 6 "Good Fit" None
                  FloatRules.fresh in
   FloatRules.first_rule (good_fits_of (window quiet)) (not_fits_of (window quiet))
   = None
   /\ map wh_trigger_action (weight_history_table quiet) = [EmptyString]
   /\ self quiet = self FloatRules.fresh)
  /\ (let before :=
        FloatRules.repeat_record 11 "c1" "m1" 9 "Not a Fit" None
          FloatRules.fresh in
      let after :=
        state_after (FloatFeedback.record_feedback "c1" "m1" 9 "Not a Fit" None)
          before in
      last (map wh_trigger_action (weight_history_table after)) EmptyString
      = rule_description (Some FalsePositives)
      /\ similarity_weight (self before) == Float.lit (3 # 10)
      /\ similarity_weight (self after) == Float.lit (3 # 10))
  /\ (let s := FloatRules.repeat_record 2 "c2" "m1" 2 "Good Fit" None
                 (FloatRules.repeat_record 10 "c1" "m1" 6 "Good Fit" None
                    FloatRules.fresh) in
      map row_candidate_id (feedback_table s)
      = repeat "c1"%string 10 ++ repeat "c2"%string 2
      /\ map candidate_id (window s) = repeat "c1"%string 10).
Proof.
  split; [| split].
  - vm_compute. repeat split; reflexivity.
  - split; [vm_compute; reflexivity|].
    split; vm_compute; reflexivity.
  - split; vm_compute; reflexivity.
Qed.
(** ** Reading the tables back: order and ties *)

(** X14.  What [record_feedback] stores, [export_feedback_data] returns:
    after a successful [record_feedback], an export on a readable storage
    lists every entry that was there before and the new one with the
    fields that were passed, one dictionary per row, in descending order
    of [created_at], a timestamp in whole seconds, rows of the same second
    in the order they were stored (so the new row comes after the older
    rows of its second).  On an unreadable storage the export is the empty
    list, not an error. *)
Theorem record_then_export (s : System)
    (candidate_id hiring_manager_id : string) (final_score : Q)
    (feedback : string) (notes : option string)
    (clock' : Z) (outages' : list bool) :
  accepted feedback -> storage_up s ->
  let s1 := state_after
              (record_feedback candidate_id hiring_manager_id final_score
                 feedback notes) s in
  let later := environment s1 clock' outages' in
  let stored :=
    feedback_table s
    ++ [written_row s candidate_id hiring_manager_id final_score
          feedback notes] in
  (hd false outages' = true -> value_of export_feedback_data later = Ok [])
  /\ (hd false outages' = false ->
      exists rows,
        value_of export_feedback_data later = Ok (map feedback_dict rows)
        /\ Permutation stored rows
        /\ StronglySorted (descending feedback_recency) rows
        /\ (forall t, stored_in_second row_created_at t rows
                      = stored_in_second row_created_at t stored)
        /\ In {| Feedback.candidate_id := candidate_id;
                 Feedback.hiring_manager_id := hiring_manager_id;
                 Feedback.final_score := final_score;
                 Feedback.feedback := feedback;
                 Feedback.notes := notes;
                 Feedback.created_at := (clock s / 1000000)%Z |}
             (map feedback_dict rows)).
Proof.
  intros Hok Hup s1 later stored.
  pose proof (record_feedback_table s candidate_id hiring_manager_id final_score
                feedback notes Hok Hup) as Htable.
  fold s1 stored in Htable.
  unfold value_of. rewrite export_feedback_data_value.
  cbn [fst later environment outages feedback_table]. rewrite Htable.
  split; [intros ->; reflexivity|].
  intros ->.
  eexists. split; [reflexivity|].
  split; [apply sort_desc_perm|].
  split; [apply sort_desc_sorted|].
  split.
  { intro t. unfold stored_in_second, feedback_recency. apply sort_desc_filter.
    intros a b Hlt Ha Hb. apply Z.eqb_eq in Ha, Hb.
    rewrite <- Zlt_Qlt in Hlt. lia. }
  apply (in_map feedback_dict _
           (written_row s candidate_id hiring_manager_id final_score feedback notes)).
  eapply Permutation_in; [apply sort_desc_perm|].
  apply in_or_app. right. now left.
Qed.

(** Two entries recorded within the same second are exported in the order
    they were stored: the later one second. *)
Lemma record_then_export_witness :
  let s := state_after (record_feedback "c1" "m1" 9 "Good Fit" (Some "ok"%string))
             fresh in
  let s1 := state_after (record_feedback "c2" "m1" 4 "Not a Fit" None) s in
  value_of export_feedback_data s1
  = Ok [ {| Feedback.candidate_id := "c1";
            Feedback.hiring_manager_id := "m1";
            Feedback.final_score := 9;
            Feedback.feedback := "Good Fit";
            Feedback.notes := Some "ok"%string;
            Feedback.created_at := 0 |};
         {| Feedback.candidate_id := "c2";
            Feedback.hiring_manager_id := "m1";
            Feedback.final_score := 4;
            Feedback.feedback := "Not a Fit";
            Feedback.notes := None;
            Feedback.created_at := 0 |} ].
Proof.
  intros s s1.
  destruct (record_then_export s "c2" "m1" 4 "Not a Fit" None 0 [])
    as [_ Hread].
  - right. reflexivity.
  - reflexivity.
  - destruct (Hread eq_refl) as (rows & _ & _ & _ & _ & _). reflexivity.
Defined.

(** X15.  [get_weight_history] never raises and changes nothing.  On a
    readable storage it returns the first [limit] records of the history
    table in descending order of [created_at], a timestamp in whole
    seconds, records of the same second in the order they were written:
    no record left out has a later timestamp than a record returned, and
    with a [limit] of at least the table's size every record is returned.
    On an unreadable storage it returns the empty list. *)
Theorem get_weight_history_recent (limit : nat) (s : System) :
  exists rows,
    value_of (get_weight_history limit) s = Ok (map weight_history_dict rows)
    /\ self (state_after (get_weight_history limit) s) = self s
    /\ weight_history_table (state_after (get_weight_history limit) s)
       = weight_history_table s
    /\ (storage_down s -> rows = [])
    /\ (storage_up s ->
        List.length rows = Nat.min limit (List.length (weight_history_table s))
        /\ StronglySorted (descending history_recency) rows
        /\ (forall r, In r rows -> In r (weight_history_table s))
        /\ (exists left_out,
              Permutation (weight_history_table s) (rows ++ left_out)
              /\ StronglySorted (descending history_recency) (rows ++ left_out)
              /\ (forall t,
                    stored_in_second wh_created_at t (rows ++ left_out)
                    = stored_in_second wh_created_at t (weight_history_table s))
              /\ forall a b, In a rows -> In b left_out ->
                             (wh_created_at b <= wh_created_at a)%Z)
        /\ (List.length (weight_history_table s) <= limit ->
            Permutation (weight_history_table s) rows))%nat.
Proof.
  unfold value_of, state_after. rewrite get_weight_history_value. cbn [fst snd].
  unfold storage_down, storage_up.
  set (sorted := sort_desc history_recency (weight_history_table s)).
  assert (Hs : StronglySorted (descending history_recency) sorted)
    by apply sort_desc_sorted.
  assert (Hp : Permutation (weight_history_table s) sorted)
    by apply sort_desc_perm.
  destruct (hd false (outages s)).
  - exists []. repeat split; try reflexivity; discriminate.
  - exists (firstn limit sorted).
    split; [reflexivity|]. split; [reflexivity|]. split; [reflexivity|].
    split; [discriminate|]. intros _.
    split.
    { rewrite length_firstn. unfold sorted. now rewrite sort_desc_length. }
    split; [now apply firstn_sorted|].
    split.
    { intros r Hr. apply in_firstn in Hr.
      eapply Permutation_in; [apply Permutation_sym, Hp | exact Hr]. }
    split.
    { exists (skipn limit sorted). rewrite firstn_skipn.
      split; [exact Hp|]. split; [exact Hs|]. split.
      - intro t. unfold stored_in_second, sorted, history_recency.
        apply sort_desc_filter.
        intros a b Hlt Ha Hb. apply Z.eqb_eq in Ha, Hb.
        rewrite <- Zlt_Qlt in Hlt. lia.
      - intros a b Ha Hb. rewrite Zle_Qle.
        exact (descending_firstn history_recency limit sorted Hs a b Ha Hb). }
    intro Hall. rewrite firstn_all2; [exact Hp|].
    unfold sorted. now rewrite sort_desc_length.
Qed.

(** Two resets within one second, a feedback in between: with a [limit]
    of 1 the record returned is the one of the first reset. *)
Lemma get_weight_history_same_second :
  let s := state_after reset_weights
             (state_after (record_feedback "c1" "m1" 9 "Good Fit" None)
                (state_after reset_weights fresh)) in
  map wh_feedback_count (weight_history_table s) = [0; 1]%Z
  /\ map wh_created_at (weight_history_table s) = [0; 0]%Z
  /\ exists d, value_of (get_weight_history 1) s = Ok [d]
               /\ hist_feedback_count d = 0%Z.
Proof.
  intro s. split; [reflexivity|]. split; [reflexivity|].
  eexists. split; reflexivity.
Qed.

(** ** The record a pass leaves, in the interpreter's arithmetic *)

Lemma float_pass_without_data (s s1 : System) :
  _get_recent_feedback 10 s = (Ok [], s1) ->
  FloatFeedback._adjust_weights_based_on_feedback s = (Ok tt, s1).
Proof.
  intro H. unfold FloatFeedback._adjust_weights_based_on_feedback, try_except, bind.
  rewrite H. reflexivity.
Qed.

(** The state a rule leaves before the pass is logged. *)
Lemma float_apply_rule_steps (r : option rule) (n : Z) (s0 : System) :
  let ds := fst (FloatRules.rule_deltas (learning_rate (self s0)) r) in
  let dsc := snd (FloatRules.rule_deltas (learning_rate (self s0)) r) in
  exists s1 s2,
    FloatFeedback.apply_weight_adjustments ds dsc s1 = (Ok tt, s2)
    /\ state_after (FloatRules.apply_rule r n) s0
       = state_after (_record_weight_adjustment (rule_description r) n) s2
    /\ weight_history_table s2 = weight_history_table s0
    /\ clock s2 = clock s0 /\ outages s2 = outages s0
    /\ confidence (self s2)
       = match r with
         | Some Reinforce =>
             Qmin (Float.lit (95 # 100))
               (Float.add (confidence (self s0)) (Float.lit (1 # 10)))
         | Some ConsistentRejection =>
             Qmin (Float.lit (95 # 100))
               (Float.add (confidence (self s0)) (Float.lit (5 # 100)))
         | _ => confidence (self s0)
         end.
Proof.
  intros ds dsc.
  assert (H1 : exists s1,
             state_after (FloatRules.apply_rule r n) s0
             = state_after
                 (FloatFeedback.apply_weight_adjustments ds dsc ;;
                  _record_weight_adjustment (rule_description r) n) s1
             /\ weight_history_table s1 = weight_history_table s0
             /\ clock s1 = clock s0 /\ outages s1 = outages s0
             /\ confidence (self s1)
                = match r with
                  | Some Reinforce =>
                      Qmin (Float.lit (95 # 100))
                        (Float.add (confidence (self s0)) (Float.lit (1 # 10)))
                  | Some ConsistentRejection =>
                      Qmin (Float.lit (95 # 100))
                        (Float.add (confidence (self s0)) (Float.lit (5 # 100)))
                  | _ => confidence (self s0)
                  end).
  { unfold state_after, FloatRules.apply_rule, ds, dsc.
    destruct r as [[] |]; eexists; repeat split. }
  destruct H1 as (s1 & E1 & Hwh & Hclk & Houts & Hconf).
  destruct (float_apply_weight_adjustments_value ds dsc s1)
    as (s2 & Hrun & _ & Hwh2 & Hclk2 & Houts2 & Hconf2 & _).
  exists s1, s2. split; [exact Hrun|].
  split; [rewrite E1; unfold state_after, bind; now rewrite Hrun|].
  repeat split; congruence.
Qed.

(** The history after a pass that has data. *)
Lemma float_pass_history (s : System) :
  storage_up s -> window s <> [] ->
  let s' := state_after FloatFeedback._adjust_weights_based_on_feedback s in
  let r := FloatRules.first_rule (good_fits_of (window s))
             (not_fits_of (window s)) in
  (storage_up (after_connect s) ->
   weight_history_table s'
   = weight_history_table s
     ++ [history_record (weight_history_table s) (self s')
           (rule_description r) (len (window s)) (clock s / 1000000)])
  /\ (storage_down (after_connect s) ->
      weight_history_table s' = weight_history_table s).
Proof.
  intros Hup Hdata s' r. subst s'.
  rewrite (float_adjust_weights_applies_first_rule s Hup Hdata). fold r.
  destruct (float_apply_rule_steps r (len (window s)) (after_connect s))
    as (s1 & s2 & _ & E & Hwh & Hclk & Houts & _).
  rewrite E. unfold state_after.
  rewrite record_weight_adjustment_value.
  rewrite Houts. unfold storage_up, storage_down.
  destruct (hd false (outages (after_connect s)));
    cbn [snd weight_history_table self after_connect];
    rewrite ?Hwh, ?Hclk; cbn [after_connect weight_history_table clock];
    (split; intro H); try discriminate H; reflexivity.
Qed.

(** X19.  An adjustment pass never raises and never touches the feedback
    table.  If the recent feedback cannot be read, or there is none, the
    pass changes nothing.  Otherwise, when the storage takes the write,
    exactly one history record is appended, carrying the weights and the
    confidence the collector has after the pass, the text of the rule
    applied (empty when no rule applies; the rule being chosen on the
    means in double precision, for scores up to 1e300) and the size of the
    window; when the storage refuses the write, no record is appended. *)
Theorem pass_is_logged (s : System) :
  FloatRules.scores_in_range (window s) ->
  let s' := state_after FloatFeedback._adjust_weights_based_on_feedback s in
  let r := FloatRules.first_rule (good_fits_of (window s))
             (not_fits_of (window s)) in
  value_of FloatFeedback._adjust_weights_based_on_feedback s = Ok tt
  /\ feedback_table s' = feedback_table s
  /\ (storage_down s \/ window s = [] ->
      self s' = self s /\ weight_history_table s' = weight_history_table s)
  /\ (storage_up s -> window s <> [] ->
      (storage_up (after_connect s) ->
       weight_history_table s'
       = weight_history_table s
         ++ [history_record (weight_history_table s) (self s')
               (rule_description r) (len (window s)) (clock s / 1000000)])
      /\ (storage_down (after_connect s) ->
          weight_history_table s' = weight_history_table s)).
Proof.
  intros _ s' r.
  split; [| split; [| split]].
  - unfold value_of, FloatFeedback._adjust_weights_based_on_feedback, try_except.
    match goal with |- fst (match ?m with _ => _ end) = _ =>
      destruct m as [[[] | e] s1] end; reflexivity.
  - assert (F : preserves (on_feedback (fun t => t = feedback_table s))
                  FloatFeedback._adjust_weights_based_on_feedback).
    { unfold FloatFeedback._adjust_weights_based_on_feedback. frame.
      unfold FloatFeedback.select_adjustment. frame.
      unfold FloatFeedback.apply_weight_adjustments. frame. }
    exact (F s eq_refl).
  - intro Hskip. subst s'. unfold state_after.
    rewrite (float_pass_without_data s (after_connect s)); [split; reflexivity|].
    destruct (hd false (outages s)) eqn:E.
    + exact (get_recent_feedback_down 10 s E).
    + rewrite (get_recent_feedback_up s E).
      destruct Hskip as [Hdown | ->]; [|reflexivity].
      unfold storage_down in Hdown. congruence.
  - intros Hup Hdata. exact (float_pass_history s Hup Hdata).
Qed.

(** Four rejections at 9.0 are stored, then the pass runs: one record,
    with the text of rule 1, the window size 4 and the weights the pass
    has left. *)
Lemma pass_is_logged_witness :
  let s := FloatRules.repeat_record 4 "c1" "m1" 9 "Not a Fit" None
             FloatRules.fresh in
  let s' := state_after FloatFeedback._adjust_weights_based_on_feedback s in
  exists record,
    weight_history_table s' = [record]
    /\ wh_trigger_action record
       = "Reduce similarity weight (false positives detected)"%string
    /\ wh_feedback_count record = 4%Z
    /\ wh_similarity_weight record = similarity_weight (self s')
    /\ wh_similarity_weight record
       == Float.sub (Float.lit (6 # 10)) (Float.lit (5 # 100)).
Proof.
  intros s s'.
  destruct (pass_is_logged s) as (_ & _ & _ & Hlog).
  - repeat constructor; vm_compute; discriminate.
  - destruct Hlog as [Hlog _]; [reflexivity | vm_compute; discriminate|].
    fold s' in Hlog. eexists. split; [apply Hlog; reflexivity|].
    split; [vm_compute; reflexivity|]. split; [vm_compute; reflexivity|].
    split; [reflexivity|]. vm_compute. reflexivity.
Defined.

(** ** What each rule does *)

(** X18.  What a pass does once its rule is known (storage readable,
    window not empty, scores up to 1e300), in double precision.  Rules 1
    and 2 leave the confidence; rule 3, "reinforce", sets it to
    min(0.95, confidence + 0.1) and rule 4 to min(0.95, confidence + 0.05).
    Rule 4 and no rule leave both weights exactly as they are.  Rules 1, 2
    and 3 replace the weights: the delta of the rule is added, each weight
    is clamped to its range and both are divided by their sum; so
    "reinforce" does not keep the current weights. *)
Theorem rule_effects (s : System) :
  FloatFeedback.reachable s -> storage_up s -> window s <> [] ->
  FloatRules.scores_in_range (window s) ->
  let r := FloatRules.first_rule (good_fits_of (window s))
             (not_fits_of (window s)) in
  let s' := state_after FloatFeedback._adjust_weights_based_on_feedback s in
  let ds := fst (FloatRules.rule_deltas (Float.lit (5 # 100)) r) in
  let dsc := snd (FloatRules.rule_deltas (Float.lit (5 # 100)) r) in
  let a := clamp (Float.lit (3 # 10)) (Float.lit (8 # 10))
             (Float.add (similarity_weight (self s)) ds) in
  let b := clamp (Float.lit (2 # 10)) (Float.lit (7 # 10))
             (Float.add (screening_weight (self s)) dsc) in
  (r = Some FalsePositives \/ r = Some ScreeningUnderweighted ->
   confidence (self s') = confidence (self s))
  /\ (r = Some Reinforce ->
      confidence (self s')
      = Qmin (Float.lit (95 # 100))
          (Float.add (confidence (self s)) (Float.lit (1 # 10))))
  /\ (r = Some ConsistentRejection ->
      confidence (self s')
      = Qmin (Float.lit (95 # 100))
          (Float.add (confidence (self s)) (Float.lit (5 # 100))))
  /\ (r = Some ConsistentRejection \/ r = None ->
      similarity_weight (self s') = similarity_weight (self s)
      /\ screening_weight (self s') = screening_weight (self s))
  /\ (r = None -> confidence (self s') = confidence (self s))
  /\ (r = Some FalsePositives \/ r = Some ScreeningUnderweighted
      \/ r = Some Reinforce ->
      similarity_weight (self s') = Float.div a (Float.add a b)
      /\ screening_weight (self s') = Float.div b (Float.add a b)).
Proof.
  intros Hreach Hup Hdata _ r s' ds dsc a b.
  pose proof (float_adjust_weights_applies_first_rule s Hup Hdata) as Hpass.
  fold s' r in Hpass.
  pose proof (float_reachable_rate s Hreach) as Hrate.
  pose proof (float_apply_rule_weights r (len (window s)) (after_connect s))
    as Hweights.
  cbv zeta in Hweights. rewrite <- Hpass in Hweights.
  cbn [after_connect self] in Hweights. rewrite Hrate in Hweights.
  fold ds dsc a b in Hweights.
  assert (Hconf : confidence (self s')
                  = match r with
                    | Some Reinforce =>
                        Qmin (Float.lit (95 # 100))
                          (Float.add (confidence (self s)) (Float.lit (1 # 10)))
                    | Some ConsistentRejection =>
                        Qmin (Float.lit (95 # 100))
                          (Float.add (confidence (self s)) (Float.lit (5 # 100)))
                    | _ => confidence (self s)
                    end).
  { destruct (float_apply_rule_steps r (len (window s)) (after_connect s))
      as (s1 & s2 & _ & E & _ & _ & _ & Hc).
    rewrite Hpass, E.
    pose proof (record_weight_adjustment_on_self (fun c => c = self s2)
                  (rule_description r) (len (window s)) s2 eq_refl) as Hkeep.
    unfold on_self in Hkeep. unfold state_after. rewrite Hkeep. exact Hc. }
  destruct Hweights as [Hzero Hnonzero].
  split; [intros [E | E]; rewrite E in Hconf; exact Hconf|].
  split; [intro E; rewrite E in Hconf; exact Hconf|].
  split; [intro E; rewrite E in Hconf; exact Hconf|].
  split.
  { intros [E | E]; apply Hzero; unfold ds, dsc; rewrite E; reflexivity. }
  split; [intro E; rewrite E in Hconf; exact Hconf|].
  intros [E | [E | E]]; apply Hnonzero; unfold ds, dsc; rewrite E;
    vm_compute; reflexivity.
Qed.

(** Four "Good Fit" entries at 9.0 are stored, then the pass reinforces:
    the confidence goes from 0.5 to 0.6 and the similarity weight from
    0.6 to the next float, 0.6000000000000001. *)
Lemma rule_effects_witness :
  let s := FloatRules.repeat_record 4 "c1" "m1" 9 "Good Fit" None
             FloatRules.fresh in
  let s' := state_after FloatFeedback._adjust_weights_based_on_feedback s in
  similarity_weight (self s) == Float.lit (6 # 10)
  /\ Float.lit (6 # 10) < similarity_weight (self s')
  /\ similarity_weight (self s') == Float.lit (6 # 10) + Float.pow2 (-53)
  /\ confidence (self s') == Float.lit (6 # 10).
Proof.
  intros s s'.
  destruct (rule_effects s) as (_ & Hconf & _ & _ & _ & Hw).
  - apply float_repeat_record_reachable, float_fresh_reachable.
  - reflexivity.
  - vm_compute. discriminate.
  - repeat constructor; vm_compute; discriminate.
  - fold s' in Hconf, Hw.
    destruct Hw as [Hsw _]; [right; right; vm_compute; reflexivity|].
    rewrite Hsw, Hconf by (vm_compute; reflexivity).
    repeat split; vm_compute; reflexivity.
Defined.

(** ** The explanation and the recommendation *)







